(** * subway_matrixm4: time normalisation, schedule aggregation, scrolling and
    session life cycle of [code.py], embedded as Rocq functions.

    Conventions of the embedding.
    - Python values that arrive from the network (decoded JSON) are [pyval]s;
      the dynamic operations the code applies to them ([in], [len], [x[0]],
      [x['k']], iteration, [.get], truthiness, [int]) are written out with
      the exception each raises on the other shapes.
    - A call that may raise returns a [result]; [Raise e] aborts the rest of
      the function, as a Python exception does.
    - Strings are byte strings (ASCII); epochs are integer seconds, as on the
      board the program runs on (its [time.mktime] and [time.time] are
      integral).  The quotient [int(x / 60)] is truncation toward zero,
      [Z.quot]; floating rounding of the intermediate quotient is not
      modelled.
    - Calls that leave the program ([network.get_local_time],
      [network.fetch], [time.time], [time.monotonic], [time.mktime],
      [float]) are inputs of the functions that make them. *)

From Stdlib Require Import ZArith QArith Qround List Bool Ascii String Lia.
From Stdlib Require Import Sorted Permutation.
From Stdlib Require DecimalString.
Import ListNotations.

Local Open Scope Z_scope.
Local Open Scope string_scope.

(** ** Exceptions and results *)

Inductive exn : Type :=
| ValueError
| IndexError
| KeyError
| TypeError
| AttributeError
| OverflowError
| MemoryError
| RuntimeError
| OSError.

Inductive result (A : Type) : Type :=
| Ok (a : A)
| Raise (e : exn).

Arguments Ok {A} a.
Arguments Raise {A} e.

Definition bind {A B : Type} (m : result A) (k : A -> result B) : result B :=
  match m with
  | Ok a => k a
  | Raise e => Raise e
  end.

Notation "x <- m ;; k" := (bind m (fun x => k))
  (at level 61, m at next level, right associativity).

Definition exn_eqb (a b : exn) : bool :=
  match a, b with
  | ValueError, ValueError | IndexError, IndexError | KeyError, KeyError
  | TypeError, TypeError | AttributeError, AttributeError
  | OverflowError, OverflowError | MemoryError, MemoryError
  | RuntimeError, RuntimeError | OSError, OSError => true
  | _, _ => false
  end.

(** ** Strings as Python uses them *)

Module PyStr.

(** [str.isspace] on ASCII: TAB..CR, FS..US and the blank. *)
Definition is_space (c : ascii) : bool :=
  let n := nat_of_ascii c in
  ((9 <=? n)%nat && (n <=? 13)%nat) || ((28 <=? n)%nat && (n <=? 32)%nat).

Definition is_digit (c : ascii) : bool :=
  let n := nat_of_ascii c in (48 <=? n)%nat && (n <=? 57)%nat.

Definition digit_val (c : ascii) : Z := Z.of_nat (nat_of_ascii c) - 48.

Definition cons_nonempty (tok : string) (rest : list string) : list string :=
  match tok with
  | EmptyString => rest
  | _ => tok :: rest
  end.

(** [s.split()]: the maximal runs of characters that are not white space. *)
Fixpoint split_ws_go (s : string) : string * list string :=
  match s with
  | EmptyString => (EmptyString, [])
  | String c s' =>
      let (tok, rest) := split_ws_go s' in
      if is_space c then (EmptyString, cons_nonempty tok rest)
      else (String c tok, rest)
  end.

Definition split_ws (s : string) : list string :=
  let (tok, rest) := split_ws_go s in cons_nonempty tok rest.

(** [s.split(sep)] for a one-character separator: never empty. *)
Fixpoint split_go (sep : ascii) (s : string) : string * list string :=
  match s with
  | EmptyString => (EmptyString, [])
  | String c s' =>
      let (tok, rest) := split_go sep s' in
      if Ascii.eqb c sep then (EmptyString, tok :: rest)
      else (String c tok, rest)
  end.

Definition split (sep : ascii) (s : string) : list string :=
  let (tok, rest) := split_go sep s in tok :: rest.

(** The cut at the last [sep], if there is one. *)
Fixpoint rcut (sep : ascii) (s : string) : option (string * string) :=
  match s with
  | EmptyString => None
  | String c s' =>
      match rcut sep s' with
      | Some (a, b) => Some (String c a, b)
      | None => if Ascii.eqb c sep then Some (EmptyString, s') else None
      end
  end.

(** [s.rsplit(sep, 1)]: one or two pieces. *)
Definition rsplit1 (sep : ascii) (s : string) : list string :=
  match rcut sep s with
  | Some (a, b) => [a; b]
  | None => [s]
  end.

(** [c in s] for a one-character [c]. *)
Fixpoint contains (c : ascii) (s : string) : bool :=
  match s with
  | EmptyString => false
  | String c' s' => Ascii.eqb c' c || contains c s'
  end.

(** [sub in s] for strings. *)
Definition is_infix (sub s : string) : bool :=
  match String.index 0 sub s with
  | Some _ => true
  | None => false
  end.

(** The white space [int] skips around a numeral: TAB..CR and the blank.
    FS..US are white space for [str.split] but not here: [int] raises
    [ValueError] on a numeral that they precede or follow. *)
Definition is_int_space (c : ascii) : bool :=
  let n := nat_of_ascii c in
  ((9 <=? n)%nat && (n <=? 13)%nat) || (n =? 32)%nat.

Fixpoint lstrip (s : string) : string :=
  match s with
  | EmptyString => EmptyString
  | String c s' => if is_int_space c then lstrip s' else s
  end.

Fixpoint rstrip (s : string) : string :=
  match s with
  | EmptyString => EmptyString
  | String c s' =>
      match rstrip s' with
      | EmptyString =>
          if is_int_space c then EmptyString else String c EmptyString
      | r => String c r
      end
  end.

(** What [int] reads of its argument. *)
Definition strip (s : string) : string := rstrip (lstrip s).

(** Decimal digits, a single underscore allowed between two digits. *)
Fixpoint parse_digits (acc : Z) (after_digit : bool) (s : string) : option Z :=
  match s with
  | EmptyString => if after_digit then Some acc else None
  | String c s' =>
      if is_digit c then parse_digits (10 * acc + digit_val c) true s'
      else if Ascii.eqb c "_" then
        (if after_digit then parse_digits acc false s' else None)
      else None
  end.

(** [int(s)] on a string; [None] is the [ValueError]. *)
Definition py_int (s : string) : option Z :=
  match strip s with
  | String "+" r => parse_digits 0 false r
  | String "-" r => option_map Z.opp (parse_digits 0 false r)
  | t => parse_digits 0 false t
  end.

Definition int_of_str (s : string) : result Z :=
  match py_int s with
  | Some z => Ok z
  | None => Raise ValueError
  end.

(** [s[i:j]] for [0 <= i <= j]. *)
Definition slice (i j : nat) (s : string) : string := substring i (j - i) s.

Definition upper_char (c : ascii) : ascii :=
  let n := nat_of_ascii c in
  if (97 <=? n)%nat && (n <=? 122)%nat then ascii_of_nat (n - 32) else c.

Definition lower_char (c : ascii) : ascii :=
  let n := nat_of_ascii c in
  if (65 <=? n)%nat && (n <=? 90)%nat then ascii_of_nat (n + 32) else c.

Fixpoint map_chars (f : ascii -> ascii) (s : string) : string :=
  match s with
  | EmptyString => EmptyString
  | String c s' => String (f c) (map_chars f s')
  end.

Definition upper : string -> string := map_chars upper_char.
Definition lower : string -> string := map_chars lower_char.

(** [sep.join(l)]. *)
Fixpoint join (sep : string) (l : list string) : string :=
  match l with
  | [] => EmptyString
  | [x] => x
  | x :: rest => x ++ sep ++ join sep rest
  end.

(** [str(n)] for an integer. *)
Definition str_of_Z (z : Z) : string :=
  DecimalString.NilZero.string_of_int (Z.to_int z).

Definition len (s : string) : Z := Z.of_nat (String.length s).

End PyStr.

(** ** Floats *)

(** A Python float: a finite value (a rational), an infinity or a NaN. *)
Inductive pyfloat : Type :=
| Finite (q : Q)
| Inf
| NaN.

(** Truncation toward zero. *)
Definition Qtrunc (q : Q) : Z := Z.quot (Qnum q) (Zpos (Qden q)).

(** [int(f)]. *)
Definition int_of_float (f : pyfloat) : result Z :=
  match f with
  | Finite q => Ok (Qtrunc q)
  | Inf => Raise OverflowError
  | NaN => Raise ValueError
  end.


(** ** Decoded JSON and the dynamic operations applied to it *)

#[warnings="-register-all"]
Inductive pyval : Type :=
| PNone
| PBool (b : bool)
| PInt (z : Z)
| PFloat (f : pyfloat)
| PStr (s : string)
| PList (l : list pyval)
| PDict (d : list (string * pyval)).

Module Py.

(** A dict is kept as its items; a key is looked up from the left. *)
Fixpoint lookup (k : string) (d : list (string * pyval)) : option pyval :=
  match d with
  | [] => None
  | (k', v) :: rest => if String.eqb k' k then Some v else lookup k rest
  end.

Definition has_key (k : string) (d : list (string * pyval)) : bool :=
  match lookup k d with
  | Some _ => true
  | None => false
  end.

Definition is_str (k : string) (v : pyval) : bool :=
  match v with
  | PStr s => String.eqb s k
  | _ => false
  end.

(** [k in x] for a string [k]. *)
Definition contains (k : string) (x : pyval) : result bool :=
  match x with
  | PDict d => Ok (has_key k d)
  | PList l => Ok (existsb (is_str k) l)
  | PStr s => Ok (PyStr.is_infix k s)
  | _ => Raise TypeError
  end.

(** [len(x)]. *)
Definition len (x : pyval) : result Z :=
  match x with
  | PStr s => Ok (PyStr.len s)
  | PList l => Ok (Z.of_nat (List.length l))
  | PDict d => Ok (Z.of_nat (List.length d))
  | _ => Raise TypeError
  end.

(** [x[0]]; the keys of a decoded JSON object are strings, so [0] is never
    one of them. *)
Definition first (x : pyval) : result pyval :=
  match x with
  | PList (v :: _) => Ok v
  | PList [] => Raise IndexError
  | PStr (String c _) => Ok (PStr (String c EmptyString))
  | PStr EmptyString => Raise IndexError
  | PDict _ => Raise KeyError
  | _ => Raise TypeError
  end.

(** [x[k]] for a string [k]. *)
Definition getitem (k : string) (x : pyval) : result pyval :=
  match x with
  | PDict d =>
      match lookup k d with
      | Some v => Ok v
      | None => Raise KeyError
      end
  | _ => Raise TypeError
  end.

Fixpoint chars (s : string) : list pyval :=
  match s with
  | EmptyString => []
  | String c s' => PStr (String c EmptyString) :: chars s'
  end.

(** The elements [for v in x] visits. *)
Definition iter (x : pyval) : result (list pyval) :=
  match x with
  | PList l => Ok l
  | PStr s => Ok (chars s)
  | PDict d => Ok (map (fun kv => PStr (fst kv)) d)
  | _ => Raise TypeError
  end.

(** [x.get(k, default)]: a method of dicts only. *)
Definition get (k : string) (default : pyval) (x : pyval) : result pyval :=
  match x with
  | PDict d =>
      match lookup k d with
      | Some v => Ok v
      | None => Ok default
      end
  | _ => Raise AttributeError
  end.

Definition Qnonzero (q : Q) : bool := negb (Qnum q =? 0)%Z.

(** Truth value of [x]. *)
Definition truthy (x : pyval) : bool :=
  match x with
  | PNone => false
  | PBool b => b
  | PInt z => negb (z =? 0)%Z
  | PFloat (Finite q) => Qnonzero q
  | PFloat _ => true
  | PStr s => negb (String.eqb s EmptyString)
  | PList l => match l with [] => false | _ => true end
  | PDict d => match d with [] => false | _ => true end
  end.

(** [int(x)]. *)
Definition to_int (x : pyval) : result Z :=
  match x with
  | PInt z => Ok z
  | PBool b => Ok (if b then 1 else 0)
  | PFloat f => int_of_float f
  | PStr s => PyStr.int_of_str s
  | _ => Raise TypeError
  end.

End Py.

(** ** TimeNormalizer *)

(** What [network.get_local_time()] hands back. *)
Inductive clock_reading : Type :=
| RNum (epoch : Z)
| RStruct (year month day hour minute second : Z)
| RStr (s : string)
| ROther.

(** [time.mktime((year, month, day, hour, minute, second, 0, 0, -1))] and
    [float(s)] belong to the platform; the functions that call them take
    them as arguments.  [float(s)] either raises [ValueError] ([None]) or
    yields a float. *)
Definition mktime_t : Type := Z -> Z -> Z -> Z -> Z -> Z -> result Z.
Definition float_t : Type := string -> option pyfloat.

Module TrainTimeParser.

Section Platform.

Variable mktime : mktime_t.
Variable float : float_t.

(** [a, b, c = l]. *)
Definition unpack3 {A : Type} (l : list A) : result (A * A * A) :=
  match l with
  | [a; b; c] => Ok (a, b, c)
  | _ => Raise ValueError
  end.

Definition unpack2 {A : Type} (l : list A) : result (A * A) :=
  match l with
  | [a; b] => Ok (a, b)
  | _ => Raise ValueError
  end.

(** [a, b, c = map(int, l)]: the integers are read as they are unpacked, and
    every failure, of [int] or of the count, is a [ValueError]. *)
Fixpoint map_int (l : list string) : result (list Z) :=
  match l with
  | [] => Ok []
  | s :: rest =>
      z <- PyStr.int_of_str s ;;
      zs <- map_int rest ;;
      Ok (z :: zs)
  end.

Definition nth_str (i : nat) (l : list string) : result string :=
  match nth_error l i with
  | Some s => Ok s
  | None => Raise IndexError
  end.

Definition int_of_float_str (s : string) : result Z :=
  match float s with
  | Some f => int_of_float f
  | None => Raise ValueError
  end.

(** Lines 85-92: the local epoch of the date and time tokens. *)
Definition local_time (date_str time_str : string) : result Z :=
  ymd <- (l <- map_int (PyStr.split "-" date_str) ;; unpack3 l) ;;
  let '(year, month, day) := ymd in
  hms <- unpack3 (PyStr.split ":" time_str) ;;
  let '(hour, minute, second_float) := hms in
  hour <- PyStr.int_of_str hour ;;
  minute <- PyStr.int_of_str minute ;;
  second <- int_of_float_str second_float ;;
  mktime year month day hour minute second.

(** Lines 95-98: the offset in seconds of a token such as ["-0800"]. *)
Definition tz_offset_seconds (tz_offset_str : string) : result Z :=
  tz_sign <-
    match tz_offset_str with
    | String c _ => Ok (if Ascii.eqb c "+" then 1 else -1)
    | EmptyString => Raise IndexError
    end ;;
  tz_hours <- PyStr.int_of_str (PyStr.slice 1 3 tz_offset_str) ;;
  tz_minutes <- PyStr.int_of_str (PyStr.slice 3 5 tz_offset_str) ;;
  Ok (tz_sign * (tz_hours * 3600 + tz_minutes * 60)).

(** The body of the [try] of [get_current_time_utc], lines 79-101. *)
Definition parse_clock_string (time_response : string) : result Z :=
  let parts := PyStr.split_ws time_response in
  date_str <- nth_str 0 parts ;;
  time_str <- nth_str 1 parts ;;
  tz_offset_str <-
    (if (4 <? Z.of_nat (List.length parts))%Z then nth_str 4 parts
     else Ok "+0000") ;;
  local_time <- local_time date_str time_str ;;
  tz_offset_seconds <- tz_offset_seconds tz_offset_str ;;
  Ok (local_time - tz_offset_seconds).

(** [get_current_time_utc], lines 61-111.  [clock] is the outcome of
    [self.network.get_local_time()], [host_time] what [time.time()] would
    return. *)
Definition get_current_time_utc
    (clock : result clock_reading) (host_time : Z) : result Z :=
  time_response <- clock ;;
  match time_response with
  | RNum epoch => Ok epoch
  | RStruct y mo d h mi s => mktime y mo d h mi s
  | RStr s =>
      match parse_clock_string s with
      | Ok t => Ok t
      | Raise ValueError | Raise IndexError => Ok host_time
      | Raise e => Raise e
      end
  | ROther => Ok host_time
  end.

(** [parse_iso8601_to_utc], lines 113-149. *)
Definition parse_iso8601_to_utc (time_str : string) : result Z :=
  split <-
    (if PyStr.contains "+" time_str then
       p <- unpack2 (PyStr.rsplit1 "+" time_str) ;;
       Ok (fst p, snd p, 1)
     else
       let parts := PyStr.rsplit1 "-" time_str in
       dt_part <- nth_str 0 parts ;;
       let tz_part :=
         match parts with
         | _ :: p1 :: _ => if PyStr.contains ":" p1 then p1 else "00:00"
         | _ => "00:00"
         end in
       Ok (dt_part, tz_part, -1)) ;;
  let '(dt_part, tz_part, tz_sign) := split in
  dt <- unpack2 (PyStr.split "T" dt_part) ;;
  let (date_part, time_part) := dt in
  ymd <- (l <- map_int (PyStr.split "-" date_part) ;; unpack3 l) ;;
  let '(year, month, day) := ymd in
  hms <- (l <- map_int (PyStr.split ":" time_part) ;; unpack3 l) ;;
  let '(hour, minute, second) := hms in
  tz <- (l <- map_int (PyStr.split ":" tz_part) ;; unpack2 l) ;;
  let (tz_hours, tz_minutes) := tz in
  let tz_offset_seconds := tz_sign * (tz_hours * 3600 + tz_minutes * 60) in
  local_timestamp <- mktime year month day hour minute second ;;
  Ok (local_timestamp - tz_offset_seconds).

End Platform.

End TrainTimeParser.

(** *** Reference instances of the platform functions

    Used where a statement is evaluated on a concrete reading. *)

(** Days from 1970-01-01 to the civil date [y]-[m]-[d] (proleptic Gregorian
    calendar, [1 <= m <= 12]). *)
Definition days_from_civil (y m d : Z) : Z :=
  let y' := if (m <=? 2)%Z then y - 1 else y in
  let era := y' / 400 in
  let yoe := y' - era * 400 in
  let mp := if (2 <? m)%Z then m - 3 else m + 9 in
  let doy := (153 * mp + 2) / 5 + d - 1 in
  let doe := yoe * 365 + yoe / 4 - yoe / 100 + doy in
  era * 146097 + doe - 719468.

(** A [time.mktime] for the examples, that of a board without time zones:
    calendar arithmetic on the fields. *)
Definition civil_mktime : mktime_t :=
  fun year month day hour minute second =>
    Ok (days_from_civil year month day * 86400
        + hour * 3600 + minute * 60 + second).

Fixpoint all_digits (s : string) : bool :=
  match s with
  | EmptyString => true
  | String c s' => PyStr.is_digit c && all_digits s'
  end.

Definition digits_value (s : string) : option Z :=
  if all_digits s then PyStr.parse_digits 0 false s else None.

(** A [float] for the examples: the unsigned literals [digits] and
    [digits.digits], read exactly, and ["inf"] and ["nan"]; [None] on every
    other string, although Python's [float] reads more (signs, exponents,
    surrounding blanks).  A literal of at most 15 significant digits
    truncates to the same integer as the double Python reads it as.  The
    theorems hold for every [float_t]; the examples use this one on
    ["30.065"] only. *)
Definition decimal_float : float_t :=
  fun s =>
    if String.eqb s "inf" then Some Inf
    else if String.eqb s "nan" then Some NaN
    else
      match PyStr.split "." s with
      | [i] => option_map (fun z => Finite (inject_Z z)) (digits_value i)
      | [i; f] =>
          match digits_value i, digits_value f with
          | Some zi, Some zf =>
              let scale := Pos.pow 10 (Pos.of_nat (String.length f)) in
              Some (Finite (Qmake (zi * Zpos scale + zf) scale))
          | _, _ => None
          end
      | _ => None
      end.

(** ** WeatherFeed *)

Record weather_snapshot : Type := mk_weather {
  description : string;
  temp_f : Z
}.

(** ** What is put on the display, and what a run does *)

(** An element of a scroll line, with its position in the line. *)
Inductive item : Type :=
| Label (text : string) (color : Z) (x y : Z)
| Badge (route : string) (color : Z) (text_x : Z) (x y : Z)
| DegreeSymbol (color : Z) (x y : Z).

(** A [displayio.Group] holding one scroll line. *)
Record group : Type := mk_group {
  group_x : Z;
  group_y : Z;
  items : list item
}.

(** The calls a run makes to the network, the display and the clock, in
    order.  Console output is recorded for the error handler and for the
    dormancy messages only. *)
Inductive event : Type :=
| EFetchWeather                  (* network.fetch(openweather url) *)
| EFetchTrains                   (* network.fetch(train url) *)
| EFetchClock                    (* network.get_local_time() *)
| EShow (scene : list group)     (* display.root_group = ... *)
| ERefresh                       (* display.refresh() *)
| EBrightness (level : Z)        (* display.brightness = ... *)
| EMoveNorth (x : Z)             (* north_group.x = ... *)
| EMoveSouth (x : Z)             (* south_group.x = ... *)
| ESleep (seconds : Q)           (* time.sleep(...) *)
| EGcCollect                     (* gc.collect() *)
| ELog (message : string)        (* print(...) *)
| ELogError (e : exn).           (* print(f"Error: {e}") *)

Module Weather.

Section Repr.

(** [str(v)] of a value that is not a string (platform formatting). *)
Variable repr : pyval -> string.

Definition py_str (v : pyval) : string :=
  match v with
  | PStr s => s
  | _ => repr v
  end.

(** [word[0].upper() + word[1:].lower() if len(word) > 1 else word[0].upper()] *)
Definition capitalize_word (word : string) : string :=
  match word with
  | EmptyString => EmptyString
  | String c rest =>
      if (1 <? PyStr.len word)%Z
      then PyStr.upper (String c EmptyString) ++ PyStr.lower rest
      else PyStr.upper (String c EmptyString)
  end.

Definition nonempty (word : string) : bool := (0 <? PyStr.len word)%Z.

Definition capitalize_words (description : string) : string :=
  PyStr.join " "
    (map capitalize_word (filter nonempty (PyStr.split " " description))).

Definition no_api_key : weather_snapshot := mk_weather "No API Key" 0.
Definition unknown : weather_snapshot := mk_weather "Unknown" 0.

(** Lines 194-210, on the decoded payload. *)
Definition extract (data : pyval) : result weather_snapshot :=
  weather_list <- Py.get "weather" (PList [PDict []]) data ;;
  description <-
    (nonempty_list <-
       (if Py.truthy weather_list
        then n <- Py.len weather_list ;; Ok (0 <? n)%Z
        else Ok false) ;;
     if (nonempty_list : bool) then
       w0 <- Py.first weather_list ;;
       d <- Py.get "description" (PStr "Unknown") w0 ;;
       Ok (capitalize_words (py_str d))
     else Ok "Unknown") ;;
  main <- Py.get "main" (PDict []) data ;;
  temp <- Py.get "temp" (PInt 0) main ;;
  temp_f <- Py.to_int temp ;;
  Ok (mk_weather description temp_f).

(** The body of the [try], lines 181-218, with the network calls it makes.
    [secrets] is [self.secrets]; [fetch] is the outcome of
    [self.network.fetch(url).json()]. *)
Definition try_body (secrets : pyval) (fetch : result pyval)
  : list event * result weather_snapshot :=
  match Py.get "openweather_key" PNone secrets with
  | Raise e => ([], Raise e)
  | Ok api_key =>
      if negb (Py.truthy api_key) then ([], Ok no_api_key)
      else ([EFetchWeather], data <- fetch ;; extract data)
  end.

(** [fetch_weather_data], lines 170-224. *)
Definition fetch_weather_data (secrets : pyval) (fetch : result pyval)
  : list event * weather_snapshot :=
  match try_body secrets fetch with
  | (evs, Ok w) => (evs, w)
  | (evs, Raise _) => (evs, unknown)
  end.

End Repr.

End Weather.

(** ** ScheduleAggregator *)

Record train (R : Type) : Type := mk_train {
  route : R;
  minutes_until : Z;
  time : string
}.

Arguments mk_train {R} route minutes_until time.
Arguments route {R} t.
Arguments minutes_until {R} t.
Arguments time {R} t.

Record schedule (R : Type) : Type := mk_schedule {
  northbound : list (train R);
  southbound : list (train R)
}.

Arguments mk_schedule {R} northbound southbound.
Arguments northbound {R} s.
Arguments southbound {R} s.

Module Schedule.

Section Platform.

Variable mktime : mktime_t.
Variable float : float_t.

(** [parse_iso8601_to_utc(train['time'])] on whatever the feed put there:
    [in] raises on a scalar, [.rsplit] is missing on a list or a dict. *)
Definition time_utc (v : pyval) : result (string * Z) :=
  match v with
  | PStr s => t <- TrainTimeParser.parse_iso8601_to_utc mktime s ;; Ok (s, t)
  | PList _ | PDict _ => Raise AttributeError
  | _ => Raise TypeError
  end.

(** [int((train_utc - current_utc) / 60)] *)
Definition eta_minutes (train_utc current_utc : Z) : Z :=
  Z.quot (train_utc - current_utc) 60.

(** One of the two [for train in station_data[...]] loops, lines 254-263. *)
Fixpoint collect (current_utc min_minutes : Z) (trains : list pyval)
  : result (list (train pyval)) :=
  match trains with
  | [] => Ok []
  | tr :: rest =>
      tm <- Py.getitem "time" tr ;;
      st <- time_utc tm ;;
      let minutes := eta_minutes (snd st) current_utc in
      if (min_minutes <? minutes)%Z then
        r <- Py.getitem "route" tr ;;
        more <- collect current_utc min_minutes rest ;;
        Ok (mk_train r minutes (fst st) :: more)
      else collect current_utc min_minutes rest
  end.

(** [if key in station_data: for train in station_data[key]: ...] *)
Definition direction (current_utc min_minutes : Z) (key : string)
    (station_data : pyval) : result (list (train pyval)) :=
  present <- Py.contains key station_data ;;
  if (present : bool) then
    l <- Py.getitem key station_data ;;
    trains <- Py.iter l ;;
    collect current_utc min_minutes trains
  else Ok [].

(** Lines 247-278, once the clock has been read. *)
Definition filter_station (current_utc : Z) (json_response : pyval)
    (min_minutes : Z) : result (schedule pyval) :=
  has_data <- Py.contains "data" json_response ;;
  no_station <-
    (if negb has_data then Ok true
     else d <- Py.getitem "data" json_response ;;
          n <- Py.len d ;; Ok (n =? 0)%Z) ;;
  if (no_station : bool) then Ok (mk_schedule [] [])
  else
    d <- Py.getitem "data" json_response ;;
    station_data <- Py.first d ;;
    north <- direction current_utc min_minutes "N" station_data ;;
    south <- direction current_utc min_minutes "S" station_data ;;
    Ok (mk_schedule north south).

(** [parse_train_times], lines 226-278: the clock is read first. *)
Definition parse_train_times (clock : result clock_reading) (host_time : Z)
    (json_response : pyval) (min_minutes : Z) : result (schedule pyval) :=
  current_utc <-
    TrainTimeParser.get_current_time_utc mktime float clock host_time ;;
  filter_station current_utc json_response min_minutes.

(** *** The shape of a feed payload *)

(** [tr] is an arrival record: a dict whose ['route'] is [r] and whose
    ['time'] is the string [s], which reads as the UTC epoch [t]. *)
Definition arrival (tr r : pyval) (s : string) (t : Z) : Prop :=
  exists fields,
    tr = PDict fields /\
    Py.lookup "time" fields = Some (PStr s) /\
    Py.lookup "route" fields = Some r /\
    TrainTimeParser.parse_iso8601_to_utc mktime s = Ok t.

Definition readable (tr : pyval) : Prop := exists r s t, arrival tr r s t.

(** The payload is a dict whose ['data'] is a list that starts with the dict
    [station]. *)
Definition first_station (json_response : pyval)
    (station : list (string * pyval)) : Prop :=
  exists top more,
    json_response = PDict top /\
    Py.lookup "data" top = Some (PList (PDict station :: more)).

(** The arrivals of a direction: the list under [key], none when the key is
    missing. *)
Definition arrivals_of (key : string) (station : list (string * pyval))
    (trains : list pyval) : Prop :=
  Py.lookup key station = Some (PList trains) \/
  (Py.lookup key station = None /\ trains = []).

(** The entry [e] stands for a record of [trains] that passed the
    threshold. *)
Definition kept (now min_minutes : Z) (e : train pyval) (trains : list pyval)
  : Prop :=
  exists tr t,
    In tr trains /\ arrival tr (route e) (time e) t /\
    minutes_until e = eta_minutes t now /\ min_minutes < eta_minutes t now.

End Platform.

(** The payload is a dict without ['data'], or with an empty sequence
    there. *)
Definition no_station (json_response : pyval) : Prop :=
  exists top,
    json_response = PDict top /\
    (Py.lookup "data" top = None \/
     Py.lookup "data" top = Some (PList []) \/
     Py.lookup "data" top = Some (PStr "") \/
     Py.lookup "data" top = Some (PDict [])).

(** *** Grouping by route (routes are strings) *)

(** A [dict] with string keys in insertion order. *)
Definition dict (V : Type) : Type := list (string * V).

Fixpoint dict_get {V : Type} (k : string) (d : dict V) : option V :=
  match d with
  | [] => None
  | (k', v) :: rest => if String.eqb k' k then Some v else dict_get k rest
  end.

(** [d[k] = v]: replaces in place, or appends a new key. *)
Fixpoint dict_set {V : Type} (k : string) (v : V) (d : dict V) : dict V :=
  match d with
  | [] => [(k, v)]
  | (k', v') :: rest =>
      if String.eqb k' k then (k', v) :: rest
      else (k', v') :: dict_set k v rest
  end.

Definition keys {V : Type} (d : dict V) : list string := map fst d.

(** The value of a route in [get_next_trains_by_route]:
    [{'northbound': ..., 'southbound': ...}], [None] until set. *)
Record next_trains : Type := mk_next {
  next_north : option Z;
  next_south : option Z
}.

Definition entry (route : string) (routes : dict next_trains) : next_trains :=
  match dict_get route routes with
  | Some e => e
  | None => mk_next None None
  end.

(** [if route not in routes: routes[route] = {...: None, ...: None}] *)
Definition ensure (route : string) (routes : dict next_trains)
  : dict next_trains :=
  match dict_get route routes with
  | Some _ => routes
  | None => dict_set route (mk_next None None) routes
  end.

Definition note_north (routes : dict next_trains) (t : train string)
  : dict next_trains :=
  let routes := ensure (route t) routes in
  let e := entry (route t) routes in
  match next_north e with
  | None =>
      dict_set (route t) (mk_next (Some (minutes_until t)) (next_south e))
        routes
  | Some _ => routes
  end.

Definition note_south (routes : dict next_trains) (t : train string)
  : dict next_trains :=
  let routes := ensure (route t) routes in
  let e := entry (route t) routes in
  match next_south e with
  | None =>
      dict_set (route t) (mk_next (next_north e) (Some (minutes_until t)))
        routes
  | Some _ => routes
  end.

(** [get_next_trains_by_route], lines 280-308. *)
Definition get_next_trains_by_route (parsed_data : schedule string)
  : dict next_trains :=
  fold_left note_south (southbound parsed_data)
    (fold_left note_north (northbound parsed_data) []).

(** [route_times[route].append(mins)], the list created when the route is
    new. *)
Definition append_time (route_times : dict (list Z)) (t : train string)
  : dict (list Z) :=
  match dict_get (route t) route_times with
  | None => dict_set (route t) [minutes_until t] route_times
  | Some l => dict_set (route t) (l ++ [minutes_until t])%list route_times
  end.

Fixpoint insert_sorted (k : string) (l : list string) : list string :=
  match l with
  | [] => [k]
  | k' :: rest =>
      if String.leb k k' then k :: l else k' :: insert_sorted k rest
  end.

(** [sorted(keys)] *)
Fixpoint sorted (l : list string) : list string :=
  match l with
  | [] => []
  | k :: rest => insert_sorted k (sorted rest)
  end.

Definition times_of (route : string) (route_times : dict (list Z)) : list Z :=
  match dict_get route route_times with
  | Some l => l
  | None => []
  end.

(** [','.join(str(t) for t in route_times[route][:3])] *)
Definition times_text (times : list Z) : string :=
  PyStr.join "," (map PyStr.str_of_Z (firstn 3 times)).

(** [format_train_text_with_badges], lines 412-441; [direction] is not
    read. *)
Definition format_train_text_with_badges (trains : list (train string))
    (direction : string) : list (string * string) :=
  match trains with
  | [] => []
  | _ =>
      let route_times := fold_left append_time trains [] in
      map (fun route => (route, times_text (times_of route route_times)))
          (sorted (keys route_times))
  end.

(** The ETA values of a route in a list of trains, in input order. *)
Definition etas_of (r : string) (trains : list (train string)) : list Z :=
  map minutes_until (filter (fun t => String.eqb (route t) r) trains).

(** Ascending lexical order, without repetition. *)
Definition ascending (l : list string) : Prop :=
  Sorted (fun a b => String.ltb a b = true) l.

Definition leb_rel (a b : string) : Prop := String.leb a b = true.

(** What [get_next_trains_by_route] holds for a route after the trains with
    the ETA values [etas] in one direction, from the entry [e0]. *)
Definition first_north (e0 : option next_trains) (etas : list Z)
  : option next_trains :=
  match etas, e0 with
  | [], _ => e0
  | m :: _, None => Some (mk_next (Some m) None)
  | m :: _, Some e =>
      match next_north e with
      | None => Some (mk_next (Some m) (next_south e))
      | Some _ => Some e
      end
  end.

Definition first_south (e0 : option next_trains) (etas : list Z)
  : option next_trains :=
  match etas, e0 with
  | [], _ => e0
  | m :: _, None => Some (mk_next None (Some m))
  | m :: _, Some e =>
      match next_south e with
      | None => Some (mk_next (next_north e) (Some m))
      | Some _ => Some e
      end
  end.

End Schedule.

(** ** ScrollCompositor *)

Module Display.

Definition MTA_ROUTE_COLORS : list (string * Z) :=
  [("A", 0x0039A6); ("C", 0x0039A6); ("E", 0x0039A6);
   ("B", 0xFF6319); ("D", 0xFF6319); ("F", 0xFF6319); ("M", 0xFF6319);
   ("G", 0x6CBE45); ("J", 0x996633); ("Z", 0x996633); ("L", 0xA7A9AC);
   ("N", 0xFCCC0A); ("Q", 0xFCCC0A); ("R", 0xFCCC0A); ("W", 0xFCCC0A);
   ("1", 0xEE352E); ("2", 0xEE352E); ("3", 0xEE352E);
   ("4", 0x00933C); ("5", 0x00933C); ("6", 0x00933C);
   ("7", 0xB933AD); ("S", 0x808183)].

Definition route_color (route : string) : Z :=
  match Schedule.dict_get route MTA_ROUTE_COLORS with
  | Some c => c
  | None => 0xFFFFFF
  end.

(** [create_route_badge], lines 362-409, placed at [(x, y)]; the pixels of
    the disc are left to the renderer. *)
Definition create_route_badge (route : string) (x y : Z) : item :=
  Badge route (route_color route)
    (if (PyStr.len route =? 1)%Z then 3 else 2) x y.

(** The loop [for route, times in ..._data], lines 482-499 and 564-581. *)
Fixpoint layout_routes (color x_offset : Z) (data : list (string * string))
  : list item * Z :=
  match data with
  | [] => ([], x_offset)
  | (route, times) :: rest =>
      let badge := create_route_badge route x_offset (-2) in
      let x_offset := x_offset + 15 in
      let times_label := Label (times ++ " ") color x_offset 4 in
      let x_offset := x_offset + (PyStr.len times * 6 + 6) in
      let (more, width) := layout_routes color x_offset rest in
      (badge :: times_label :: more, width)
  end.

(** The Downtown line and its width, lines 463-543. *)
Definition south_line (south_data : list (string * string))
    (weather : option weather_snapshot) : group * Z :=
  let color := 0x6BB6FF in
  let s_label := Label "Downtown: " color 0 4 in
  let x_offset := PyStr.len "Downtown: " * 6 in
  let (badges, x_offset) := layout_routes color x_offset south_data in
  match weather with
  | Some w =>
      let x_offset := x_offset + 12 in
      let temp_label := Label (PyStr.str_of_Z (temp_f w)) color x_offset 4 in
      let x_offset := x_offset + PyStr.len (PyStr.str_of_Z (temp_f w)) * 6 in
      let degree := DegreeSymbol color x_offset 1 in
      let x_offset := x_offset + 4 in
      let f_label := Label "F" color x_offset 4 in
      let x_offset := x_offset + PyStr.len "F" * 6 in
      (mk_group 0 20 (s_label :: badges ++ [temp_label; degree; f_label])%list,
       x_offset)
  | None => (mk_group 0 20 (s_label :: badges), x_offset)
  end.

(** The Uptown line and its width, lines 545-598. *)
Definition north_line (north_data : list (string * string))
    (weather : option weather_snapshot) : group * Z :=
  let color := 0xFF8C40 in
  let n_label := Label "Uptown: " color 0 4 in
  let x_offset := PyStr.len "Uptown: " * 6 in
  let (badges, x_offset) := layout_routes color x_offset north_data in
  match weather with
  | Some w =>
      let x_offset := x_offset + 12 in
      let desc_label := Label (description w) color x_offset 4 in
      let x_offset := x_offset + PyStr.len (description w) * 6 in
      (mk_group 0 4 (n_label :: badges ++ [desc_label])%list, x_offset)
  | None => (mk_group 0 4 (n_label :: badges), x_offset)
  end.

(** A route that is not a string makes [create_scrolling_display] raise a
    [TypeError] before anything is shown: as a dict key when it is a list or
    a dict, in [sorted] when the keys are of mixed types, and at the latest
    in [len(route)] of [create_route_badge]. *)
Fixpoint route_strings (trains : list (train pyval))
  : result (list (train string)) :=
  match trains with
  | [] => Ok []
  | t :: rest =>
      match route t with
      | PStr r =>
          more <- route_strings rest ;;
          Ok (mk_train r (minutes_until t) (time t) :: more)
      | _ => Raise TypeError
      end
  end.

(** What [create_scrolling_display] returns. *)
Record composed : Type := mk_composed {
  c_north_group : group;
  c_south_group : group;
  c_north_width : Z;
  c_south_width : Z;
  c_display_width : Z
}.

(** [create_scrolling_display], lines 444-616.  [fault] is an exception
    raised while the scene is built (allocation of a label, a bitmap, a
    group); [frame_width] is [parser.display.width].  The scene is shown at
    the very end, the Downtown container below the Uptown one. *)
Definition create_scrolling_display (trains : schedule pyval)
    (weather : option weather_snapshot) (fault : option exn)
    (frame_width : Z) : list event * result composed :=
  match fault with
  | Some e => ([], Raise e)
  | None =>
      match route_strings (northbound trains),
            route_strings (southbound trains) with
      | Ok north, Ok south =>
          let north_data := Schedule.format_train_text_with_badges north "N" in
          let south_data := Schedule.format_train_text_with_badges south "S" in
          let (south_scroll_group, south_width) := south_line south_data weather in
          let (north_scroll_group, north_width) := north_line north_data weather in
          ([EShow [south_scroll_group; north_scroll_group]; ERefresh],
           Ok (mk_composed north_scroll_group south_scroll_group
                 north_width south_width frame_width))
      | Raise e, _ => ([], Raise e)
      | _, Raise e => ([], Raise e)
      end
  end.

(** One pass of the body of [for i in range(600)] for one line, lines
    726-729 and 733-736. *)
Definition advance (content_width frame_width position : Z) : Z :=
  let position := position - 1 in
  if (position <=? - content_width)%Z then frame_width else position.

(** [ticks] passes of the animation loop, lines 724-739, from the positions
    [north_position] and [south_position]: the events, and the positions at
    the end. *)
Fixpoint animate (ticks : nat) (north_width south_width display_width : Z)
    (north_position south_position : Z) : list event * (Z * Z) :=
  match ticks with
  | O => ([], (north_position, south_position))
  | S k =>
      let north_position := advance north_width display_width north_position in
      let south_position := advance south_width display_width south_position in
      let (evs, final) :=
        animate k north_width south_width display_width
          north_position south_position in
      (EMoveNorth north_position :: EMoveSouth south_position
         :: ESleep (1 # 10) :: evs, final)
  end.

(** The position of one line after [n] passes. *)
Fixpoint ticks (n : nat) (content_width frame_width position : Z) : Z :=
  match n with
  | O => position
  | S k => ticks k content_width frame_width
             (advance content_width frame_width position)
  end.

(** The positions a line takes in a cycle: the animation starts at 0. *)
Inductive reachable (content_width frame_width : Z) : Z -> Prop :=
| reach_start : reachable content_width frame_width 0
| reach_tick (p : Z) :
    reachable content_width frame_width p ->
    reachable content_width frame_width (advance content_width frame_width p).

(** The successive values given to [north_group.x] and to [south_group.x]. *)
Definition north_moves (evs : list event) : list Z :=
  flat_map (fun e => match e with EMoveNorth x => [x] | _ => [] end) evs.

Definition south_moves (evs : list event) : list Z :=
  flat_map (fun e => match e with EMoveSouth x => [x] | _ => [] end) evs.

End Display.

(** ** SessionLifecycle *)

Module Session.

Inductive mode : Type := Active | Dormant.

(** The variables of the main loop, lines 654-667 and 721-722.  The scroll
    positions are unbound until the first animation. *)
Record loop_state : Type := mk_loop {
  weather : weather_snapshot;
  last_weather_update : Q;
  north_group : option group;
  south_group : option group;
  north_width : Z;
  south_width : Z;
  display_width : Z;
  north_position : option Z;
  south_position : option Z
}.

(** What the world answers during one pass of [while True]. *)
Record cycle_env : Type := mk_env {
  monotonic : Q;                   (* time.monotonic(), line 672 *)
  weather_fetch : result pyval;    (* network.fetch(weather url).json() *)
  train_fetch : result pyval;      (* fetch_train_data("A31") *)
  clock : result clock_reading;    (* network.get_local_time() *)
  host_time : Z;                   (* time.time() *)
  compose_fault : option exn;      (* raised while a scene is built *)
  frame_width : Z                  (* parser.display.width *)
}.

Record session : Type := mk_session {
  startup_time : Q;
  current_mode : mode;
  loop : loop_state
}.

Section Run.

Variable mktime : mktime_t.
Variable float : float_t.
Variable repr : pyval -> string.
Variable secrets : pyval.

Definition run_duration : Q := inject_Z (20 * 60).

(** Line 674: the message starts with a line feed. *)
Definition dormant_notice : string :=
  String "010" "20 minutes elapsed - going dormant".

(** Lines 674-684, up to the endless sleep, when nothing raises. *)
Definition go_dormant : list event :=
  [ELog dormant_notice;
   EShow []; ERefresh; EBrightness 0;
   ELog "Display off. Press Reset to restart."].

(** Lines 687-690. *)
Definition refresh_weather (st : loop_state) (env : cycle_env)
  : loop_state * list event :=
  if Qle_bool (inject_Z 600) (monotonic env - last_weather_update st) then
    let (evs, w) :=
      Weather.fetch_weather_data repr secrets (weather_fetch env) in
    (mk_loop w (monotonic env) (north_group st) (south_group st)
       (north_width st) (south_width st) (display_width st)
       (north_position st) (south_position st), evs)
  else (st, []).

(** Lines 694-695. *)
Definition fetch_and_parse (env : cycle_env)
  : list event * result (schedule pyval) :=
  match train_fetch env with
  | Raise e => ([EFetchTrains], Raise e)
  | Ok train_data =>
      ([EFetchTrains; EFetchClock],
       Schedule.parse_train_times mktime float (clock env) (host_time env)
         train_data 5)
  end.

(** Lines 713-716: the old groups are dropped before the scene is rebuilt. *)
Definition drop_groups (st : loop_state) : loop_state * list event :=
  match north_group st with
  | None => (st, [])
  | Some _ =>
      (mk_loop (weather st) (last_weather_update st) None None
         (north_width st) (south_width st) (display_width st)
         (north_position st) (south_position st), [EGcCollect])
  end.

(** Lines 721-739: both positions start from 0. *)
Definition animation (st : loop_state) (c : Display.composed)
  : loop_state * list event :=
  let '(evs, (north_end, south_end)) :=
    Display.animate 600 (Display.c_north_width c) (Display.c_south_width c)
      (Display.c_display_width c) 0 0 in
  let north := Display.c_north_group c in
  let south := Display.c_south_group c in
  (mk_loop (weather st) (last_weather_update st)
     (Some (mk_group north_end (group_y north) (items north)))
     (Some (mk_group south_end (group_y south) (items south)))
     (Display.c_north_width c) (Display.c_south_width c)
     (Display.c_display_width c) (Some north_end) (Some south_end), evs).

(** The body of the [try] in the Active state, lines 687-739: the variables
    at the point where it ends, what it did, and whether it raised. *)
Definition attempt (st : loop_state) (env : cycle_env)
  : loop_state * list event * result unit :=
  let (st, ev_weather) := refresh_weather st env in
  match fetch_and_parse env with
  | (ev_fetch, Raise e) => (st, ev_weather ++ ev_fetch, Raise e)%list
  | (ev_fetch, Ok trains) =>
      let (st, ev_drop) := drop_groups st in
      match Display.create_scrolling_display trains (Some (weather st))
              (compose_fault env) (frame_width env) with
      | (ev_show, Raise e) =>
          (st, ev_weather ++ ev_fetch ++ ev_drop ++ ev_show, Raise e)%list
      | (ev_show, Ok c) =>
          let (st, ev_scroll) := animation st c in
          (st, ev_weather ++ ev_fetch ++ ev_drop ++ ev_show ++ ev_scroll,
           Ok tt)%list
      end
  end.

(** Lines 741-745. *)
Definition handler (e : exn) : list event :=
  [ELogError e; EGcCollect; ESleep (inject_Z 10)].

(** Lines 674-676 when the blank group cannot be built: the message is
    printed, [displayio.Group()] raises inside the [try], and the handler of
    lines 741-745 runs. *)
Definition dormancy_fault (e : exn) : list event :=
  (ELog dormant_notice :: handler e)%list.

(** One pass of the outer [while True] (lines 669-745) in the Active state,
    or one [time.sleep(3600)] of the inner one (lines 683-684) in the
    Dormant state.  The passage to the Dormant state is inside the [try]:
    when the blank scene cannot be built the session stays Active and the
    next pass tries again. *)
Definition step (s : session) (env : cycle_env) : session * list event :=
  match current_mode s with
  | Dormant => (s, [ESleep (inject_Z 3600)])
  | Active =>
      if Qle_bool run_duration (monotonic env - startup_time s) then
        match compose_fault env with
        | Some e =>
            (mk_session (startup_time s) Active (loop s), dormancy_fault e)
        | None => (mk_session (startup_time s) Dormant (loop s), go_dormant)
        end
      else
        match attempt (loop s) env with
        | (st, evs, Ok _) => (mk_session (startup_time s) Active st, evs)
        | (st, evs, Raise e) =>
            (mk_session (startup_time s) Active st, (evs ++ handler e)%list)
        end
  end.



Definition still (evs : list event) : Prop :=
  Display.north_moves evs = [] /\ Display.south_moves evs = [].

(** A pass that starts before the cap. *)
Definition early (s : session) (env : cycle_env) : Prop :=
  (monotonic env - startup_time s < run_duration)%Q.




(** The session over the answers of the world, pass after pass. *)
Fixpoint run (s : session) (envs : list cycle_env) : session * list event :=
  match envs with
  | [] => (s, [])
  | env :: rest =>
      let (s1, evs1) := step s env in
      let (s2, evs2) := run s1 rest in
      (s2, (evs1 ++ evs2)%list)
  end.

(** Lines 654-667: the state the loop starts from.  [t0] and [t1] are the
    two readings of [time.monotonic()], [first_weather] the first weather
    fetch. *)
Definition startup (t0 t1 : Q) (first_weather : result pyval) (width : Z)
  : session * list event :=
  let (evs, w) := Weather.fetch_weather_data repr secrets first_weather in
  (mk_session t0 Active (mk_loop w t1 None None 0 0 width None None), evs).

End Run.

End Session.

(** ** Sample data

    2026-01-07T19:33:01Z is the epoch 1767814381.  The sample feed lists, for
    the first station, route A 361 seconds and route C 300 seconds later
    northbound, and route E 600 seconds later southbound. *)

Module Sample.

Definition now : Z := 1767814381.

Definition record (r s : string) : pyval :=
  PDict [("route", PStr r); ("time", PStr s)].

Definition north : list pyval :=
  [record "A" "2026-01-07T14:39:02-05:00";
   record "C" "2026-01-07T14:38:01-05:00"].

Definition south : list pyval := [record "E" "2026-01-07T14:43:01-05:00"].

Definition station : list (string * pyval) :=
  [("N", PList north); ("S", PList south)].

Definition feed : pyval := PDict [("data", PList [PDict station])].

Definition secrets : pyval := PDict [("openweather_key", PStr "key")].

Definition no_repr : pyval -> string := fun _ => "".

(** The loop variables as a completed cycle may leave them. *)
Definition variables : Session.loop_state :=
  Session.mk_loop (mk_weather "Clear Sky" 41) (1 # 2)
    (Some (mk_group (-21) 4 [])) (Some (mk_group 8 20 []))
    129 88 64 (Some (-21)) (Some 8).

Definition active : Session.session :=
  Session.mk_session 0 Session.Active variables.

(** A pass at 65 s (no weather refresh is due) where the train feed and the
    clock answer. *)
Definition pass_ok : Session.cycle_env :=
  Session.mk_env (65 # 1) (Raise OSError) (Ok feed) (Ok (RNum now)) 0 None 64.

(** A pass at 65 s where the train fetch fails. *)
Definition pass_fetch_fault : Session.cycle_env :=
  Session.mk_env (65 # 1) (Raise OSError) (Raise OSError) (Ok (RNum now)) 0
    None 64.

(** A pass that starts 1200 s after startup. *)
Definition pass_late : Session.cycle_env :=
  Session.mk_env (1200 # 1) (Raise OSError) (Ok feed) (Ok (RNum now)) 0
    None 64.


End Sample.

(** ** Counting what a pass does *)

Module Trace.

Definition is_fetch_weather (e : event) : bool :=
  match e with EFetchWeather => true | _ => false end.

Definition is_fetch_trains (e : event) : bool :=
  match e with EFetchTrains => true | _ => false end.

Definition is_fetch_clock (e : event) : bool :=
  match e with EFetchClock => true | _ => false end.

(** The number of events of a kind. *)
Definition count (kind : event -> bool) (evs : list event) : nat :=
  List.length (filter kind evs).

(** The seconds slept, in order. *)
Definition sleeps (evs : list event) : list Q :=
  flat_map (fun e => match e with ESleep q => [q] | _ => [] end) evs.

End Trace.

(** ** Feeds of the expected shape *)

Module Feed.

(** The payload [{"data": [{"N": north, "S": south}]}]. *)
Definition feed_of (north south : list pyval) : pyval :=
  PDict [("data", PList [PDict [("N", PList north); ("S", PList south)]])].

(** [l1] is [l2] with some elements left out, the order kept. *)
Inductive selection {A : Type} : list A -> list A -> Prop :=
| sel_nil : selection [] []
| sel_take (x : A) (l1 l2 : list A) :
    selection l1 l2 -> selection (x :: l1) (x :: l2)
| sel_skip (x : A) (l1 l2 : list A) :
    selection l1 l2 -> selection l1 (x :: l2).

(** A value that is neither a string nor a list nor a dict. *)
Definition scalar (v : pyval) : bool :=
  match v with
  | PNone | PBool _ | PInt _ | PFloat _ => true
  | _ => false
  end.

End Feed.

(** ** Which exceptions a call can raise *)

Module Errors.

(** Every exception [m] can raise satisfies [P]. *)
Definition raises_in {A : Type} (P : exn -> Prop) (m : result A) : Prop :=
  forall e, m = Raise e -> P e.

Definition value_error (e : exn) : Prop := e = ValueError.

(** A [time.mktime] for the examples, that of a board whose epoch ends
    before the year 2038. *)
Definition short_mktime : mktime_t :=
  fun year month day hour minute second =>
    if (2038 <=? year)%Z then Raise OverflowError
    else civil_mktime year month day hour minute second.

End Errors.

(** ** Descriptions in ASCII *)

Module Charset.

(** Every character of [s] is below 128: on such a string [str.upper] and
    [str.lower] change the letters [a]-[z] and [A]-[Z] and nothing else. *)
Fixpoint is_ascii (s : string) : bool :=
  match s with
  | EmptyString => true
  | String c s' => (nat_of_ascii c <? 128)%nat && is_ascii s'
  end.

End Charset.

(** ** Timestamps that are well formed *)

Module Iso.

(** A sign character and the factor the code gives it. *)
Definition sign_char (positive : bool) : ascii :=
  if positive then "+"%char else "-"%char.

Definition sign_factor (positive : bool) : Z := if positive then 1 else -1.

(** The text [Y-M-DTh:m:s], then the sign and [oh:om]. *)
Definition timestamp (Y M D h m s : string) (positive : bool)
    (oh om : string) : string :=
  Y ++ "-" ++ M ++ "-" ++ D ++ "T" ++ h ++ ":" ++ m ++ ":" ++ s
    ++ String (sign_char positive) (oh ++ ":" ++ om).

End Iso.

(** ** The extent of a scroll line *)

Module Extent.

(** Where an element starts in its line. *)
Definition item_x (it : item) : Z :=
  match it with
  | Label _ _ x _ => x
  | Badge _ _ _ x _ => x
  | DegreeSymbol _ x _ => x
  end.

(** The pixels taken by the badges and the times of the routes: 15 for a
    badge, 6 for each character of the times and 6 for the blank. *)
Fixpoint routes_extent (data : list (string * string)) : Z :=
  match data with
  | [] => 0
  | (_, times) :: rest => 15 + (PyStr.len times * 6 + 6) + routes_extent rest
  end.

End Extent.

(** ** Routes in the order of their first arrival *)

Module Routes.

Definition seen (r : string) (l : list string) : bool :=
  existsb (String.eqb r) l.

(** [l] without repetitions, each element at its first place. *)
Definition first_seen (l : list string) : list string :=
  fold_left (fun acc r => if seen r acc then acc else (acc ++ [r])%list) l [].

End Routes.

(** * Properties *)

(** ** The scroll lines *)

Module ScrollFacts.

Import Display.

Lemma advance_slides (W F p : Z) : - W < p - 1 -> advance W F p = p - 1.
Proof.
  intros H. unfold advance.
  destruct (Z.leb_spec (p - 1) (- W)); [lia | reflexivity].
Qed.

Lemma advance_wraps (W F p : Z) : p - 1 <= - W -> advance W F p = F.
Proof.
  intros H. unfold advance.
  destruct (Z.leb_spec (p - 1) (- W)); [reflexivity | lia].
Qed.

(** Above the left end, a pass is a step of -1 modulo the period. *)
Lemma advance_modulo (W F p : Z) :
  - W < p -> exists k, advance W F p = p - 1 + k * (W + F).
Proof.
  intros Hp. destruct (Z_le_gt_dec (p - 1) (- W)) as [Hw | Hs].
  - rewrite advance_wraps by exact Hw. exists 1. lia.
  - rewrite advance_slides by lia. exists 0. lia.
Qed.

Lemma advance_stays_above (W F p : Z) :
  - W < F -> - W < p -> - W < advance W F p.
Proof.
  intros HF Hp. destruct (Z_le_gt_dec (p - 1) (- W)) as [Hw | Hs].
  - rewrite advance_wraps by exact Hw. exact HF.
  - rewrite advance_slides by lia. lia.
Qed.

Lemma ticks_modulo (W F : Z) (n : nat) :
  - W < F -> forall p, - W < p ->
  exists k, ticks n W F p = p - Z.of_nat n + k * (W + F).
Proof.
  intros HF. induction n as [| n IH]; intros p Hp.
  - exists 0. simpl. lia.
  - cbn [ticks].
    destruct (advance_modulo W F p Hp) as [k1 Hk1].
    destruct (IH (advance W F p) (advance_stays_above W F p HF Hp)) as [k2 Hk2].
    exists (k1 + k2). rewrite Hk2, Hk1. lia.
Qed.

Lemma reachable_above (W F p : Z) :
  0 < W -> - W < F -> reachable W F p -> - W < p.
Proof.
  intros HW HF H. induction H as [| p _ IH].
  - lia.
  - apply advance_stays_above; assumption.
Qed.

Lemma ticks_slide (W F : Z) (n : nat) :
  Z.of_nat n < W -> ticks n W F 0 = - Z.of_nat n.
Proof.
  intros Hn.
  assert (G : forall m p, - W < p - Z.of_nat m -> ticks m W F p = p - Z.of_nat m).
  { induction m as [| m IH]; intros p Hp.
    - simpl. lia.
    - cbn [ticks]. rewrite advance_slides by lia. rewrite IH by lia. lia. }
  rewrite G by lia. lia.
Qed.

(** C7.  A pass moves a line one pixel to the left, and puts it back at the
    frame width as soon as the new position is at or below minus the content
    width.  Hence, for a content width [W > 0] and any frame width [F], a
    line at a position it can reach in a cycle is, [W + F] passes later, at
    a position congruent to it modulo [W + F]. *)
Theorem advance_wraparound_congruent (W F p : Z) :
  0 < W ->
  reachable W F p ->
  (forall q, - W < q - 1 -> advance W F q = q - 1) /\
  (forall q, q - 1 <= - W -> advance W F q = F) /\
  (ticks (Z.to_nat (W + F)) W F p) mod (W + F) = p mod (W + F).
Proof.
  intros HW Hr. split; [| split].
  - intros q. apply advance_slides.
  - intros q. apply advance_wraps.
  - destruct (Z_le_gt_dec (W + F) 0) as [Hle | Hgt].
    + replace (Z.to_nat (W + F)) with O by lia. reflexivity.
    + assert (HF : - W < F) by lia.
      destruct (ticks_modulo W F (Z.to_nat (W + F)) HF p
                  (reachable_above W F p HW HF Hr)) as [k Hk].
      rewrite Hk, Z2Nat.id by lia.
      replace (p - (W + F) + k * (W + F)) with (p + (k - 1) * (W + F)) by lia.
      apply Z_mod_plus_full.
Qed.

(** The theorem at a line 129 pixels wide on a 64-pixel frame, three passes
    into a cycle. *)
Lemma advance_wraparound_congruent_witness :
  (ticks (Z.to_nat (129 + 64)) 129 64 (-3)) mod (129 + 64)
  = (-3) mod (129 + 64).
Proof.
  refine (proj2 (proj2 (advance_wraparound_congruent 129 64 (-3) _ _))).
  - lia.
  - exact (reach_tick 129 64 _ (reach_tick 129 64 _
             (reach_tick 129 64 _ (reach_start 129 64)))).
Defined.

End ScrollFacts.

(** ** The session *)

Module SessionFacts.

Import Session.

Section Facts.

Variable mktime : mktime_t.
Variable float : float_t.
Variable repr : pyval -> string.
Variable secrets : pyval.

Local Abbreviation step := (step mktime float repr secrets).
Local Abbreviation run := (run mktime float repr secrets).
Local Abbreviation attempt := (attempt mktime float repr secrets).
Local Abbreviation refresh_weather := (refresh_weather repr secrets).
Local Abbreviation fetch_and_parse := (fetch_and_parse mktime float).


Lemma still_app (a b : list event) : still a -> still b -> still (a ++ b).
Proof.
  intros [Ha1 Ha2] [Hb1 Hb2]. unfold still, Display.north_moves,
    Display.south_moves in *.
  rewrite !flat_map_app, Ha1, Ha2, Hb1, Hb2. split; reflexivity.
Qed.

Lemma weather_events (f : result pyval) :
  let evs := fst (Weather.fetch_weather_data repr secrets f) in
  evs = [] \/ evs = [EFetchWeather].
Proof.
  unfold Weather.fetch_weather_data, Weather.try_body.
  destruct (Py.get "openweather_key" PNone secrets) as [k | e]; simpl.
  - destruct (Py.truthy k); simpl.
    + destruct (bind f (Weather.extract repr)); simpl; right; reflexivity.
    + left; reflexivity.
  - left; reflexivity.
Qed.

Lemma refresh_weather_events (st : loop_state) (env : cycle_env) :
  let evs := snd (refresh_weather st env) in
  evs = [] \/ evs = [EFetchWeather].
Proof.
  unfold Session.refresh_weather.
  destruct (Qle_bool _ _); [| left; reflexivity].
  pose proof (weather_events (weather_fetch env)) as H.
  destruct (Weather.fetch_weather_data repr secrets (weather_fetch env)).
  exact H.
Qed.

Lemma fetch_and_parse_events (env : cycle_env) :
  let evs := fst (fetch_and_parse env) in
  evs = [EFetchTrains] \/ evs = [EFetchTrains; EFetchClock].
Proof.
  unfold Session.fetch_and_parse.
  destruct (train_fetch env); [right | left]; reflexivity.
Qed.

Lemma drop_groups_events (st : loop_state) :
  let evs := snd (drop_groups st) in evs = [] \/ evs = [EGcCollect].
Proof.
  unfold drop_groups. destruct (north_group st); [right | left]; reflexivity.
Qed.

Lemma create_events trains w fault width :
  match Display.create_scrolling_display trains w fault width with
  | (evs, Ok c) =>
      exists south north, evs = [EShow [south; north]; ERefresh]
  | (evs, Raise _) => evs = []
  end.
Proof.
  unfold Display.create_scrolling_display.
  destruct fault; [reflexivity |].
  destruct (Display.route_strings (northbound trains)); [| reflexivity].
  destruct (Display.route_strings (southbound trains)); [| reflexivity].
  destruct (Display.south_line _ _), (Display.north_line _ _).
  eexists _, _. reflexivity.
Qed.




Lemma early_check (s : session) (env : cycle_env) :
  early s env ->
  Qle_bool run_duration (monotonic env - startup_time s) = false.
Proof.
  intros H. destruct (Qle_bool _ _) eqn:E; [| reflexivity].
  apply Qle_bool_iff in E. exfalso. exact (Qlt_not_le _ _ H E).
Qed.











(** C4 (as amended).  In the Active state and before the cap, an exception [e]
    raised by the body of the [try] ends the pass in the handler: [e] is
    logged, the memory is collected, the program sleeps 10 seconds, and the
    session is Active for the next pass, which starts the cycle again.  A
    failing train fetch, a failing clock read or parse, and a failure while
    the scene is built all end the body this way. *)
Theorem active_fault_backoff (s : session) (env : cycle_env) :
  current_mode s = Active ->
  early s env ->
  (forall e, snd (attempt (loop s) env) = Raise e ->
     step s env =
       (mk_session (startup_time s) Active (fst (fst (attempt (loop s) env))),
        (snd (fst (attempt (loop s) env))
         ++ [ELogError e; EGcCollect; ESleep (inject_Z 10)])%list)) /\
  (forall e, train_fetch env = Raise e ->
     snd (attempt (loop s) env) = Raise e) /\
  (forall e train_data,
     train_fetch env = Ok train_data ->
     Schedule.parse_train_times mktime float (clock env) (host_time env)
       train_data 5 = Raise e ->
     snd (attempt (loop s) env) = Raise e) /\
  (forall e train_data trains,
     train_fetch env = Ok train_data ->
     Schedule.parse_train_times mktime float (clock env) (host_time env)
       train_data 5 = Ok trains ->
     compose_fault env = Some e ->
     snd (attempt (loop s) env) = Raise e).
Proof.
  intros Hm He. split; [| split; [| split]].
  - intros e Hr. unfold Session.step. rewrite Hm, (early_check s env He).
    destruct (attempt (loop s) env) as [[st evs] [u | e']]; simpl in *.
    + discriminate.
    + injection Hr as ->. reflexivity.
  - intros e Hf. unfold Session.attempt, Session.fetch_and_parse.
    destruct (refresh_weather (loop s) env). rewrite Hf. reflexivity.
  - intros e d Hf Hp. unfold Session.attempt, Session.fetch_and_parse.
    destruct (refresh_weather (loop s) env). rewrite Hf, Hp. reflexivity.
  - intros e d trains Hf Hp Hc.
    unfold Session.attempt, Session.fetch_and_parse.
    destruct (refresh_weather (loop s) env) as [st1 evw]. rewrite Hf, Hp.
    destruct (drop_groups st1) as [st2 evd].
    unfold Display.create_scrolling_display. rewrite Hc. reflexivity.
Qed.

Lemma layout_routes_width color x data :
  x <= snd (Display.layout_routes color x data).
Proof.
  revert x. induction data as [| [route times] rest IH]; intros x; simpl.
  - lia.
  - specialize (IH (x + 15 + (PyStr.len times * 6 + 6))).
    destruct (Display.layout_routes _ _ rest) as [more w]. simpl in *.
    unfold PyStr.len in *. lia.
Qed.

Lemma north_line_width data w : 48 <= snd (Display.north_line data w).
Proof.
  unfold Display.north_line.
  pose proof (layout_routes_width 0xFF8C40 (PyStr.len "Uptown: " * 6) data) as H.
  destruct (Display.layout_routes _ _ data) as [badges x]. simpl in H.
  change (PyStr.len "Uptown: " * 6) with 48 in H.
  destruct w as [w |]; simpl; unfold PyStr.len in *; lia.
Qed.

Lemma south_line_width data w : 60 <= snd (Display.south_line data w).
Proof.
  unfold Display.south_line.
  pose proof (layout_routes_width 0x6BB6FF (PyStr.len "Downtown: " * 6) data) as H.
  destruct (Display.layout_routes _ _ data) as [badges x]. simpl in H.
  change (PyStr.len "Downtown: " * 6) with 60 in H.
  destruct w as [w |]; simpl; unfold PyStr.len in *; lia.
Qed.

Lemma create_widths trains w fault width evs c :
  Display.create_scrolling_display trains w fault width = (evs, Ok c) ->
  48 <= Display.c_north_width c /\ 60 <= Display.c_south_width c.
Proof.
  unfold Display.create_scrolling_display.
  destruct fault; [discriminate |].
  destruct (Display.route_strings (northbound trains)) as [north |];
    [| discriminate].
  destruct (Display.route_strings (southbound trains)) as [south |];
    [| discriminate].
  pose proof (south_line_width
                (Schedule.format_train_text_with_badges south "S") w) as Hs.
  pose proof (north_line_width
                (Schedule.format_train_text_with_badges north "N") w) as Hn.
  destruct (Display.south_line _ _), (Display.north_line _ _).
  intros [= _ <-]. simpl in *. split; assumption.
Qed.

Lemma animate_moves n nw sw dw :
  forall np sp k, (k < n)%nat ->
  nth_error (Display.north_moves (fst (Display.animate n nw sw dw np sp))) k
    = Some (Display.ticks (S k) nw dw np) /\
  nth_error (Display.south_moves (fst (Display.animate n nw sw dw np sp))) k
    = Some (Display.ticks (S k) sw dw sp).
Proof.
  induction n as [| n IH]; intros np sp k Hk; [lia |].
  cbn [Display.animate].
  specialize (IH (Display.advance nw dw np) (Display.advance sw dw sp)).
  destruct (Display.animate n nw sw dw _ _) as [evs fin]. simpl in IH.
  destruct k as [| k].
  - split; reflexivity.
  - destruct (IH k ltac:(lia)) as [IHn IHs]. split.
    + exact IHn.
    + exact IHs.
Qed.

Lemma moves_after_still (pre evs : list event) :
  still pre ->
  Display.north_moves (pre ++ evs) = Display.north_moves evs /\
  Display.south_moves (pre ++ evs) = Display.south_moves evs.
Proof.
  intros [Hn Hs]. unfold Display.north_moves, Display.south_moves in *.
  rewrite !flat_map_app, Hn, Hs. split; reflexivity.
Qed.

Lemma attempt_completes (st st' : loop_state) (env : cycle_env) evs u :
  attempt st env = (st', evs, Ok u) ->
  exists pre c,
    still pre /\
    evs = (pre ++ fst (Display.animate 600 (Display.c_north_width c)
                        (Display.c_south_width c)
                        (Display.c_display_width c) 0 0))%list /\
    north_width st' = Display.c_north_width c /\
    south_width st' = Display.c_south_width c /\
    48 <= Display.c_north_width c /\ 60 <= Display.c_south_width c.
Proof.
  unfold Session.attempt.
  pose proof (refresh_weather_events st env) as Hw.
  destruct (refresh_weather st env) as [st1 evw]. simpl in Hw.
  pose proof (fetch_and_parse_events env) as Hf.
  destruct (fetch_and_parse env) as [evf [trains | e]]; [| discriminate].
  simpl in Hf.
  pose proof (drop_groups_events st1) as Hd.
  destruct (drop_groups st1) as [st2 evd]. simpl in Hd.
  pose proof (create_events trains (Some (weather st2)) (compose_fault env)
                (frame_width env)) as Hc.
  destruct (Display.create_scrolling_display _ _ _ _) as [evc [c | e]] eqn:Ec;
    [| discriminate].
  destruct Hc as (south & north & ->).
  destruct (create_widths _ _ _ _ _ _ Ec) as [Wn Ws].
  unfold animation.
  destruct (Display.animate _ _ _ _ _ _) as [eva [ne se]] eqn:Ea.
  intros [= <- <-].
  exists (evw ++ evf ++ evd ++ [EShow [south; north]; ERefresh])%list, c.
  rewrite Ea. cbn [fst north_width south_width].
  repeat split; try assumption.
  - destruct Hw, Hf, Hd; subst; reflexivity.
  - destruct Hw, Hf, Hd; subst; reflexivity.
  - rewrite <- !app_assoc. reflexivity.
Qed.

(** C10.  A pass that completes starts its animation from position 0 on both
    lines, whatever the loop variables held before: while neither line has
    reached its left end (that is, for the first [min(north_width,
    south_width) - 1] passes at least, and the widths are at least 48 and
    60), pass [k + 1] of the animation puts both lines at [-(k + 1)]; in
    particular the first one puts both at -1. *)
Theorem animation_restarts_in_phase
    (st st' : loop_state) (env : cycle_env) (evs : list event) :
  attempt st env = (st', evs, Ok tt) ->
  48 <= north_width st' /\ 60 <= south_width st' /\
  nth_error (Display.north_moves evs) 0 = Some (-1) /\
  nth_error (Display.south_moves evs) 0 = Some (-1) /\
  forall k, (k < 600)%nat ->
    Z.of_nat k + 1 < Z.min (north_width st') (south_width st') ->
    nth_error (Display.north_moves evs) k = Some (- (Z.of_nat k + 1)) /\
    nth_error (Display.south_moves evs) k = Some (- (Z.of_nat k + 1)).
Proof.
  intros H.
  destruct (attempt_completes _ _ _ _ _ H)
    as (pre & c & Hs & -> & Hn & Hso & Wn & Ws).
  destruct (moves_after_still pre
              (fst (Display.animate 600 (Display.c_north_width c)
                      (Display.c_south_width c) (Display.c_display_width c)
                      0 0)) Hs) as [-> ->].
  rewrite Hn, Hso.
  assert (G : forall k, (k < 600)%nat ->
      Z.of_nat k + 1 < Z.min (Display.c_north_width c) (Display.c_south_width c) ->
      nth_error (Display.north_moves (fst (Display.animate 600
        (Display.c_north_width c) (Display.c_south_width c)
        (Display.c_display_width c) 0 0))) k = Some (- (Z.of_nat k + 1)) /\
      nth_error (Display.south_moves (fst (Display.animate 600
        (Display.c_north_width c) (Display.c_south_width c)
        (Display.c_display_width c) 0 0))) k = Some (- (Z.of_nat k + 1))).
  { intros k Hk Hmin.
    destruct (animate_moves 600 (Display.c_north_width c)
                (Display.c_south_width c) (Display.c_display_width c)
                0 0 k Hk) as [-> ->].
    rewrite !ScrollFacts.ticks_slide by lia.
    replace (Z.of_nat (S k)) with (Z.of_nat k + 1) by lia.
    split; reflexivity. }
  split; [exact Wn |]. split; [exact Ws |].
  destruct (G 0%nat ltac:(lia) ltac:(simpl; lia)) as [G1 G2].
  split; [exact G1 |]. split; [exact G2 |]. exact G.
Qed.

End Facts.

Local Abbreviation sample_step :=
  (step civil_mktime decimal_float Sample.no_repr Sample.secrets).
Local Abbreviation sample_run :=
  (run civil_mktime decimal_float Sample.no_repr Sample.secrets).
Local Abbreviation sample_attempt :=
  (attempt civil_mktime decimal_float Sample.no_repr Sample.secrets).


(** The theorem at a pass whose train fetch fails. *)
Lemma active_fault_backoff_witness :
  sample_step Sample.active Sample.pass_fetch_fault
  = (Sample.active,
     [EFetchTrains; ELogError OSError; EGcCollect; ESleep (inject_Z 10)]).
Proof.
  refine (eq_trans
            (proj1 (active_fault_backoff civil_mktime decimal_float
                      Sample.no_repr Sample.secrets Sample.active
                      Sample.pass_fetch_fault _ _) OSError _) _).
  - reflexivity.
  - vm_compute. reflexivity.
  - reflexivity.
  - reflexivity.
Defined.

(** C4 as stated fails in its last part: the program keeps no retry count.
    On no platform is there a quantity of the session that every caught
    error increments, since a pass whose train fetch fails can leave every
    variable of the loop as it was. *)
Lemma no_retry_count :
  ~ exists (mktime : mktime_t) (float : float_t) (repr : pyval -> string)
      (secrets : pyval) (retry_count : session -> Z),
      forall s env e,
        current_mode s = Active ->
        early s env ->
        snd (attempt mktime float repr secrets (loop s) env) = Raise e ->
        retry_count (fst (step mktime float repr secrets s env))
        = retry_count s + 1.
Proof.
  intros (mktime & float & repr & secrets & retry_count & H).
  specialize (H Sample.active Sample.pass_fetch_fault OSError).
  assert (E : fst (step mktime float repr secrets Sample.active
                     Sample.pass_fetch_fault) = Sample.active)
    by reflexivity.
  rewrite E in H.
  assert (A : retry_count Sample.active = retry_count Sample.active + 1).
  { apply H.
    - reflexivity.
    - vm_compute. reflexivity.
    - reflexivity. }
  lia.
Qed.

(** The theorem at a pass that completes, from variables that hold the
    positions -21 and 8 of the animation before. *)
Lemma animation_restarts_in_phase_witness :
  nth_error (Display.north_moves
               (snd (fst (sample_attempt Sample.variables Sample.pass_ok)))) 0
    = Some (-1) /\
  nth_error (Display.south_moves
               (snd (fst (sample_attempt Sample.variables Sample.pass_ok)))) 0
    = Some (-1).
Proof.
  destruct (animation_restarts_in_phase civil_mktime decimal_float
              Sample.no_repr Sample.secrets Sample.variables
              (fst (fst (sample_attempt Sample.variables Sample.pass_ok)))
              Sample.pass_ok
              (snd (fst (sample_attempt Sample.variables Sample.pass_ok))))
    as (_ & _ & Hn & Hs & _).
  - vm_compute. reflexivity.
  - split; assumption.
Defined.

End SessionFacts.

(** ** The clock and the arrival timestamps *)

Module TimeFacts.

Import TrainTimeParser.

Section Facts.

Variable mktime : mktime_t.
Variable float : float_t.

Local Abbreviation get_current_time_utc := (get_current_time_utc mktime float).
Local Abbreviation parse_clock_string := (parse_clock_string mktime float).
Local Abbreviation local_time := (local_time mktime float).

Lemma nth_str_some (l : list string) (i : nat) (s : string) :
  nth_error l i = Some s -> nth_str i l = Ok s.
Proof. intros H. unfold nth_str. rewrite H. reflexivity. Qed.

Lemma int_of_str_raises (s : string) (e : exn) :
  PyStr.int_of_str s = Raise e -> e = ValueError.
Proof.
  unfold PyStr.int_of_str. destruct (PyStr.py_int s); [discriminate |].
  intros [= <-]. reflexivity.
Qed.

(** A malformed offset token is a [ValueError] or an [IndexError]. *)
Lemma tz_offset_raises (tz : string) (e : exn) :
  tz_offset_seconds tz = Raise e -> e = ValueError \/ e = IndexError.
Proof.
  unfold tz_offset_seconds. destruct tz as [| c rest]; simpl.
  - intros [= <-]. right. reflexivity.
  - destruct (PyStr.int_of_str (PyStr.slice 1 3 (String c rest))) eqn:Eh;
      simpl.
    + destruct (PyStr.int_of_str (PyStr.slice 3 5 (String c rest))) eqn:Em;
        simpl; [discriminate |].
      intros [= <-]. left. exact (int_of_str_raises _ _ Em).
    + intros [= <-]. left. exact (int_of_str_raises _ _ Eh).
Qed.

Lemma clock_string_result (s : string) (host_time : Z) :
  get_current_time_utc (Ok (RStr s)) host_time =
  match parse_clock_string s with
  | Ok t => Ok t
  | Raise ValueError | Raise IndexError => Ok host_time
  | Raise e => Raise e
  end.
Proof. reflexivity. Qed.

(** C5 (as amended).  For a formatted-string reading whose date and time
    tokens give the local epoch [t]: when there is no fifth token the offset
    defaults to +0000 and the result is [t]; when there is one, the result is
    [t] minus the offset read from it (sign from its first character, hours
    and minutes from characters 2-3 and 4-5), and the host's wall-clock time
    when that token is malformed.  For every string reading, a parse failure
    that raises [ValueError] or [IndexError] yields the host's wall-clock
    time, and neither exception ever reaches the caller. *)
Theorem clock_string_offset_and_fallback
    (s date_str time_str : string) (t host_time : Z) :
  nth_error (PyStr.split_ws s) 0 = Some date_str ->
  nth_error (PyStr.split_ws s) 1 = Some time_str ->
  local_time date_str time_str = Ok t ->
  ((List.length (PyStr.split_ws s) <= 4)%nat ->
     get_current_time_utc (Ok (RStr s)) host_time = Ok t) /\
  (forall tz, nth_error (PyStr.split_ws s) 4 = Some tz ->
     get_current_time_utc (Ok (RStr s)) host_time =
     match tz_offset_seconds tz with
     | Ok offset => Ok (t - offset)
     | Raise _ => Ok host_time
     end) /\
  (forall s' e, parse_clock_string s' = Raise e ->
     e = ValueError \/ e = IndexError ->
     get_current_time_utc (Ok (RStr s')) host_time = Ok host_time) /\
  (forall s' e, get_current_time_utc (Ok (RStr s')) host_time = Raise e ->
     e <> ValueError /\ e <> IndexError).
Proof.
  intros Hd Ht Hl. split; [| split; [| split]].
  - intros Hlen. rewrite clock_string_result.
    unfold TrainTimeParser.parse_clock_string.
    rewrite (nth_str_some _ _ _ Hd), (nth_str_some _ _ _ Ht).
    cbn [bind].
    destruct (Z.ltb_spec 4 (Z.of_nat (List.length (PyStr.split_ws s))));
      [lia |].
    cbn [bind]. rewrite Hl.
    change (tz_offset_seconds "+0000") with (@Ok Z 0).
    cbn [bind]. f_equal. lia.
  - intros tz Htz. rewrite clock_string_result.
    unfold TrainTimeParser.parse_clock_string.
    rewrite (nth_str_some _ _ _ Hd), (nth_str_some _ _ _ Ht).
    cbn [bind].
    assert (Hlen : (4 < List.length (PyStr.split_ws s))%nat).
    { apply nth_error_Some. rewrite Htz. discriminate. }
    destruct (Z.ltb_spec 4 (Z.of_nat (List.length (PyStr.split_ws s))));
      [| lia].
    rewrite (nth_str_some _ _ _ Htz). cbn [bind]. rewrite Hl. cbn [bind].
    destruct (tz_offset_seconds tz) as [off | e] eqn:Eo; cbn [bind].
    + reflexivity.
    + destruct (tz_offset_raises tz e Eo) as [-> | ->]; reflexivity.
  - intros s' e Hp He. rewrite clock_string_result, Hp.
    destruct He as [-> | ->]; reflexivity.
  - intros s' e. rewrite clock_string_result.
    destruct (parse_clock_string s') as [t' | e']; [discriminate |].
    destruct e'; try discriminate; intros [= <-]; split; discriminate.
Qed.

End Facts.

(** The theorem at a reading without offset token: the local epoch is
    returned as it is. *)
Lemma clock_string_offset_and_fallback_witness :
  get_current_time_utc civil_mktime decimal_float
    (Ok (RStr "2026-01-07 12:07:30.065")) 0 = Ok 1767787650.
Proof.
  refine (proj1 (clock_string_offset_and_fallback civil_mktime decimal_float
                   "2026-01-07 12:07:30.065" "2026-01-07" "12:07:30.065"
                   1767787650 0 _ _ _) _).
  - reflexivity.
  - reflexivity.
  - vm_compute. reflexivity.
  - vm_compute. lia.
Defined.

(** C5 as stated fails: a token in the offset position that is not a signed
    four-digit offset does not get the default +0000.  The readings below
    have the local epoch 1767787650 and the host clock is at 0.  With the
    zone name in the offset position the hours are not a number and the
    result is the host's 0; with the sign missing, ["0800"] is read as
    minus 80 hours. *)
Lemma malformed_offset_not_defaulted :
  local_time civil_mktime decimal_float "2026-01-07" "12:07:30.065"
    = Ok 1767787650 /\
  nth_error (PyStr.split_ws "2026-01-07 12:07:30.065 007 3 PST") 4
    = Some "PST" /\
  get_current_time_utc civil_mktime decimal_float
    (Ok (RStr "2026-01-07 12:07:30.065 007 3 PST")) 0 = Ok 0 /\
  nth_error (PyStr.split_ws "2026-01-07 12:07:30.065 007 3 0800") 4
    = Some "0800" /\
  get_current_time_utc civil_mktime decimal_float
    (Ok (RStr "2026-01-07 12:07:30.065 007 3 0800")) 0
    = Ok (1767787650 + 80 * 3600).
Proof.
  repeat split; vm_compute; reflexivity.
Qed.

(** C6.  Whatever the platform's [mktime], both timestamps are read as
    their date and time fields handed to [mktime], less the signed offset
    (-18000 s and 0 s); with calendar arithmetic for [mktime] both are the
    epoch 1767814381. *)
Theorem iso8601_same_instant :
  (forall mktime : mktime_t,
     parse_iso8601_to_utc mktime "2026-01-07T14:33:01-05:00" =
     (local <- mktime 2026 1 7 14 33 1 ;; Ok (local - (-1) * (5 * 3600 + 0 * 60)))) /\
  (forall mktime : mktime_t,
     parse_iso8601_to_utc mktime "2026-01-07T19:33:01+00:00" =
     (local <- mktime 2026 1 7 19 33 1 ;; Ok (local - 1 * (0 * 3600 + 0 * 60)))) /\
  parse_iso8601_to_utc civil_mktime "2026-01-07T14:33:01-05:00" =
  parse_iso8601_to_utc civil_mktime "2026-01-07T19:33:01+00:00" /\
  parse_iso8601_to_utc civil_mktime "2026-01-07T19:33:01+00:00" =
  Ok 1767814381.
Proof.
  split; [| split; [| split]].
  - intros mktime. reflexivity.
  - intros mktime. reflexivity.
  - vm_compute. reflexivity.
  - vm_compute. reflexivity.
Qed.

End TimeFacts.

(** ** The weather snapshot *)

Module WeatherFacts.

Import Weather.

Section Facts.

Variable repr : pyval -> string.

Local Abbreviation fetch_weather_data := (fetch_weather_data repr).
Local Abbreviation extract := (extract repr).

Lemma extract_description (d : list (string * pyval)) (w : weather_snapshot) :
  extract (PDict d) = Ok w ->
  Py.lookup "weather" d = None \/ Py.lookup "weather" d = Some (PList []) ->
  description w = "Unknown".
Proof.
  unfold Weather.extract. cbn [Py.get bind].
  intros H [E | E]; rewrite E in H; cbn [bind] in H.
  - change (Py.truthy (PList [PDict []])) with true in H.
    cbn [Py.len Py.first Py.get Py.lookup bind List.length] in H.
    change (0 <? Z.of_nat 1)%Z with true in H. cbn iota beta in H.
    cbn [Py.first Py.get Py.lookup bind] in H.
    change (capitalize_words (py_str repr (PStr "Unknown"))) with "Unknown" in H.
    destruct (Py.lookup "main" d) as [m |]; cbn [bind] in H.
    + destruct (Py.get "temp" (PInt 0) m) as [t |]; cbn [bind] in H;
        [| discriminate].
      destruct (Py.to_int t); cbn [bind] in H; [| discriminate].
      injection H as <-. reflexivity.
    + injection H as <-. reflexivity.
  - change (Py.truthy (PList [])) with false in H. cbn iota beta in H.
    cbn [bind] in H.
    destruct (Py.lookup "main" d) as [m |]; cbn [bind] in H.
    + destruct (Py.get "temp" (PInt 0) m) as [t |]; cbn [bind] in H;
        [| discriminate].
      destruct (Py.to_int t); cbn [bind] in H; [| discriminate].
      injection H as <-. reflexivity.
    + injection H as <-. reflexivity.
Qed.

Lemma extract_temp (d : list (string * pyval)) (w : weather_snapshot) :
  extract (PDict d) = Ok w ->
  Py.lookup "main" d = None ->
  temp_f w = 0.
Proof.
  unfold Weather.extract. cbn [Py.get].
  intros H E. rewrite E in H.
  destruct (Py.lookup "weather" d) as [wl |]; cbn [bind] in H.
  - destruct (Py.truthy wl); cbn [bind] in H.
    + destruct (Py.len wl) as [n |]; cbn [bind] in H; [| discriminate].
      destruct (0 <? n)%Z; cbn [bind] in H.
      * destruct (Py.first wl) as [w0 |]; cbn [bind] in H; [| discriminate].
        destruct (Py.get "description" (PStr "Unknown") w0);
          cbn [bind Py.get Py.lookup Py.to_int] in H; [| discriminate].
        injection H as <-. reflexivity.
      * cbn [bind Py.get Py.lookup Py.to_int] in H.
        injection H as <-. reflexivity.
    + cbn [bind Py.get Py.lookup Py.to_int] in H.
      injection H as <-. reflexivity.
  - change (Py.truthy (PList [PDict []])) with true in H.
    cbn [Py.len Py.first Py.get Py.lookup bind List.length] in H.
    change (0 <? Z.of_nat 1)%Z with true in H. cbn iota beta in H.
    cbn [Py.first Py.get Py.lookup bind Py.to_int] in H.
    injection H as <-. reflexivity.
Qed.

(** C9.  [fetch_weather_data] returns a snapshot on every input.  It is
    "No API Key" and 0 when the secrets hold no key (or an empty one);
    "Unknown" and 0 when the fetch raises, when the payload is malformed so
    that reading it raises, and when anything else in the body raises (the
    secrets not being a mapping); a payload it can read is returned as read,
    with "Unknown" for a missing or empty weather list and 0 for a missing
    [main]. *)
Theorem fetch_weather_never_raises (secrets : pyval) (fetch : result pyval) :
  let w := snd (fetch_weather_data secrets fetch) in
  (forall api_key,
     Py.get "openweather_key" PNone secrets = Ok api_key ->
     Py.truthy api_key = false ->
     w = mk_weather "No API Key" 0) /\
  (forall e,
     Py.get "openweather_key" PNone secrets = Raise e ->
     w = mk_weather "Unknown" 0) /\
  (forall api_key,
     Py.get "openweather_key" PNone secrets = Ok api_key ->
     Py.truthy api_key = true ->
     (forall e, fetch = Raise e -> w = mk_weather "Unknown" 0) /\
     (forall data e, fetch = Ok data -> extract data = Raise e ->
                     w = mk_weather "Unknown" 0) /\
     (forall data w', fetch = Ok data -> extract data = Ok w' -> w = w') /\
     (forall d, fetch = Ok (PDict d) ->
                Py.lookup "weather" d = None -> Py.lookup "main" d = None ->
                w = mk_weather "Unknown" 0) /\
     (forall d w', fetch = Ok (PDict d) -> extract (PDict d) = Ok w' ->
                (Py.lookup "weather" d = None \/
                 Py.lookup "weather" d = Some (PList [])) ->
                description w = "Unknown") /\
     (forall d w', fetch = Ok (PDict d) -> extract (PDict d) = Ok w' ->
                Py.lookup "main" d = None -> temp_f w = 0)).
Proof.
  cbv zeta. unfold Weather.fetch_weather_data, Weather.try_body.
  split; [| split].
  - intros k -> ->. reflexivity.
  - intros e ->. reflexivity.
  - intros k -> ->. cbn [negb].
    assert (R : forall data w', fetch = Ok data -> extract data = Ok w' ->
                snd (let (evs, r) := ([EFetchWeather],
                                      data <- fetch ;; extract data) in
                     match r with
                     | Ok w0 => (evs, w0)
                     | Raise _ => (evs, unknown)
                     end) = w').
    { intros data w' -> E. cbn [bind]. rewrite E. reflexivity. }
    split; [| split; [| split; [| split; [| split]]]].
    + intros e ->. reflexivity.
    + intros data e -> E. cbn [bind]. rewrite E. reflexivity.
    + exact R.
    + intros d F Ew Em. apply (R (PDict d)); [exact F |].
      unfold Weather.extract. cbn [Py.get]. rewrite Ew, Em. reflexivity.
    + intros d w' F E Hl. rewrite (R _ _ F E).
      exact (extract_description d w' E Hl).
    + intros d w' F E Hl. rewrite (R _ _ F E).
      exact (extract_temp d w' E Hl).
Qed.

End Facts.

(** The theorem at secrets without key, and at a payload without fields. *)
Lemma fetch_weather_never_raises_witness :
  snd (Weather.fetch_weather_data (fun _ => "") (PDict []) (Raise OSError))
    = mk_weather "No API Key" 0 /\
  snd (Weather.fetch_weather_data (fun _ => "")
         (PDict [("openweather_key", PStr "k")]) (Ok (PDict [])))
    = mk_weather "Unknown" 0.
Proof.
  split.
  - refine (proj1 (fetch_weather_never_raises (fun _ => "") (PDict [])
                     (Raise OSError)) PNone _ _); reflexivity.
  - destruct (proj2 (proj2 (fetch_weather_never_raises (fun _ => "")
                (PDict [("openweather_key", PStr "k")]) (Ok (PDict []))))
               (PStr "k") eq_refl eq_refl) as (_ & _ & _ & H & _).
    exact (H [] eq_refl eq_refl eq_refl).
Defined.

End WeatherFacts.

(** ** The schedule *)

Module ScheduleFacts.

Import Schedule.

Section Facts.

Variable mktime : mktime_t.
Variable float : float_t.

Local Abbreviation arrival := (arrival mktime).
Local Abbreviation readable := (readable mktime).
Local Abbreviation kept := (kept mktime).
Local Abbreviation collect := (collect mktime).
Local Abbreviation direction := (direction mktime).
Local Abbreviation filter_station := (filter_station mktime).
Local Abbreviation parse_train_times := (parse_train_times mktime float).

Lemma collect_readable (now min_minutes : Z) (trains : list pyval) :
  Forall readable trains ->
  exists out,
    collect now min_minutes trains = Ok out /\
    forall e, In e out <-> kept now min_minutes e trains.
Proof.
  induction trains as [| tr rest IH]; intros Hr.
  - exists []. split; [reflexivity |]. intros e. split; [intros [] |].
    intros (tr & t & [] & _).
  - inversion Hr as [| ? ? Htr Hrest]; subst.
    destruct (IH Hrest) as (out & Hout & Hin).
    destruct Htr as (r & s & t & fields & -> & Ht & Hro & Hp).
    cbn [Schedule.collect Py.getitem]. rewrite Ht. cbn [bind time_utc].
    rewrite Hp. cbn [bind snd fst].
    destruct (Z.ltb_spec min_minutes (eta_minutes t now)) as [Hlt | Hge].
    + rewrite Hro. cbn [bind]. rewrite Hout. cbn [bind].
      eexists. split; [reflexivity |]. intros e. split.
      * intros [<- | He].
        -- exists (PDict fields), t. cbn [route time minutes_until].
           repeat split; [left; reflexivity | | exact Hlt].
           exists fields. repeat split; assumption.
        -- apply Hin in He. destruct He as (tr & t' & Hi & Ha & Hm & Hl).
           exists tr, t'. repeat split; try assumption. right. exact Hi.
      * intros (tr & t' & [<- | Hi] & Ha & Hm & Hl).
        -- left. destruct Ha as (fields' & [= <-] & Ht' & Hro' & Hp').
           rewrite Ht in Ht'. injection Ht' as Hs.
           rewrite Hro in Hro'. injection Hro' as Hr'.
           destruct e as [re me te]. cbn [route time minutes_until] in *.
           subst. rewrite Hp in Hp'. injection Hp' as <-. reflexivity.
        -- right. apply Hin. exists tr, t'. repeat split; assumption.
    + exists out. split; [exact Hout |]. intros e. split.
      * intros He. apply Hin in He.
        destruct He as (tr & t' & Hi & Ha & Hm & Hl).
        exists tr, t'. repeat split; try assumption. right. exact Hi.
      * intros (tr & t' & [<- | Hi] & Ha & Hm & Hl).
        -- exfalso. destruct Ha as (fields' & [= <-] & Ht' & Hro' & Hp').
           rewrite Ht in Ht'. injection Ht' as Hs. subst.
           rewrite Hp in Hp'. injection Hp' as <-. lia.
        -- apply Hin. exists tr, t'. repeat split; assumption.
Qed.

Lemma direction_collect (now min_minutes : Z) (key : string)
    (station : list (string * pyval)) (trains : list pyval) :
  arrivals_of key station trains ->
  direction now min_minutes key (PDict station)
  = collect now min_minutes trains.
Proof.
  unfold Schedule.direction. cbn [Py.contains bind Py.getitem].
  unfold Py.has_key.
  intros [H | [H ->]]; rewrite H; reflexivity.
Qed.

Lemma filter_first_station (now min_minutes : Z) (json_response : pyval)
    (station : list (string * pyval)) :
  first_station json_response station ->
  filter_station now json_response min_minutes =
  (north <- direction now min_minutes "N" (PDict station) ;;
   south <- direction now min_minutes "S" (PDict station) ;;
   Ok (mk_schedule north south)).
Proof.
  intros (top & more & -> & H).
  unfold Schedule.filter_station. cbn [Py.contains bind Py.getitem].
  unfold Py.has_key. rewrite H. cbn [negb bind Py.len List.length].
  destruct (Z.eqb_spec (Z.of_nat (S (List.length more))) 0) as [E | _];
    [lia |].
  reflexivity.
Qed.

Lemma kept_record (now min_minutes : Z) (trains : list pyval)
    (tr r : pyval) (s : string) (t : Z) :
  In tr trains -> arrival tr r s t ->
  (kept now min_minutes (mk_train r (eta_minutes t now) s) trains
   <-> min_minutes < eta_minutes t now).
Proof.
  intros Hi Ha. split.
  - intros (tr' & t' & _ & Ha' & Hm & Hl).
    cbn [route time minutes_until] in *. rewrite Hm. exact Hl.
  - intros Hl. exists tr, t. repeat split; assumption.
Qed.

Lemma kept_time (now min_minutes : Z) (trains : list pyval)
    (e : train pyval) (tr r : pyval) (t : Z) :
  arrival tr r (time e) t ->
  kept now min_minutes e trains -> min_minutes < eta_minutes t now.
Proof.
  intros (f & _ & _ & _ & Hp) (tr' & t' & _ & (f' & _ & _ & _ & Hp') & _ & Hl).
  rewrite Hp in Hp'. injection Hp' as <-. exact Hl.
Qed.

(** C1.  With the clock read as [now], on a payload whose first station
    lists arrival records that can be read, [parse_train_times] returns a
    schedule in which the entry of a record of a direction (its route, its
    [int((utc - now) / 60)] and its time string) is present in that
    direction exactly when that number of minutes is strictly greater than
    [min_minutes].  With a threshold of 5, a record 361 seconds after [now]
    is present with 6 minutes, and no entry carries the time string of a
    record exactly 300 seconds after [now]. *)
Theorem parse_train_times_strict_threshold
    (clock : result clock_reading) (host_time now min_minutes : Z)
    (json_response : pyval) (station : list (string * pyval))
    (north south : list pyval) :
  TrainTimeParser.get_current_time_utc mktime float clock host_time = Ok now ->
  first_station json_response station ->
  arrivals_of "N" station north ->
  arrivals_of "S" station south ->
  Forall readable north ->
  Forall readable south ->
  exists sched,
    parse_train_times clock host_time json_response min_minutes = Ok sched /\
    (forall tr r s t, arrival tr r s t ->
       (In tr north ->
        (In (mk_train r (Z.quot (t - now) 60) s) (northbound sched)
         <-> min_minutes < Z.quot (t - now) 60)) /\
       (In tr south ->
        (In (mk_train r (Z.quot (t - now) 60) s) (southbound sched)
         <-> min_minutes < Z.quot (t - now) 60))) /\
    (min_minutes = 5 ->
     forall tr r s t, arrival tr r s t ->
       (t - now = 361 ->
        (In tr north -> In (mk_train r 6 s) (northbound sched)) /\
        (In tr south -> In (mk_train r 6 s) (southbound sched))) /\
       (t - now = 300 ->
        (forall e, In e (northbound sched) -> time e <> s) /\
        (forall e, In e (southbound sched) -> time e <> s))).
Proof.
  intros Hnow Hst Hn Hs Rn Rs.
  destruct (collect_readable now min_minutes north Rn) as (on & Hon & Kn).
  destruct (collect_readable now min_minutes south Rs) as (os & Hos & Ks).
  exists (mk_schedule on os).
  assert (P : parse_train_times clock host_time json_response min_minutes
              = Ok (mk_schedule on os)).
  { unfold Schedule.parse_train_times. rewrite Hnow. cbn [bind].
    rewrite (filter_first_station _ _ _ _ Hst).
    rewrite (direction_collect _ _ _ _ _ Hn), (direction_collect _ _ _ _ _ Hs).
    rewrite Hon, Hos. reflexivity. }
  split; [exact P |]. cbn [northbound southbound]. split.
  - intros tr r s t Ha. split; intros Hi.
    + rewrite Kn. exact (kept_record now min_minutes north tr r s t Hi Ha).
    + rewrite Ks. exact (kept_record now min_minutes south tr r s t Hi Ha).
  - intros -> tr r s t Ha. split; intros Hd.
    + assert (E : eta_minutes t now = 6).
      { unfold eta_minutes. rewrite Hd. reflexivity. }
      split; intros Hi.
      * apply Kn. rewrite <- E.
        apply (kept_record now 5 north tr r s t Hi Ha). lia.
      * apply Ks. rewrite <- E.
        apply (kept_record now 5 south tr r s t Hi Ha). lia.
    + assert (E : eta_minutes t now = 5).
      { unfold eta_minutes. rewrite Hd. reflexivity. }
      split; intros e He Hs'; subst s.
      * apply Kn in He. pose proof (kept_time now 5 north e tr r t Ha He). lia.
      * apply Ks in He. pose proof (kept_time now 5 south e tr r t Ha He). lia.
Qed.

(** C8.  On a payload, a JSON object, without ['data'] or whose ['data'] is
    an empty sequence, [parse_train_times] returns the empty schedule, both
    direction lists empty, for whatever time the clock was read as at line
    239; lines 241-250 raise nothing on such a payload, so that no error
    leaves the call but one of that clock read. *)
Theorem missing_data_empty_schedule
    (clock : result clock_reading) (host_time min_minutes : Z)
    (json_response : pyval) :
  no_station json_response ->
  (forall now,
     TrainTimeParser.get_current_time_utc mktime float clock host_time
       = Ok now ->
     parse_train_times clock host_time json_response min_minutes
       = Ok (mk_schedule [] [])) /\
  (forall e,
     parse_train_times clock host_time json_response min_minutes = Raise e ->
     TrainTimeParser.get_current_time_utc mktime float clock host_time
       = Raise e).
Proof.
  intros (top & -> & H).
  assert (F : forall now, filter_station now (PDict top) min_minutes
                          = Ok (mk_schedule [] [])).
  { intros now. unfold Schedule.filter_station.
    cbn [Py.contains bind Py.getitem]. unfold Py.has_key.
    destruct H as [H | [H | [H | H]]]; rewrite H; reflexivity. }
  unfold Schedule.parse_train_times. split.
  - intros now ->. cbn [bind]. apply F.
  - intros e.
    destruct (TrainTimeParser.get_current_time_utc mktime float clock host_time)
      as [now | e']; cbn [bind].
    + rewrite F. discriminate.
    + intros [= <-]. reflexivity.
Qed.

End Facts.

Lemma sample_readable (r s : string) (t : Z) :
  TrainTimeParser.parse_iso8601_to_utc civil_mktime s = Ok t ->
  readable civil_mktime (Sample.record r s).
Proof.
  intros H. exists (PStr r), s, t, [("route", PStr r); ("time", PStr s)].
  repeat split. exact H.
Defined.

(** The theorem at the sample feed, read at 2026-01-07T19:33:01Z with a
    threshold of 5: route A, 361 seconds away, is listed with 6 minutes;
    route C, 300 seconds away, is not listed. *)
Lemma parse_train_times_strict_threshold_witness :
  exists sched,
    parse_train_times civil_mktime decimal_float (Ok (RNum Sample.now)) 0
      Sample.feed 5 = Ok sched /\
    In (mk_train (PStr "A") 6 "2026-01-07T14:39:02-05:00") (northbound sched) /\
    (forall e, In e (northbound sched) ->
               time e <> "2026-01-07T14:38:01-05:00").
Proof.
  destruct (parse_train_times_strict_threshold civil_mktime decimal_float
              (Ok (RNum Sample.now)) 0 Sample.now 5 Sample.feed
              Sample.station Sample.north Sample.south)
    as (sched & P & _ & H).
  - reflexivity.
  - exists [("data", PList [PDict Sample.station])], []. split; reflexivity.
  - left. reflexivity.
  - left. reflexivity.
  - constructor; [| constructor; [| constructor]].
    + apply (sample_readable "A" _ (Sample.now + 361)). vm_compute. reflexivity.
    + apply (sample_readable "C" _ (Sample.now + 300)). vm_compute. reflexivity.
  - constructor; [| constructor].
    apply (sample_readable "E" _ (Sample.now + 600)). vm_compute. reflexivity.
  - exists sched. split; [exact P |]. split.
    + refine (proj1 (proj1 (H eq_refl (Sample.record "A" _) (PStr "A") _
                              (Sample.now + 361) _) _) _).
      * eexists. repeat split; vm_compute; reflexivity.
      * unfold Sample.now. lia.
      * left. reflexivity.
    + refine (proj1 (proj2 (H eq_refl (Sample.record "C" _) (PStr "C") _
                              (Sample.now + 300) _) _)).
      * eexists. repeat split; vm_compute; reflexivity.
      * unfold Sample.now. lia.
Defined.

(** The theorem at the payload [{}], the clock read. *)
Lemma missing_data_empty_schedule_witness :
  parse_train_times civil_mktime decimal_float (Ok (RNum Sample.now)) 0
    (PDict []) 5 = Ok (mk_schedule [] []).
Proof.
  refine (proj1 (missing_data_empty_schedule civil_mktime decimal_float
                   (Ok (RNum Sample.now)) 0 5 (PDict []) _) Sample.now _).
  - exists []. split; [reflexivity | left; reflexivity].
  - reflexivity.
Defined.

End ScheduleFacts.

(** ** Grouping by route *)

Module GroupingFacts.

Import Schedule.

Section Dict.

Context {V : Type}.

Lemma dict_get_set_same (k : string) (v : V) (d : dict V) :
  dict_get k (dict_set k v d) = Some v.
Proof.
  induction d as [| [k' v'] rest IH]; cbn [dict_set dict_get].
  - rewrite String.eqb_refl. reflexivity.
  - destruct (String.eqb k' k) eqn:E; cbn [dict_get]; rewrite E.
    + reflexivity.
    + exact IH.
Qed.

Lemma dict_get_set_other (k k' : string) (v : V) (d : dict V) :
  k' <> k -> dict_get k (dict_set k' v d) = dict_get k d.
Proof.
  intros Hne. induction d as [| [k0 v0] rest IH]; cbn [dict_set dict_get].
  - destruct (String.eqb_spec k' k); [contradiction | reflexivity].
  - destruct (String.eqb_spec k0 k') as [-> | Hk0]; cbn [dict_get].
    + destruct (String.eqb_spec k' k); [contradiction | reflexivity].
    + rewrite IH. reflexivity.
Qed.

Lemma dict_get_in_keys (k : string) (d : dict V) :
  In k (keys d) <-> dict_get k d <> None.
Proof.
  induction d as [| [k' v'] rest IH]; cbn [keys map dict_get fst In].
  - split; [intros [] | intros H; apply H; reflexivity].
  - destruct (String.eqb_spec k' k) as [-> | Hne].
    + split; [discriminate | left; reflexivity].
    + fold (keys rest). rewrite <- IH. split.
      * intros [E | H]; [contradiction | exact H].
      * intros H. right. exact H.
Qed.

Lemma keys_set (k : string) (v : V) (d : dict V) :
  keys (dict_set k v d) =
  match dict_get k d with
  | Some _ => keys d
  | None => (keys d ++ [k])%list
  end.
Proof.
  induction d as [| [k' v'] rest IH]; cbn [dict_set dict_get keys map fst].
  - reflexivity.
  - destruct (String.eqb k' k) eqn:E; cbn [map fst].
    + reflexivity.
    + fold (keys (dict_set k v rest)). fold (keys rest). rewrite IH.
      destruct (dict_get k rest); reflexivity.
Qed.

End Dict.

(** *** [format_train_text_with_badges] *)

Lemma times_of_append (d : dict (list Z)) (t : train string) (r : string) :
  times_of r (append_time d t) =
  (times_of r d
   ++ (if String.eqb (route t) r then [minutes_until t] else []))%list.
Proof.
  unfold times_of, append_time.
  destruct (String.eqb_spec (route t) r) as [<- | Hne].
  - destruct (dict_get (route t) d) as [l |]; rewrite dict_get_set_same;
      reflexivity.
  - destruct (dict_get (route t) d) as [l |];
      rewrite dict_get_set_other by exact Hne; rewrite app_nil_r; reflexivity.
Qed.

Lemma times_of_fold (trains : list (train string)) :
  forall (d : dict (list Z)) (r : string),
  times_of r (fold_left append_time trains d) =
  (times_of r d ++ etas_of r trains)%list.
Proof.
  induction trains as [| t rest IH]; intros d r; cbn [fold_left].
  - unfold etas_of. cbn. rewrite app_nil_r. reflexivity.
  - rewrite IH, times_of_append, <- app_assoc. f_equal.
    unfold etas_of. cbn [filter].
    destruct (String.eqb (route t) r); reflexivity.
Qed.

Lemma keys_append (d : dict (list Z)) (t : train string) :
  keys (append_time d t) =
  match dict_get (route t) d with
  | Some _ => keys d
  | None => (keys d ++ [route t])%list
  end.
Proof.
  unfold append_time.
  destruct (dict_get (route t) d) as [l |] eqn:E; rewrite keys_set, E;
    reflexivity.
Qed.

Lemma keys_fold_in (trains : list (train string)) :
  forall (d : dict (list Z)) (k : string),
  In k (keys (fold_left append_time trains d)) <->
  In k (keys d) \/ exists t, In t trains /\ route t = k.
Proof.
  induction trains as [| t rest IH]; intros d k; cbn [fold_left].
  - split; [left; assumption |]. intros [H | (t & [] & _)]. exact H.
  - rewrite IH, keys_append. split.
    + intros [H | (t' & Hi & He)].
      * destruct (dict_get (route t) d) eqn:E.
        -- left. exact H.
        -- apply in_app_or in H. destruct H as [H | [<- | []]].
           ++ left. exact H.
           ++ right. exists t. split; [left |]; reflexivity.
      * right. exists t'. split; [right |]; assumption.
    + intros [H | (t' & [<- | Hi] & He)].
      * left. destruct (dict_get (route t) d); [exact H |].
        apply in_or_app. left. exact H.
      * left. subst k. destruct (dict_get (route t) d) eqn:E.
        -- apply dict_get_in_keys. rewrite E. discriminate.
        -- apply in_or_app. right. left. reflexivity.
      * right. exists t'. split; assumption.
Qed.

Lemma keys_fold_nodup (trains : list (train string)) :
  forall d : dict (list Z),
  NoDup (keys d) -> NoDup (keys (fold_left append_time trains d)).
Proof.
  induction trains as [| t rest IH]; intros d Hd; cbn [fold_left].
  - exact Hd.
  - apply IH. rewrite keys_append.
    destruct (dict_get (route t) d) eqn:E; [exact Hd |].
    apply NoDup_app; repeat split.
    + exact Hd.
    + constructor; [intros [] | constructor].
    + intros k Hk [<- | []].
      apply dict_get_in_keys in Hk. apply Hk. exact E.
Qed.

Lemma insert_sorted_perm (k : string) (l : list string) :
  Permutation (insert_sorted k l) (k :: l).
Proof.
  induction l as [| k' rest IH]; cbn [insert_sorted].
  - apply Permutation_refl.
  - destruct (String.leb k k').
    + apply Permutation_refl.
    + eapply perm_trans; [apply perm_skip, IH | apply perm_swap].
Qed.

Lemma sorted_perm (l : list string) : Permutation (sorted l) l.
Proof.
  induction l as [| k rest IH]; cbn [sorted].
  - apply perm_nil.
  - eapply perm_trans; [apply insert_sorted_perm | apply perm_skip, IH].
Qed.

Lemma insert_sorted_sorted (k : string) (l : list string) :
  Sorted leb_rel l -> Sorted leb_rel (insert_sorted k l).
Proof.
  induction l as [| k' rest IH]; intros Hs; cbn [insert_sorted].
  - repeat constructor.
  - destruct (String.leb k k') eqn:E.
    + constructor; [exact Hs |]. constructor. exact E.
    + inversion Hs as [| ? ? Hrest Hhd]; subst.
      constructor; [apply IH; exact Hrest |].
      assert (Hk : leb_rel k' k).
      { destruct (String.leb_total k k') as [H | H]; [congruence | exact H]. }
      destruct rest as [| k'' rest']; cbn [insert_sorted].
      * constructor. exact Hk.
      * destruct (String.leb k k''); constructor; [exact Hk |].
        inversion Hhd; assumption.
Qed.

Lemma sorted_sorted (l : list string) : Sorted leb_rel (sorted l).
Proof.
  induction l as [| k rest IH]; cbn [sorted].
  - constructor.
  - apply insert_sorted_sorted. exact IH.
Qed.

Lemma leb_neq_ltb (a b : string) :
  String.leb a b = true -> a <> b -> String.ltb a b = true.
Proof.
  unfold String.leb, String.ltb. intros Hle Hne.
  destruct (String.compare a b) eqn:E; try reflexivity; try discriminate.
  exfalso. apply Hne. apply String.compare_eq_iff. exact E.
Qed.

Lemma sorted_nodup_ascending (l : list string) :
  Sorted leb_rel l -> NoDup l -> ascending l.
Proof.
  unfold ascending. induction l as [| a rest IH]; intros Hs Hn.
  - constructor.
  - inversion Hs as [| ? ? Hrest Hhd]; subst.
    inversion Hn as [| ? ? Hnotin Hnrest]; subst.
    constructor; [apply IH; assumption |].
    destruct rest as [| b rest']; constructor.
    inversion Hhd; subst. apply leb_neq_ltb; [assumption |].
    intros ->. apply Hnotin. left. reflexivity.
Qed.

Lemma format_unfold (trains : list (train string)) (direction : string) :
  format_train_text_with_badges trains direction =
  map (fun r => (r, times_text (etas_of r trains)))
      (sorted (keys (fold_left append_time trains []))).
Proof.
  unfold format_train_text_with_badges.
  destruct trains as [| t rest]; [reflexivity |].
  apply map_ext. intros r. rewrite times_of_fold. reflexivity.
Qed.

Lemma format_routes (trains : list (train string)) (direction : string) :
  map fst (format_train_text_with_badges trains direction) =
  sorted (keys (fold_left append_time trains [])).
Proof.
  rewrite format_unfold, map_map. cbn [fst]. apply map_id.
Qed.

(** *** [get_next_trains_by_route] *)

Lemma note_north_get (routes : dict next_trains) (t : train string)
    (r : string) :
  dict_get r (note_north routes t) =
  if String.eqb (route t) r
  then first_north (dict_get r routes) [minutes_until t]
  else dict_get r routes.
Proof.
  unfold note_north, ensure, entry, first_north.
  destruct (String.eqb_spec (route t) r) as [<- | Hne].
  - destruct (dict_get (route t) routes) as [e |] eqn:E.
    + rewrite E. destruct (next_north e) eqn:En.
      * exact E.
      * apply dict_get_set_same.
    + rewrite dict_get_set_same. cbn [next_north next_south].
      apply dict_get_set_same.
  - destruct (dict_get (route t) routes) as [e |] eqn:E.
    + rewrite E. destruct (next_north e); [reflexivity |].
      apply dict_get_set_other. exact Hne.
    + rewrite dict_get_set_same. cbn [next_north next_south].
      rewrite !dict_get_set_other by exact Hne. reflexivity.
Qed.

Lemma note_south_get (routes : dict next_trains) (t : train string)
    (r : string) :
  dict_get r (note_south routes t) =
  if String.eqb (route t) r
  then first_south (dict_get r routes) [minutes_until t]
  else dict_get r routes.
Proof.
  unfold note_south, ensure, entry, first_south.
  destruct (String.eqb_spec (route t) r) as [<- | Hne].
  - destruct (dict_get (route t) routes) as [e |] eqn:E.
    + rewrite E. destruct (next_south e) eqn:En.
      * exact E.
      * apply dict_get_set_same.
    + rewrite dict_get_set_same. cbn [next_north next_south].
      apply dict_get_set_same.
  - destruct (dict_get (route t) routes) as [e |] eqn:E.
    + rewrite E. destruct (next_south e); [reflexivity |].
      apply dict_get_set_other. exact Hne.
    + rewrite dict_get_set_same. cbn [next_north next_south].
      rewrite !dict_get_set_other by exact Hne. reflexivity.
Qed.

Lemma first_north_again (e0 : option next_trains) (m : Z) (etas : list Z) :
  first_north (first_north e0 [m]) etas = first_north e0 (m :: etas).
Proof.
  unfold first_north. destruct etas as [| m' rest]; [reflexivity |].
  destruct e0 as [e |]; [| reflexivity].
  destruct (next_north e) eqn:E; [rewrite E |]; reflexivity.
Qed.

Lemma first_south_again (e0 : option next_trains) (m : Z) (etas : list Z) :
  first_south (first_south e0 [m]) etas = first_south e0 (m :: etas).
Proof.
  unfold first_south. destruct etas as [| m' rest]; [reflexivity |].
  destruct e0 as [e |]; [| reflexivity].
  destruct (next_south e) eqn:E; [rewrite E |]; reflexivity.
Qed.

Lemma fold_north_get (trains : list (train string)) :
  forall (routes : dict next_trains) (r : string),
  dict_get r (fold_left note_north trains routes) =
  first_north (dict_get r routes) (etas_of r trains).
Proof.
  induction trains as [| t rest IH]; intros routes r; cbn [fold_left].
  - reflexivity.
  - rewrite IH, note_north_get. unfold etas_of. cbn [filter].
    destruct (String.eqb (route t) r); [| reflexivity].
    cbn [map]. apply first_north_again.
Qed.

Lemma fold_south_get (trains : list (train string)) :
  forall (routes : dict next_trains) (r : string),
  dict_get r (fold_left note_south trains routes) =
  first_south (dict_get r routes) (etas_of r trains).
Proof.
  induction trains as [| t rest IH]; intros routes r; cbn [fold_left].
  - reflexivity.
  - rewrite IH, note_south_get. unfold etas_of. cbn [filter].
    destruct (String.eqb (route t) r); [| reflexivity].
    cbn [map]. apply first_south_again.
Qed.

(** C2 (as amended).  [format_train_text_with_badges], the grouping that is
    displayed, applied to the trains of one direction: its routes are those
    of the trains, in ascending lexical order without repetition, and the
    text of a route joins its first 3 ETA values in input order (so at most
    3, however many arrivals the route has).  [get_next_trains_by_route]
    keeps one value for a route and a direction, the first in input
    order. *)
Theorem grouping_first_three_sorted :
  (forall (trains : list (train string)) (direction : string),
     let out := format_train_text_with_badges trains direction in
     ascending (map fst out) /\
     (forall r, In r (map fst out) <-> exists t, In t trains /\ route t = r) /\
     (forall r text, In (r, text) out ->
        text = PyStr.join "," (map PyStr.str_of_Z (firstn 3 (etas_of r trains)))
        /\ (List.length (firstn 3 (etas_of r trains)) <= 3)%nat)) /\
  (forall (parsed_data : schedule string) (r : string),
     dict_get r (get_next_trains_by_route parsed_data) =
     match etas_of r (northbound parsed_data),
           etas_of r (southbound parsed_data) with
     | [], [] => None
     | north, south => Some (mk_next (hd_error north) (hd_error south))
     end).
Proof.
  split.
  - intros trains direction out. subst out. split; [| split].
    + rewrite format_routes. apply sorted_nodup_ascending.
      * apply sorted_sorted.
      * eapply Permutation_NoDup; [apply Permutation_sym, sorted_perm |].
        apply keys_fold_nodup. constructor.
    + intros r. rewrite format_routes. split.
      * intros H. apply (Permutation_in _ (sorted_perm _)) in H.
        apply keys_fold_in in H. destruct H as [[] | H]. exact H.
      * intros H.
        apply (Permutation_in _ (Permutation_sym (sorted_perm _))).
        apply keys_fold_in. right. exact H.
    + intros r text. rewrite format_unfold. intros H. apply in_map_iff in H.
      destruct H as (r' & [= <- <-] & _). split; [reflexivity |].
      apply firstn_le_length.
  - intros parsed_data r. unfold get_next_trains_by_route.
    rewrite fold_south_get, fold_north_get. cbn [dict_get].
    destruct (etas_of r (northbound parsed_data)) as [| n ns];
      destruct (etas_of r (southbound parsed_data)) as [| s ss]; reflexivity.
Qed.

(** The theorem at four arrivals of route C and one of route A. *)
Lemma grouping_first_three_sorted_witness :
  format_train_text_with_badges
    [mk_train "C" 6 ""; mk_train "A" 7 ""; mk_train "C" 8 "";
     mk_train "C" 10 ""; mk_train "C" 12 ""] "N"
  = [("A", "7"); ("C", "6,8,10")] /\
  ascending ["A"; "C"].
Proof.
  split; [reflexivity |].
  exact (proj1 (proj1 grouping_first_three_sorted
                  [mk_train "C" 6 ""; mk_train "A" 7 ""; mk_train "C" 8 "";
                   mk_train "C" 10 ""; mk_train "C" 12 ""] "N")).
Defined.

(** C2 as stated fails for [get_next_trains_by_route]: of three arrivals of
    route A it keeps the first only, and its routes come in the order of
    their first arrival, C before A. *)
Lemma get_next_trains_keeps_one :
  get_next_trains_by_route
    (mk_schedule
       [mk_train "C" 6 ""; mk_train "A" 7 ""; mk_train "A" 9 "";
        mk_train "A" 11 ""] [])
  = [("C", mk_next (Some 6) None); ("A", mk_next (Some 7) None)].
Proof. reflexivity. Qed.

End GroupingFacts.

(** ** More on the scroll lines *)

Module ScrollRange.

Import Display.

Lemma ticks_add (W F : Z) (a b : nat) (p : Z) :
  ticks (a + b) W F p = ticks b W F (ticks a W F p).
Proof.
  revert p. induction a as [| a IH]; intros p; [reflexivity |].
  cbn [Nat.add ticks]. apply IH.
Qed.

Lemma ticks_slides (W F : Z) (m : nat) (p : Z) :
  - W < p - Z.of_nat m -> ticks m W F p = p - Z.of_nat m.
Proof.
  revert p. induction m as [| m IH]; intros p Hp.
  - simpl. lia.
  - cbn [ticks]. rewrite ScrollFacts.advance_slides by lia.
    rewrite IH by lia. lia.
Qed.

Lemma advance_in_range (W F p : Z) :
  0 < W -> 0 <= F -> - W < p <= F -> - W < advance W F p <= F.
Proof.
  intros HW HF Hp. destruct (Z_le_gt_dec (p - 1) (- W)) as [Hw | Hs].
  - rewrite ScrollFacts.advance_wraps by exact Hw. lia.
  - rewrite ScrollFacts.advance_slides by lia. lia.
Qed.

Lemma ticks_in_range (W F : Z) (n : nat) (p : Z) :
  0 < W -> 0 <= F -> - W < p <= F -> - W < ticks n W F p <= F.
Proof.
  intros HW HF. revert p. induction n as [| n IH]; intros p Hp.
  - exact Hp.
  - cbn [ticks]. apply IH. apply advance_in_range; assumption.
Qed.

(** On a frame of width [F >= 0], a line of content width [W > 0] that is
    between its left end and the frame width stays there, and is back at
    the very same position after [W + F] passes: the scroll is periodic with
    period [W + F]. *)
Theorem scroll_period_exact (W F p : Z) :
  0 < W -> 0 <= F -> - W < p <= F ->
  (forall n, - W < ticks n W F p <= F) /\
  ticks (Z.to_nat (W + F)) W F p = p.
Proof.
  intros HW HF Hp. split.
  - intros n. apply ticks_in_range; assumption.
  - replace (Z.to_nat (W + F))
      with (Z.to_nat (p + W - 1) + (1 + Z.to_nat (F - p)))%nat by lia.
    rewrite ticks_add.
    rewrite (ticks_slides W F (Z.to_nat (p + W - 1)) p) by lia.
    rewrite Z2Nat.id by lia.
    rewrite ticks_add. cbn [ticks].
    rewrite ScrollFacts.advance_wraps by lia.
    rewrite ticks_slides by lia. lia.
Qed.

(** The theorem at a line 129 pixels wide on a 64-pixel frame. *)
Lemma scroll_period_exact_witness :
  ticks (Z.to_nat (129 + 64)) 129 64 (-21) = -21.
Proof.
  refine (proj2 (scroll_period_exact 129 64 (-21) _ _ _)); lia.
Defined.

End ScrollRange.

(** ** More on one pass of the loop *)

Module PassFacts.

Import Session.

Section Facts.

Variable mktime : mktime_t.
Variable float : float_t.
Variable repr : pyval -> string.
Variable secrets : pyval.

Local Abbreviation step := (step mktime float repr secrets).
Local Abbreviation run := (run mktime float repr secrets).
Local Abbreviation attempt := (attempt mktime float repr secrets).
Local Abbreviation refresh_weather := (refresh_weather repr secrets).
Local Abbreviation fetch_and_parse := (fetch_and_parse mktime float).

(** The three ways the body of the [try] ends. *)
Lemma attempt_shape (st : loop_state) (env : cycle_env) :
  exists st1 evw evf r,
    refresh_weather st env = (st1, evw) /\
    fetch_and_parse env = (evf, r) /\
    match r with
    | Raise e => attempt st env = (st1, (evw ++ evf)%list, Raise e)
    | Ok trains =>
        exists st2 evd evc rc,
          drop_groups st1 = (st2, evd) /\
          weather st2 = weather st1 /\
          last_weather_update st2 = last_weather_update st1 /\
          Display.create_scrolling_display trains (Some (weather st2))
            (compose_fault env) (frame_width env) = (evc, rc) /\
          match rc with
          | Raise e =>
              attempt st env =
              (st2, (evw ++ evf ++ evd ++ evc)%list, Raise e)
          | Ok c =>
              attempt st env =
              (fst (animation st2 c),
               (evw ++ evf ++ evd ++ evc ++ snd (animation st2 c))%list,
               Ok tt)
          end
    end.
Proof.
  unfold Session.attempt.
  destruct (refresh_weather st env) as [st1 evw].
  destruct (fetch_and_parse env) as [evf [trains | e]].
  - exists st1, evw, evf, (Ok trains). split; [reflexivity |].
    split; [reflexivity |].
    assert (D : weather (fst (drop_groups st1)) = weather st1 /\
                last_weather_update (fst (drop_groups st1))
                = last_weather_update st1).
    { unfold drop_groups. destruct (north_group st1); split; reflexivity. }
    destruct (drop_groups st1) as [st2 evd]. cbn [fst] in D.
    destruct D as [D1 D2].
    destruct (Display.create_scrolling_display trains (Some (weather st2))
                (compose_fault env) (frame_width env)) as [evc [c | e]] eqn:Ec.
    + exists st2, evd, evc, (Ok c).
      split; [reflexivity |]. split; [exact D1 |]. split; [exact D2 |].
      split; [exact Ec |].
      destruct (animation st2 c). reflexivity.
    + exists st2, evd, evc, (Raise e).
      split; [reflexivity |]. split; [exact D1 |]. split; [exact D2 |].
      split; [exact Ec | reflexivity].
  - exists st1, evw, evf, (Raise e). repeat split.
Qed.

Lemma animate_final n nw sw dw :
  forall np sp,
  snd (Display.animate n nw sw dw np sp) =
  (Display.ticks n nw dw np, Display.ticks n sw dw sp).
Proof.
  induction n as [| n IH]; intros np sp; [reflexivity |].
  cbn [Display.animate Display.ticks].
  specialize (IH (Display.advance nw dw np) (Display.advance sw dw sp)).
  destruct (Display.animate n nw sw dw _ _) as [evs fin]. exact IH.
Qed.

Lemma animate_filter (kind : event -> bool) n nw sw dw :
  (forall x, kind (EMoveNorth x) = false) ->
  (forall x, kind (EMoveSouth x) = false) ->
  (forall q, kind (ESleep q) = false) ->
  forall np sp, filter kind (fst (Display.animate n nw sw dw np sp)) = [].
Proof.
  intros Hn Hs Hq. induction n as [| n IH]; intros np sp; [reflexivity |].
  cbn [Display.animate].
  specialize (IH (Display.advance nw dw np) (Display.advance sw dw sp)).
  destruct (Display.animate n nw sw dw _ _) as [evs fin].
  cbn [fst filter] in *. rewrite Hn, Hs, Hq. exact IH.
Qed.

Lemma animate_counts n nw sw dw :
  forall np sp,
  List.length (Display.north_moves (fst (Display.animate n nw sw dw np sp))) = n /\
  List.length (Display.south_moves (fst (Display.animate n nw sw dw np sp))) = n /\
  Trace.sleeps (fst (Display.animate n nw sw dw np sp)) = repeat (1 # 10)%Q n.
Proof.
  induction n as [| n IH]; intros np sp; [repeat split |].
  cbn [Display.animate].
  specialize (IH (Display.advance nw dw np) (Display.advance sw dw sp)).
  destruct (Display.animate n nw sw dw _ _) as [evs fin].
  destruct IH as (I1 & I2 & I3). cbn [fst] in *.
  unfold Display.north_moves, Display.south_moves, Trace.sleeps in *.
  cbn [flat_map app List.length repeat]. rewrite I1, I2, I3.
  repeat split.
Qed.

Lemma animate_range n nw sw dw :
  0 < nw -> 0 < sw -> 0 <= dw ->
  forall np sp, - nw < np <= dw -> - sw < sp <= dw ->
  Forall (fun x => - nw < x <= dw)
    (Display.north_moves (fst (Display.animate n nw sw dw np sp))) /\
  Forall (fun x => - sw < x <= dw)
    (Display.south_moves (fst (Display.animate n nw sw dw np sp))).
Proof.
  intros Hnw Hsw Hdw. induction n as [| n IH]; intros np sp Hn Hs.
  - split; constructor.
  - cbn [Display.animate].
    pose proof (ScrollRange.advance_in_range nw dw np Hnw Hdw Hn) as An.
    pose proof (ScrollRange.advance_in_range sw dw sp Hsw Hdw Hs) as As.
    specialize (IH _ _ An As).
    destruct (Display.animate n nw sw dw _ _) as [evs fin].
    destruct IH as [I1 I2]. cbn [fst] in *.
    unfold Display.north_moves, Display.south_moves in *.
    cbn [flat_map app]. split; constructor; assumption.
Qed.

Lemma create_frame trains w fault width evs c :
  Display.create_scrolling_display trains w fault width = (evs, Ok c) ->
  Display.c_display_width c = width /\
  group_x (Display.c_north_group c) = 0 /\
  group_x (Display.c_south_group c) = 0.
Proof.
  unfold Display.create_scrolling_display.
  destruct fault; [discriminate |].
  destruct (Display.route_strings (northbound trains)); [| discriminate].
  destruct (Display.route_strings (southbound trains)); [| discriminate].
  unfold Display.south_line, Display.north_line.
  destruct (Display.layout_routes 7059199 _ _).
  destruct (Display.layout_routes 16747584 _ _).
  destruct w; intros [= _ <-]; repeat split.
Qed.

(** The animation with its number of passes named. *)
Lemma animation_spec (n : nat) (st : loop_state) (c : Display.composed) :
  n = 600%nat ->
  exists eva ne se,
    animation st c =
    (mk_loop (weather st) (last_weather_update st)
       (Some (mk_group ne (group_y (Display.c_north_group c))
                (items (Display.c_north_group c))))
       (Some (mk_group se (group_y (Display.c_south_group c))
                (items (Display.c_south_group c))))
       (Display.c_north_width c) (Display.c_south_width c)
       (Display.c_display_width c) (Some ne) (Some se), eva) /\
    eva = fst (Display.animate n (Display.c_north_width c)
                 (Display.c_south_width c) (Display.c_display_width c) 0 0) /\
    ne = Display.ticks n (Display.c_north_width c)
           (Display.c_display_width c) 0 /\
    se = Display.ticks n (Display.c_south_width c)
           (Display.c_display_width c) 0.
Proof.
  intros En. unfold animation. rewrite <- En. clear En.
  pose proof (animate_final n (Display.c_north_width c)
                (Display.c_south_width c) (Display.c_display_width c) 0 0)
    as Fin.
  destruct (Display.animate n (Display.c_north_width c)
              (Display.c_south_width c) (Display.c_display_width c) 0 0)
    as [eva [ne se]].
  cbn [snd] in Fin. exists eva, ne, se.
  split; [reflexivity |]. split; [reflexivity |].
  split; [exact (f_equal fst Fin) | exact (f_equal snd Fin)].
Qed.

(** A pass that completes moves each line 600 times, one pixel step or one
    wrap at a time with a sleep of 0.1 s after each pair of moves; the
    positions it leaves in the variables are those of the last move, and the
    groups kept in the variables stand at these positions.  On a frame of
    width 0 or more, every position given to a line lies between its left
    end (minus the content width, excluded) and the frame width. *)
Theorem completed_pass_animation
    (st st' : loop_state) (env : cycle_env) (evs : list event) :
  attempt st env = (st', evs, Ok tt) ->
  List.length (Display.north_moves evs) = 600%nat /\
  List.length (Display.south_moves evs) = 600%nat /\
  display_width st' = frame_width env /\
  north_position st'
    = Some (Display.ticks 600 (north_width st') (display_width st') 0) /\
  south_position st'
    = Some (Display.ticks 600 (south_width st') (display_width st') 0) /\
  option_map group_x (north_group st') = north_position st' /\
  option_map group_x (south_group st') = south_position st' /\
  (0 <= frame_width env ->
   Forall (fun x => - north_width st' < x <= display_width st')
     (Display.north_moves evs) /\
   Forall (fun x => - south_width st' < x <= display_width st')
     (Display.south_moves evs)).
Proof.
  intros H. remember 600%nat as n eqn:En.
  destruct (attempt_shape st env) as (st1 & evw & evf & r & Hw & Hf & Hr).
  destruct r as [trains | e]; [| rewrite Hr in H; discriminate H].
  destruct Hr as (st2 & evd & evc & rc & Hd & _ & _ & Hc & Hr).
  destruct rc as [c | e]; [| rewrite Hr in H; discriminate H].
  destruct (animation_spec n st2 c En) as (eva & ne & se & Ea & Hev & Hne & Hse).
  rewrite Ea in Hr. cbn [fst snd] in Hr. rewrite Hr in H. clear Hr Ea.
  injection H as Hst Hevs. subst st' evs.
  cbn [north_width south_width display_width north_position south_position
       north_group south_group option_map group_x].
  destruct (SessionFacts.create_widths _ _ _ _ _ _ Hc) as [Wn Ws].
  destruct (create_frame _ _ _ _ _ _ Hc) as (Fw & _ & _).
  pose proof (SessionFacts.create_events trains (Some (weather st2))
                (compose_fault env) (frame_width env)) as Ev.
  rewrite Hc in Ev. destruct Ev as (south & north & ->).
  assert (Pre : still (evw ++ evf ++ evd ++ [EShow [south; north]; ERefresh])).
  { pose proof (SessionFacts.refresh_weather_events repr secrets st env) as Ew.
    rewrite Hw in Ew. cbn [snd] in Ew.
    pose proof (SessionFacts.fetch_and_parse_events mktime float env) as Ef.
    rewrite Hf in Ef. cbn [fst] in Ef.
    pose proof (SessionFacts.drop_groups_events st1) as Ed.
    rewrite Hd in Ed. cbn [snd] in Ed.
    destruct Ew as [-> | ->], Ef as [-> | ->], Ed as [-> | ->];
      split; reflexivity. }
  replace (evw ++ evf ++ evd ++ [EShow [south; north]; ERefresh] ++ eva)%list
    with ((evw ++ evf ++ evd ++ [EShow [south; north]; ERefresh]) ++ eva)%list
    by (rewrite <- !app_assoc; reflexivity).
  destruct (SessionFacts.moves_after_still _ eva Pre) as [Mn Ms].
  rewrite Mn, Ms. clear Mn Ms Pre.
  pose proof (animate_counts n (Display.c_north_width c)
                (Display.c_south_width c) (Display.c_display_width c) 0 0)
    as (C1 & C2 & _).
  rewrite <- Hev in C1, C2.
  split; [exact C1 |]. split; [exact C2 |]. split; [exact Fw |].
  split; [rewrite Hne; reflexivity |]. split; [rewrite Hse; reflexivity |].
  split; [reflexivity |]. split; [reflexivity |].
  intros HF.
  pose proof (animate_range n (Display.c_north_width c)
                (Display.c_south_width c) (Display.c_display_width c)) as Rg.
  destruct (Rg ltac:(lia) ltac:(lia) ltac:(lia) 0 0 ltac:(lia) ltac:(lia))
    as [R1 R2].
  rewrite <- Hev in R1, R2. split; assumption.
Qed.

Lemma count_app (kind : event -> bool) (a b : list event) :
  Trace.count kind (a ++ b) = (Trace.count kind a + Trace.count kind b)%nat.
Proof. unfold Trace.count. rewrite filter_app, length_app. reflexivity. Qed.

Lemma animation_count (kind : event -> bool) st c :
  (forall x, kind (EMoveNorth x) = false) ->
  (forall x, kind (EMoveSouth x) = false) ->
  (forall q, kind (ESleep q) = false) ->
  Trace.count kind (snd (animation st c)) = 0%nat.
Proof.
  intros Hn Hs Hq.
  destruct (animation_spec 600 st c eq_refl)
    as (eva & ne & se & Ea & Hev & _ & _).
  rewrite Ea. cbn [snd]. unfold Trace.count. rewrite Hev.
  rewrite (animate_filter kind) by assumption. reflexivity.
Qed.

Lemma animation_keeps_weather st c :
  weather (fst (animation st c)) = weather st /\
  last_weather_update (fst (animation st c)) = last_weather_update st.
Proof.
  destruct (animation_spec 600 st c eq_refl)
    as (eva & ne & se & Ea & _ & _ & _).
  rewrite Ea. split; reflexivity.
Qed.

(** What a pass does of each kind, given the pieces of [attempt_shape]. *)
Lemma attempt_counts (kind : event -> bool) (st : loop_state)
    (env : cycle_env) :
  (forall x, kind (EMoveNorth x) = false) ->
  (forall x, kind (EMoveSouth x) = false) ->
  (forall q, kind (ESleep q) = false) ->
  (forall g, kind (EShow g) = false) ->
  kind ERefresh = false -> kind EGcCollect = false ->
  Trace.count kind (snd (fst (attempt st env))) =
  (Trace.count kind (snd (refresh_weather st env))
   + Trace.count kind (fst (fetch_and_parse env)))%nat.
Proof.
  intros Hn Hs Hq Hg Hr Hc.
  destruct (attempt_shape st env) as (st1 & evw & evf & r & Hw & Hf & Hsh).
  rewrite Hw, Hf. cbn [fst snd].
  destruct r as [trains | e].
  - destruct Hsh as (st2 & evd & evc & rc & Hd & _ & _ & Hcr & Hsh).
    assert (Cd : Trace.count kind evd = 0%nat).
    { pose proof (SessionFacts.drop_groups_events st1) as Ed.
      rewrite Hd in Ed. cbn [snd] in Ed.
      destruct Ed as [-> | ->]; unfold Trace.count; cbn [filter];
        rewrite ?Hc; reflexivity. }
    assert (Cc : Trace.count kind evc = 0%nat).
    { pose proof (SessionFacts.create_events trains (Some (weather st2))
                    (compose_fault env) (frame_width env)) as Ev.
      rewrite Hcr in Ev. destruct rc as [c | e].
      - destruct Ev as (south & north & ->). unfold Trace.count.
        cbn [filter]. rewrite Hg, Hr. reflexivity.
      - subst evc. reflexivity. }
    destruct rc as [c | e]; rewrite Hsh; cbn [fst snd];
      rewrite !count_app, Cd, Cc, ?animation_count by assumption; lia.
  - rewrite Hsh. cbn [fst snd]. rewrite count_app. reflexivity.
Qed.

Lemma step_events_early (s : session) (env : cycle_env) :
  current_mode s = Active -> early s env ->
  loop (fst (step s env)) = fst (fst (attempt (loop s) env)) /\
  exists tail,
    snd (step s env) = (snd (fst (attempt (loop s) env)) ++ tail)%list /\
    (tail = [] \/ exists e, tail = handler e).
Proof.
  intros Hm He. unfold Session.step.
  rewrite Hm, (SessionFacts.early_check s env He).
  destruct (attempt (loop s) env) as [[st evs] [u | e]]; cbn [fst snd loop].
  - split; [reflexivity |]. exists []. rewrite app_nil_r.
    split; [reflexivity | left; reflexivity].
  - split; [reflexivity |]. exists (handler e).
    split; [reflexivity | right; exists e; reflexivity].
Qed.

Lemma step_count_early (kind : event -> bool) (s : session)
    (env : cycle_env) :
  current_mode s = Active -> early s env ->
  (forall q, kind (ESleep q) = false) ->
  (forall e, kind (ELogError e) = false) -> kind EGcCollect = false ->
  Trace.count kind (snd (step s env))
  = Trace.count kind (snd (fst (attempt (loop s) env))).
Proof.
  intros Hm He Hq Hl Hc.
  destruct (step_events_early s env Hm He) as (_ & tail & -> & Ht).
  rewrite count_app.
  destruct Ht as [-> | (e & ->)]; unfold Trace.count at 2, handler;
    cbn [filter]; rewrite ?Hq, ?Hl, ?Hc; cbn [List.length]; lia.
Qed.

(** An Active pass before the cap asks the train feed exactly once; it reads
    the network clock once if the feed answered and not at all if it did
    not; it asks the weather service at most once, and not at all when less
    than 600 s have passed since the last weather update. *)
Theorem pass_network_use (s : session) (env : cycle_env) :
  current_mode s = Active ->
  early s env ->
  let evs := snd (step s env) in
  Trace.count Trace.is_fetch_trains evs = 1%nat /\
  Trace.count Trace.is_fetch_clock evs
    = match train_fetch env with Ok _ => 1%nat | Raise _ => 0%nat end /\
  (Trace.count Trace.is_fetch_weather evs <= 1)%nat /\
  ((monotonic env - last_weather_update (loop s) < inject_Z 600)%Q ->
   Trace.count Trace.is_fetch_weather evs = 0%nat).
Proof.
  intros Hm He evs. subst evs.
  rewrite !(step_count_early _ s env Hm He) by reflexivity.
  rewrite !attempt_counts by reflexivity.
  pose proof (SessionFacts.refresh_weather_events repr secrets (loop s) env)
    as Ew. cbv zeta in Ew.
  assert (Ef : fst (fetch_and_parse env) =
               match train_fetch env with
               | Ok _ => [EFetchTrains; EFetchClock]
               | Raise _ => [EFetchTrains]
               end).
  { unfold Session.fetch_and_parse. destruct (train_fetch env); reflexivity. }
  rewrite Ef. split; [| split; [| split]].
  - destruct Ew as [-> | ->]; destruct (train_fetch env); reflexivity.
  - destruct Ew as [-> | ->]; destruct (train_fetch env); reflexivity.
  - destruct Ew as [-> | ->]; destruct (train_fetch env);
      unfold Trace.count; cbn; lia.
  - intros Hlt. unfold Session.refresh_weather.
    destruct (Qle_bool (inject_Z 600)
                (monotonic env - last_weather_update (loop s))) eqn:E.
    + apply Qle_bool_iff in E. exfalso. exact (Qlt_not_le _ _ Hlt E).
    + destruct (train_fetch env); reflexivity.
Qed.

(** The weather kept in the variables after an Active pass before the cap,
    however the rest of the pass ends: when 600 s or more have passed since
    the last update it is what [fetch_weather_data] returned in this pass,
    and the time of the update is that of this pass, also when the fetch
    failed - the placeholder "Unknown", 0 then replaces the weather held
    before, until the next refresh 600 s later; otherwise both are as
    before. *)
Theorem weather_cache_after_pass (s : session) (env : cycle_env) :
  current_mode s = Active ->
  early s env ->
  let after := loop (fst (step s env)) in
  ((inject_Z 600 <= monotonic env - last_weather_update (loop s))%Q ->
   weather after
     = snd (Weather.fetch_weather_data repr secrets (weather_fetch env)) /\
   last_weather_update after = monotonic env /\
   (forall api_key e,
      Py.get "openweather_key" PNone secrets = Ok api_key ->
      Py.truthy api_key = true ->
      weather_fetch env = Raise e ->
      weather after = mk_weather "Unknown" 0)) /\
  ((monotonic env - last_weather_update (loop s) < inject_Z 600)%Q ->
   weather after = weather (loop s) /\
   last_weather_update after = last_weather_update (loop s)).
Proof.
  intros Hm He after. subst after.
  destruct (step_events_early s env Hm He) as (-> & _).
  assert (K : weather (fst (fst (attempt (loop s) env)))
              = weather (fst (refresh_weather (loop s) env)) /\
              last_weather_update (fst (fst (attempt (loop s) env)))
              = last_weather_update (fst (refresh_weather (loop s) env))).
  { destruct (attempt_shape (loop s) env)
      as (st1 & evw & evf & r & Hw & Hf & Hsh).
    rewrite Hw. cbn [fst]. destruct r as [trains | e].
    - destruct Hsh as (st2 & evd & evc & rc & Hd & W2 & L2 & Hcr & Hsh).
      destruct rc as [c | e]; rewrite Hsh; cbn [fst].
      + destruct (animation_keeps_weather st2 c) as [-> ->].
        split; assumption.
      + split; assumption.
    - rewrite Hsh. split; reflexivity. }
  destruct K as [-> ->]. unfold Session.refresh_weather. split.
  - intros Hdue. apply Qle_bool_iff in Hdue. rewrite Hdue.
    destruct (Weather.fetch_weather_data repr secrets (weather_fetch env))
      as [evs w] eqn:Ew.
    cbn [fst snd weather last_weather_update].
    split; [reflexivity |]. split; [reflexivity |].
    intros k e Hk Ht Hf.
    pose proof (f_equal snd Ew) as Ew'. cbn [snd] in Ew'. rewrite <- Ew'.
    unfold Weather.fetch_weather_data, Weather.try_body.
    rewrite Hk, Ht, Hf. reflexivity.
  - intros Hlt.
    destruct (Qle_bool (inject_Z 600)
                (monotonic env - last_weather_update (loop s))) eqn:E.
    + apply Qle_bool_iff in E. exfalso. exact (Qlt_not_le _ _ Hlt E).
    + split; reflexivity.
Qed.

(** When the secrets hold no API key (the lookup gives nothing that counts as
    true, or fails), no run ever asks the weather service. *)
Theorem no_key_no_weather_request (s : session) (envs : list cycle_env) :
  (forall api_key,
     Py.get "openweather_key" PNone secrets = Ok api_key ->
     Py.truthy api_key = false) ->
  Trace.count Trace.is_fetch_weather (snd (run s envs)) = 0%nat.
Proof.
  intros Hk.
  assert (W : forall f, fst (Weather.fetch_weather_data repr secrets f) = []).
  { intros f. unfold Weather.fetch_weather_data, Weather.try_body.
    destruct (Py.get "openweather_key" PNone secrets) as [k | e] eqn:E.
    - rewrite (Hk k eq_refl). reflexivity.
    - reflexivity. }
  assert (R : forall st env,
             Trace.count Trace.is_fetch_weather
               (snd (refresh_weather st env)) = 0%nat).
  { intros st env. unfold Session.refresh_weather.
    destruct (Qle_bool _ _); [| reflexivity].
    pose proof (W (weather_fetch env)) as Wf.
    destruct (Weather.fetch_weather_data repr secrets (weather_fetch env)).
    cbn [fst snd] in *. subst. reflexivity. }
  assert (S : forall s env,
             Trace.count Trace.is_fetch_weather (snd (step s env)) = 0%nat).
  { intros s0 env. unfold Session.step.
    destruct (current_mode s0); [| reflexivity].
    destruct (Qle_bool run_duration _);
      [destruct (compose_fault env); reflexivity |].
    pose proof (attempt_counts Trace.is_fetch_weather (loop s0) env
                  ltac:(reflexivity) ltac:(reflexivity) ltac:(reflexivity)
                  ltac:(reflexivity) eq_refl eq_refl) as A.
    rewrite R in A.
    assert (F : Trace.count Trace.is_fetch_weather
                  (fst (fetch_and_parse env)) = 0%nat).
    { unfold Session.fetch_and_parse.
      destruct (train_fetch env); reflexivity. }
    rewrite F in A.
    destruct (attempt (loop s0) env) as [[st evs] [u | e]];
      cbn [fst snd] in *; [exact A |].
    rewrite count_app, A. reflexivity. }
  revert s. induction envs as [| env rest IH]; intros s0; [reflexivity |].
  cbn [Session.run]. pose proof (S s0 env) as S1.
  destruct (step s0 env) as [s1 evs1].
  specialize (IH s1). destruct (run s1 rest) as [s2 evs2].
  cbn [snd] in *. rewrite count_app, S1, IH. reflexivity.
Qed.

End Facts.

(** The theorem at the sample pass. *)
Lemma completed_pass_animation_witness :
  List.length
    (Display.north_moves
       (snd (fst (Session.attempt civil_mktime decimal_float Sample.no_repr
                    Sample.secrets Sample.variables Sample.pass_ok))))
  = 600%nat.
Proof.
  refine (proj1 (completed_pass_animation civil_mktime decimal_float
                   Sample.no_repr Sample.secrets Sample.variables
                   (fst (fst (Session.attempt civil_mktime decimal_float
                                Sample.no_repr Sample.secrets
                                Sample.variables Sample.pass_ok)))
                   Sample.pass_ok _ _)).
  vm_compute. reflexivity.
Defined.

(** The theorem at a pass whose train fetch fails. *)
Lemma pass_network_use_witness :
  Trace.count Trace.is_fetch_trains
    (snd (Session.step civil_mktime decimal_float Sample.no_repr
            Sample.secrets Sample.active Sample.pass_fetch_fault)) = 1%nat.
Proof.
  refine (proj1 (pass_network_use civil_mktime decimal_float Sample.no_repr
                   Sample.secrets Sample.active Sample.pass_fetch_fault
                   _ _)).
  - reflexivity.
  - vm_compute. reflexivity.
Defined.

(** The theorem at a pass 700 s after the last weather update, the weather
    service and the train feed both failing: the weather "Clear Sky", 41 of
    the variables is replaced by the placeholder. *)
Lemma weather_cache_after_pass_witness :
  Session.weather
    (Session.loop
       (fst (Session.step civil_mktime decimal_float Sample.no_repr
               Sample.secrets Sample.active
               (Session.mk_env (700 # 1) (Raise OSError) (Raise OSError)
                  (Ok (RNum Sample.now)) 0 None 64))))
  = mk_weather "Unknown" 0.
Proof.
  refine (proj2 (proj2 (proj1 (weather_cache_after_pass civil_mktime
            decimal_float Sample.no_repr Sample.secrets Sample.active
            (Session.mk_env (700 # 1) (Raise OSError) (Raise OSError)
               (Ok (RNum Sample.now)) 0 None 64) _ _) _))
            (PStr "key") OSError _ _ _).
  - reflexivity.
  - vm_compute. reflexivity.
  - vm_compute. discriminate.
  - reflexivity.
  - reflexivity.
  - reflexivity.
Defined.

(** The theorem at secrets without key, over two passes. *)
Lemma no_key_no_weather_request_witness :
  Trace.count Trace.is_fetch_weather
    (snd (Session.run civil_mktime decimal_float Sample.no_repr (PDict [])
            Sample.active [Sample.pass_fetch_fault; Sample.pass_late]))
  = 0%nat.
Proof.
  apply (no_key_no_weather_request civil_mktime decimal_float Sample.no_repr
           (PDict []) Sample.active
           [Sample.pass_fetch_fault; Sample.pass_late]).
  intros api_key [= <-]. reflexivity.
Defined.

End PassFacts.

(** ** More on the schedule *)

Module FilterFacts.

Import Schedule.

Lemma bind_ok {A B : Type} (m : result A) (k : A -> result B) (b : B) :
  bind m k = Ok b -> exists a, m = Ok a /\ k a = Ok b.
Proof.
  destruct m as [a | e]; cbn [bind]; [| discriminate].
  intros H. exists a. split; [reflexivity | exact H].
Qed.

Section Facts.

Variable mktime : mktime_t.
Variable float : float_t.

Local Abbreviation arrival := (arrival mktime).
Local Abbreviation readable := (readable mktime).
Local Abbreviation collect := (collect mktime).
Local Abbreviation direction := (direction mktime).
Local Abbreviation filter_station := (filter_station mktime).
Local Abbreviation parse_train_times := (parse_train_times mktime float).
Local Abbreviation get_current_time_utc :=
  (TrainTimeParser.get_current_time_utc mktime float).

(** What one turn of the loop does with a record. *)
Lemma collect_cons (now min_minutes : Z) (tr : pyval) (rest : list pyval)
    (out : list (train pyval)) :
  collect now min_minutes (tr :: rest) = Ok out ->
  exists s t,
    Py.getitem "time" tr = Ok (PStr s) /\
    TrainTimeParser.parse_iso8601_to_utc mktime s = Ok t /\
    ((min_minutes < eta_minutes t now /\
      exists r more,
        Py.getitem "route" tr = Ok r /\
        collect now min_minutes rest = Ok more /\
        out = mk_train r (eta_minutes t now) s :: more) \/
     (eta_minutes t now <= min_minutes /\
      collect now min_minutes rest = Ok out)).
Proof.
  cbn [Schedule.collect]. intros H.
  apply bind_ok in H. destruct H as (tm & Htm & H).
  apply bind_ok in H. destruct H as ([s t] & Hst & H).
  assert (Etm : tm = PStr s /\
                TrainTimeParser.parse_iso8601_to_utc mktime s = Ok t).
  { unfold time_utc in Hst. destruct tm; try discriminate.
    apply bind_ok in Hst. destruct Hst as (t' & Hp & [= <- <-]).
    split; [reflexivity | exact Hp]. }
  destruct Etm as [-> Hp]. exists s, t. split; [exact Htm |].
  split; [exact Hp |]. cbn [fst snd] in H.
  destruct (Z.ltb_spec min_minutes (eta_minutes t now)) as [Hlt | Hge].
  - left. split; [exact Hlt |].
    apply bind_ok in H. destruct H as (r & Hr & H).
    apply bind_ok in H. destruct H as (more & Hm & [= <-]).
    exists r, more. repeat split; assumption.
  - right. split; [lia | exact H].
Qed.

Lemma getitem_dict (k : string) (tr v : pyval) :
  Py.getitem k tr = Ok v ->
  exists fields, tr = PDict fields /\ Py.lookup k fields = Some v.
Proof.
  destruct tr; try discriminate. cbn [Py.getitem].
  destruct (Py.lookup k d) as [v' |] eqn:E; [| discriminate].
  intros [= <-]. exists d. split; [reflexivity | exact E].
Qed.

Lemma collect_sound (now min_minutes : Z) (trains : list pyval) :
  forall out,
  collect now min_minutes trains = Ok out ->
  Forall (fun e => min_minutes < minutes_until e) out /\
  exists chosen,
    Feed.selection chosen trains /\
    Forall2 (fun tr e =>
               exists t, arrival tr (route e) (time e) t /\
                         minutes_until e = Z.quot (t - now) 60)
            chosen out.
Proof.
  induction trains as [| tr rest IH]; intros out H.
  - injection H as <-. split; [constructor |].
    exists []. split; constructor.
  - apply collect_cons in H.
    destruct H as (s & t & Htm & Hp & [(Hlt & r & more & Hr & Hc & ->) | (Hge & Hc)]).
    + destruct (IH more Hc) as (B & chosen & Hs & Hf).
      split; [constructor; [exact Hlt | exact B] |].
      exists (tr :: chosen). split; [apply Feed.sel_take; exact Hs |].
      constructor; [| exact Hf].
      exists t. cbn [route time minutes_until]. split; [| reflexivity].
      destruct (getitem_dict _ _ _ Htm) as (fields & -> & Lt).
      destruct (getitem_dict _ _ _ Hr) as (fields' & [= <-] & Lr).
      exists fields. repeat split; assumption.
    + destruct (IH out Hc) as (B & chosen & Hs & Hf).
      split; [exact B |]. exists chosen.
      split; [apply Feed.sel_skip; exact Hs | exact Hf].
Qed.

Lemma direction_sound (now min_minutes : Z) (key : string) (sd : pyval)
    (out : list (train pyval)) :
  direction now min_minutes key sd = Ok out ->
  Forall (fun e => min_minutes < minutes_until e) out.
Proof.
  unfold Schedule.direction. intros H.
  apply bind_ok in H. destruct H as (present & _ & H).
  destruct present.
  - apply bind_ok in H. destruct H as (l & _ & H).
    apply bind_ok in H. destruct H as (trains & _ & H).
    exact (proj1 (collect_sound now min_minutes trains out H)).
  - injection H as <-. constructor.
Qed.

(** Whatever the payload and the clock, every entry of a schedule that
    [parse_train_times] returns has more minutes than the threshold. *)
Theorem schedule_above_threshold
    (clock : result clock_reading) (host_time min_minutes : Z)
    (json_response : pyval) (sched : schedule pyval) :
  parse_train_times clock host_time json_response min_minutes = Ok sched ->
  Forall (fun e => min_minutes < minutes_until e) (northbound sched) /\
  Forall (fun e => min_minutes < minutes_until e) (southbound sched).
Proof.
  unfold Schedule.parse_train_times. intros H.
  apply bind_ok in H. destruct H as (now & _ & H).
  unfold Schedule.filter_station in H.
  apply bind_ok in H. destruct H as (has & _ & H).
  apply bind_ok in H. destruct H as (none & _ & H).
  destruct none.
  - injection H as <-. split; constructor.
  - apply bind_ok in H. destruct H as (d & _ & H).
    apply bind_ok in H. destruct H as (sd & _ & H).
    apply bind_ok in H. destruct H as (north & Hn & H).
    apply bind_ok in H. destruct H as (south & Hs & [= <-]).
    split; [exact (direction_sound _ _ _ _ _ Hn)
           | exact (direction_sound _ _ _ _ _ Hs)].
Qed.

Lemma parse_feed_of (clock : result clock_reading)
    (host_time min_minutes : Z) (north south : list pyval) :
  parse_train_times clock host_time (Feed.feed_of north south) min_minutes =
  (now <- get_current_time_utc clock host_time ;;
   n <- collect now min_minutes north ;;
   s <- collect now min_minutes south ;;
   Ok (mk_schedule n s)).
Proof. reflexivity. Qed.

(** On a feed of the expected shape, each direction of the schedule is a
    selection of the records of that direction in the order of the feed:
    nothing is reordered, repeated or invented, and an entry carries the
    route and the time string of its record and the truncated minutes. *)
Theorem schedule_keeps_feed_order
    (clock : result clock_reading) (host_time now min_minutes : Z)
    (north south : list pyval) (sched : schedule pyval) :
  get_current_time_utc clock host_time = Ok now ->
  parse_train_times clock host_time (Feed.feed_of north south) min_minutes
    = Ok sched ->
  (exists chosen,
     Feed.selection chosen north /\
     Forall2 (fun tr e =>
                exists t, arrival tr (route e) (time e) t /\
                          minutes_until e = Z.quot (t - now) 60)
             chosen (northbound sched)) /\
  (exists chosen,
     Feed.selection chosen south /\
     Forall2 (fun tr e =>
                exists t, arrival tr (route e) (time e) t /\
                          minutes_until e = Z.quot (t - now) 60)
             chosen (southbound sched)).
Proof.
  intros Hnow. rewrite parse_feed_of, Hnow. cbn [bind]. intros H.
  apply bind_ok in H. destruct H as (n & Hn & H).
  apply bind_ok in H. destruct H as (s & Hs & [= <-]).
  cbn [northbound southbound]. split.
  - exact (proj2 (collect_sound now min_minutes north n Hn)).
  - exact (proj2 (collect_sound now min_minutes south s Hs)).
Qed.

(** Stations after the first are not read: the result is that of the
    payload cut down to its first station. *)
Theorem only_first_station
    (clock : result clock_reading) (host_time min_minutes : Z)
    (top : list (string * pyval)) (station_data : pyval)
    (more : list pyval) :
  Py.lookup "data" top = Some (PList (station_data :: more)) ->
  parse_train_times clock host_time (PDict top) min_minutes =
  parse_train_times clock host_time
    (PDict [("data", PList [station_data])]) min_minutes.
Proof.
  intros H. unfold Schedule.parse_train_times.
  destruct (get_current_time_utc clock host_time) as [now | e];
    [| reflexivity].
  cbn [bind]. unfold Schedule.filter_station.
  cbn [Py.contains Py.getitem bind]. unfold Py.has_key. rewrite H.
  cbn [Py.lookup String.eqb Ascii.eqb Bool.eqb negb bind Py.len Py.first
       List.length].
  destruct (Z.eqb_spec (Z.of_nat (S (List.length more))) 0) as [E | _];
    [lia |].
  reflexivity.
Qed.

Lemma collect_app (now min_minutes : Z) (a b : list pyval) :
  collect now min_minutes (a ++ b) =
  (x <- collect now min_minutes a ;;
   y <- collect now min_minutes b ;;
   Ok (x ++ y)%list).
Proof.
  induction a as [| tr rest IH]; cbn [app Schedule.collect bind].
  - destruct (collect now min_minutes b); reflexivity.
  - destruct (Py.getitem "time" tr) as [tm |]; cbn [bind]; [| reflexivity].
    destruct (time_utc mktime tm) as [st |]; cbn [bind]; [| reflexivity].
    destruct (min_minutes <? eta_minutes (snd st) now)%Z.
    + destruct (Py.getitem "route" tr) as [r |]; cbn [bind]; [| reflexivity].
      rewrite IH.
      destruct (collect now min_minutes rest); cbn [bind]; [| reflexivity].
      destruct (collect now min_minutes b); reflexivity.
    + exact IH.
Qed.

(** A record that lacks a field, after records that can be read.  Without
    ['time'] the call raises [KeyError] and no schedule is returned.  Without
    ['route'] the record raises [KeyError] when it passes the threshold, and
    is skipped like any other record when it does not: the route is looked
    up after the comparison. *)
Theorem record_missing_field
    (clock : result clock_reading) (host_time now min_minutes : Z)
    (before after south : list pyval) (fields : list (string * pyval)) :
  get_current_time_utc clock host_time = Ok now ->
  Forall readable before ->
  (Py.lookup "time" fields = None ->
   parse_train_times clock host_time
     (Feed.feed_of (before ++ PDict fields :: after) south) min_minutes
   = Raise KeyError) /\
  (forall s t,
     Py.lookup "time" fields = Some (PStr s) ->
     TrainTimeParser.parse_iso8601_to_utc mktime s = Ok t ->
     Py.lookup "route" fields = None ->
     (min_minutes < Z.quot (t - now) 60 ->
      parse_train_times clock host_time
        (Feed.feed_of (before ++ PDict fields :: after) south) min_minutes
      = Raise KeyError) /\
     (Z.quot (t - now) 60 <= min_minutes ->
      parse_train_times clock host_time
        (Feed.feed_of (before ++ PDict fields :: after) south) min_minutes
      = parse_train_times clock host_time
          (Feed.feed_of (before ++ after) south) min_minutes)).
Proof.
  intros Hnow Hb.
  destruct (ScheduleFacts.collect_readable mktime now min_minutes before Hb)
    as (out & Hout & _).
  split.
  - intros Ht. rewrite parse_feed_of, Hnow. cbn [bind].
    rewrite collect_app, Hout. cbn [bind Schedule.collect Py.getitem].
    rewrite Ht. reflexivity.
  - intros s t Ht Hp Hr. split; intros Hcmp.
    + rewrite parse_feed_of, Hnow. cbn [bind].
      rewrite collect_app, Hout.
      cbn [bind Schedule.collect Py.getitem time_utc].
      rewrite Ht. cbn [bind time_utc]. rewrite Hp. cbn [bind fst snd].
      unfold eta_minutes.
      destruct (Z.ltb_spec min_minutes (Z.quot (t - now) 60)); [| lia].
      rewrite Hr. reflexivity.
    + rewrite !parse_feed_of, Hnow. cbn [bind].
      rewrite !collect_app, Hout.
      cbn [bind Schedule.collect Py.getitem time_utc].
      rewrite Ht. cbn [bind time_utc]. rewrite Hp. cbn [bind fst snd].
      unfold eta_minutes.
      destruct (Z.ltb_spec min_minutes (Z.quot (t - now) 60)); [lia |].
      reflexivity.
Qed.

(** Payloads of another shape, once the clock has been read.  A payload that
    is null, a boolean or a number raises [TypeError]; so does a dict whose
    ['data'] is one of these.  A list without the element ["data"] and a
    string that does not contain [data] are taken as a feed without data:
    the schedule is empty. *)
Theorem payload_shapes
    (clock : result clock_reading) (host_time now min_minutes : Z) :
  get_current_time_utc clock host_time = Ok now ->
  (forall v, Feed.scalar v = true ->
     parse_train_times clock host_time v min_minutes = Raise TypeError) /\
  (forall top v, Py.lookup "data" top = Some v -> Feed.scalar v = true ->
     parse_train_times clock host_time (PDict top) min_minutes
     = Raise TypeError) /\
  (forall l, existsb (Py.is_str "data") l = false ->
     parse_train_times clock host_time (PList l) min_minutes
     = Ok (mk_schedule [] [])) /\
  (forall s, PyStr.is_infix "data" s = false ->
     parse_train_times clock host_time (PStr s) min_minutes
     = Ok (mk_schedule [] [])).
Proof.
  intros Hnow. unfold Schedule.parse_train_times. rewrite Hnow. cbn [bind].
  unfold Schedule.filter_station. repeat split.
  - intros v Hv. destruct v; try discriminate; reflexivity.
  - intros top v Hl Hv. cbn [Py.contains Py.getitem bind].
    unfold Py.has_key. rewrite Hl. cbn [negb bind].
    destruct v; try discriminate; reflexivity.
  - intros l Hl. cbn [Py.contains bind]. rewrite Hl. reflexivity.
  - intros s Hs. cbn [Py.contains bind]. rewrite Hs. reflexivity.
Qed.

End Facts.

(** The theorems at the sample feed, read at [Sample.now]. *)
Lemma schedule_above_threshold_witness :
  exists sched,
    parse_train_times civil_mktime decimal_float (Ok (RNum Sample.now)) 0
      Sample.feed 5 = Ok sched /\
    Forall (fun e => 5 < minutes_until e) (northbound sched).
Proof.
  eexists. split; [vm_compute; reflexivity |].
  refine (proj1 (schedule_above_threshold civil_mktime decimal_float
                   (Ok (RNum Sample.now)) 0 5 Sample.feed _ _)).
  vm_compute. reflexivity.
Defined.

Lemma schedule_keeps_feed_order_witness :
  exists sched chosen,
    parse_train_times civil_mktime decimal_float (Ok (RNum Sample.now)) 0
      (Feed.feed_of Sample.north Sample.south) 5 = Ok sched /\
    Feed.selection chosen Sample.north /\
    List.length chosen = List.length (northbound sched).
Proof.
  destruct (schedule_keeps_feed_order civil_mktime decimal_float
              (Ok (RNum Sample.now)) 0 Sample.now 5 Sample.north Sample.south
              (mk_schedule
                 [mk_train (PStr "A") 6 "2026-01-07T14:39:02-05:00"]
                 [mk_train (PStr "E") 10 "2026-01-07T14:43:01-05:00"]))
    as [(chosen & Hs & Hf) _].
  - reflexivity.
  - vm_compute. reflexivity.
  - eexists. exists chosen. split; [vm_compute; reflexivity |].
    split; [exact Hs |]. exact (Forall2_length Hf).
Defined.

Lemma only_first_station_witness :
  parse_train_times civil_mktime decimal_float (Ok (RNum Sample.now)) 0
    (PDict [("data", PList [PDict Sample.station; PNone])]) 5 =
  parse_train_times civil_mktime decimal_float (Ok (RNum Sample.now)) 0
    (PDict [("data", PList [PDict Sample.station])]) 5.
Proof.
  apply (only_first_station civil_mktime decimal_float (Ok (RNum Sample.now))
           0 5 [("data", PList [PDict Sample.station; PNone])]
           (PDict Sample.station) [PNone]).
  reflexivity.
Defined.

Lemma record_missing_field_witness :
  parse_train_times civil_mktime decimal_float (Ok (RNum Sample.now)) 0
    (Feed.feed_of [PDict [("route", PStr "A")]] []) 5 = Raise KeyError.
Proof.
  refine (proj1 (record_missing_field civil_mktime decimal_float
                   (Ok (RNum Sample.now)) 0 Sample.now 5 [] [] []
                   [("route", PStr "A")] _ _) _).
  - reflexivity.
  - constructor.
  - reflexivity.
Defined.

Lemma payload_shapes_witness :
  parse_train_times civil_mktime decimal_float (Ok (RNum Sample.now)) 0
    (PDict [("data", PNone)]) 5 = Raise TypeError.
Proof.
  refine (proj1 (proj2 (payload_shapes civil_mktime decimal_float
                          (Ok (RNum Sample.now)) 0 Sample.now 5 _))
            [("data", PNone)] PNone _ _); reflexivity.
Defined.

End FilterFacts.

(** ** Python's string operations *)

Module PyStrFacts.

Import PyStr.

Lemma contains_app (c : ascii) (a b : string) :
  contains c (a ++ b) = contains c a || contains c b.
Proof.
  induction a as [| c' a IH]; cbn [append contains]; [reflexivity |].
  rewrite IH, orb_assoc. reflexivity.
Qed.

Lemma rcut_absent (sep : ascii) (s : string) :
  contains sep s = false -> rcut sep s = None.
Proof.
  induction s as [| c s IH]; cbn [contains rcut]; [reflexivity |].
  intros H. apply orb_false_iff in H. destruct H as [Hc Hs].
  rewrite (IH Hs), Hc. reflexivity.
Qed.

(** [rsplit] cuts at the last separator. *)
Lemma rcut_last (sep : ascii) (a b : string) :
  contains sep b = false -> rcut sep (a ++ String sep b) = Some (a, b).
Proof.
  intros Hb. induction a as [| c a IH]; cbn [append rcut].
  - rewrite (rcut_absent sep b Hb), Ascii.eqb_refl. reflexivity.
  - rewrite IH. reflexivity.
Qed.

Lemma split_go_absent (sep : ascii) (s : string) :
  contains sep s = false -> split_go sep s = (s, []).
Proof.
  induction s as [| c s IH]; cbn [contains split_go]; [reflexivity |].
  intros H. apply orb_false_iff in H. destruct H as [Hc Hs].
  rewrite (IH Hs), Hc. reflexivity.
Qed.

Lemma split_absent (sep : ascii) (s : string) :
  contains sep s = false -> split sep s = [s].
Proof. intros H. unfold split. rewrite split_go_absent by exact H. reflexivity. Qed.

(** [split] cuts at the first separator and goes on. *)
Lemma split_first (sep : ascii) (a b : string) :
  contains sep a = false ->
  split sep (a ++ String sep b) = a :: split sep b.
Proof.
  intros Ha. unfold split.
  assert (G : split_go sep (a ++ String sep b)
              = (a, fst (split_go sep b) :: snd (split_go sep b))).
  { induction a as [| c a IH]; cbn [append split_go].
    - destruct (split_go sep b). rewrite Ascii.eqb_refl. reflexivity.
    - cbn [contains] in Ha. apply orb_false_iff in Ha.
      destruct Ha as [Hc Ha]. rewrite (IH Ha), Hc. reflexivity. }
  rewrite G. destruct (split_go sep b). reflexivity.
Qed.

(** The pieces of a string hold no character the string does not hold. *)
Lemma split_go_pieces (c sep : ascii) (s : string) :
  contains c s = false ->
  contains c (fst (split_go sep s)) = false /\
  Forall (fun p => contains c p = false) (snd (split_go sep s)).
Proof.
  induction s as [| c' s IH]; cbn [contains split_go].
  - intros _. split; [reflexivity | constructor].
  - intros H. apply orb_false_iff in H. destruct H as [Hc Hs].
    destruct (IH Hs) as [I1 I2]. destruct (split_go sep s) as [tok rest].
    cbn [fst snd] in *. destruct (Ascii.eqb c' sep); cbn [fst snd].
    + split; [reflexivity | constructor; assumption].
    + split; [cbn [contains]; rewrite Hc, I1; reflexivity | exact I2].
Qed.

Lemma split_pieces (c sep : ascii) (s : string) :
  contains c s = false ->
  Forall (fun p => contains c p = false) (split sep s).
Proof.
  intros H. unfold split. destruct (split_go_pieces c sep s H) as [I1 I2].
  destruct (split_go sep s). constructor; assumption.
Qed.

Lemma digit_not_space (c : ascii) :
  is_digit c = true -> is_int_space c = false.
Proof.
  destruct c as [[] [] [] [] [] [] [] []]; cbv; congruence.
Qed.

Lemma digit_not (c d : ascii) :
  is_digit d = false -> is_digit c = true -> Ascii.eqb c d = false.
Proof.
  intros Hd Hc. destruct (Ascii.eqb_spec c d) as [-> |]; [congruence |].
  reflexivity.
Qed.

Lemma digits_contain (d : ascii) (s : string) :
  is_digit d = false -> all_digits s = true -> contains d s = false.
Proof.
  intros Hd. induction s as [| c s IH]; cbn [all_digits contains];
    [reflexivity |].
  intros H. apply andb_true_iff in H. destruct H as [Hc Hs].
  rewrite (digit_not c d Hd Hc), (IH Hs). reflexivity.
Qed.

Lemma digits_rstrip (s : string) : all_digits s = true -> rstrip s = s.
Proof.
  induction s as [| c s IH]; cbn [all_digits rstrip]; [reflexivity |].
  intros H. apply andb_true_iff in H. destruct H as [Hc Hs].
  rewrite (IH Hs). destruct s; [| reflexivity].
  rewrite (digit_not_space c Hc). reflexivity.
Qed.

Lemma digits_strip (s : string) : all_digits s = true -> strip s = s.
Proof.
  intros H. unfold strip.
  assert (L : lstrip s = s).
  { destruct s as [| c s]; [reflexivity |]. cbn [lstrip].
    cbn [all_digits] in H. apply andb_true_iff in H.
    rewrite (digit_not_space c (proj1 H)). reflexivity. }
  rewrite L. apply digits_rstrip. exact H.
Qed.

(** [int] reads a string of digits as its decimal value. *)
Lemma int_of_digits (s : string) (z : Z) :
  digits_value s = Some z -> int_of_str s = Ok z.
Proof.
  unfold digits_value, int_of_str, py_int.
  destruct (all_digits s) eqn:E; [| discriminate].
  rewrite (digits_strip s E). intros H.
  destruct s as [| c s]; [discriminate |].
  cbn [all_digits] in E. apply andb_true_iff in E. destruct E as [Hc _].
  assert (P : match String c s with
              | String "+" r => parse_digits 0 false r
              | String "-" r => option_map Z.opp (parse_digits 0 false r)
              | t => parse_digits 0 false t
              end = parse_digits 0 false (String c s)).
  { destruct c as [[] [] [] [] [] [] [] []]; try reflexivity;
      cbv in Hc; discriminate. }
  rewrite P, H. reflexivity.
Qed.

Lemma digits_value_digits (s : string) (z : Z) :
  digits_value s = Some z -> all_digits s = true.
Proof.
  unfold digits_value. destruct (all_digits s); [reflexivity | discriminate].
Qed.

Lemma substring_prefix (a b : string) :
  substring 0 (String.length a) (a ++ b) = a.
Proof.
  induction a as [| c a IH]; cbn [String.length append substring].
  - destruct b; reflexivity.
  - rewrite IH. reflexivity.
Qed.

Lemma substring_skip (a b : string) (m : nat) :
  substring (String.length a) m (a ++ b) = substring 0 m b.
Proof.
  induction a as [| c a IH]; cbn [String.length append substring].
  - destruct b, m; reflexivity.
  - exact IH.
Qed.

End PyStrFacts.

(** ** More on the arrival timestamps and the clock *)

Module IsoFacts.

Import PyStr PyStrFacts TrainTimeParser.

Lemma append_assoc (a b c : string) : (a ++ b) ++ c = a ++ (b ++ c).
Proof.
  induction a as [| x a IH]; cbn [append]; [reflexivity |].
  rewrite IH. reflexivity.
Qed.

Lemma split2 (sep : ascii) (a b : string) :
  contains sep a = false -> contains sep b = false ->
  split sep (a ++ String sep b) = [a; b].
Proof.
  intros Ha Hb. rewrite split_first by exact Ha.
  rewrite split_absent by exact Hb. reflexivity.
Qed.

Lemma split3 (sep : ascii) (a b c : string) :
  contains sep a = false -> contains sep b = false ->
  contains sep c = false ->
  split sep (a ++ String sep (b ++ String sep c)) = [a; b; c].
Proof.
  intros Ha Hb Hc. rewrite split_first by exact Ha.
  rewrite split2 by assumption. reflexivity.
Qed.

Section Facts.

Variable mktime : mktime_t.

Local Abbreviation parse_iso8601_to_utc := (parse_iso8601_to_utc mktime).

Lemma map_int3 (a b c : string) (x y z : Z) :
  digits_value a = Some x -> digits_value b = Some y ->
  digits_value c = Some z ->
  map_int [a; b; c] = Ok [x; y; z].
Proof.
  intros Ha Hb Hc. cbn [map_int].
  rewrite (int_of_digits a x Ha), (int_of_digits b y Hb),
    (int_of_digits c z Hc).
  reflexivity.
Qed.

Lemma map_int2 (a b : string) (x y : Z) :
  digits_value a = Some x -> digits_value b = Some y ->
  map_int [a; b] = Ok [x; y].
Proof.
  intros Ha Hb. cbn [map_int].
  rewrite (int_of_digits a x Ha), (int_of_digits b y Hb). reflexivity.
Qed.

(** Every timestamp [Y-M-DTh:m:s+oh:om] or [Y-M-DTh:m:s-oh:om] whose
    fields are written in digits is read as [mktime] of the six date and
    time fields, less the offset [oh] hours and [om] minutes counted
    positive after [+] and negative after [-]: the hyphens of the date do
    not disturb the search for the sign of the offset. *)
Theorem iso8601_well_formed
    (Y M D h m s oh om : string) (positive : bool)
    (year month day hour minute second off_h off_m : Z) :
  digits_value Y = Some year ->
  digits_value M = Some month ->
  digits_value D = Some day ->
  digits_value h = Some hour ->
  digits_value m = Some minute ->
  digits_value s = Some second ->
  digits_value oh = Some off_h ->
  digits_value om = Some off_m ->
  parse_iso8601_to_utc (Iso.timestamp Y M D h m s positive oh om) =
  (local <- mktime year month day hour minute second ;;
   Ok (local - Iso.sign_factor positive * (off_h * 3600 + off_m * 60))).
Proof.
  intros HY HM HD Hh Hm Hs Hoh Hom.
  pose proof (digits_value_digits _ _ HY) as DY.
  pose proof (digits_value_digits _ _ HM) as DM.
  pose proof (digits_value_digits _ _ HD) as DD.
  pose proof (digits_value_digits _ _ Hh) as Dh.
  pose proof (digits_value_digits _ _ Hm) as Dm.
  pose proof (digits_value_digits _ _ Hs) as Ds.
  pose proof (digits_value_digits _ _ Hoh) as Doh.
  pose proof (digits_value_digits _ _ Hom) as Dom.
  set (date := Y ++ String "-" (M ++ String "-" D)).
  set (time := h ++ String ":" (m ++ String ":" s)).
  set (tz := oh ++ String ":" om).
  set (dt := date ++ String "T" time).
  assert (E : Iso.timestamp Y M D h m s positive oh om
              = dt ++ String (Iso.sign_char positive) tz).
  { unfold Iso.timestamp, dt, date, time, tz. cbn [append].
    repeat (rewrite !append_assoc; cbn [append]). reflexivity. }
  assert (N : forall c, is_digit c = false ->
                contains c Y = false /\ contains c M = false /\
                contains c D = false /\ contains c h = false /\
                contains c m = false /\ contains c s = false /\
                contains c oh = false /\ contains c om = false).
  { intros c Hc. repeat split; apply digits_contain; assumption. }
  destruct (N "+"%char eq_refl) as (PY & PM & PD & Ph & Pm & Ps & Poh & Pom).
  destruct (N "-"%char eq_refl) as (MY & MM & MD & Mh & Mm & Ms & Moh & Mom).
  destruct (N ":"%char eq_refl) as (CY & CM & CD & Ch & Cm & Cs & Coh & Com).
  destruct (N "T"%char eq_refl) as (TY & TM & TD & Th & Tm & Ts & Toh & Tom).
  assert (Sdt : split "T" dt = [date; time]).
  { unfold dt. apply split2.
    - unfold date. rewrite !contains_app. cbn [contains].
      rewrite !contains_app. cbn [contains]. rewrite TY, TM, TD. reflexivity.
    - unfold time. rewrite !contains_app. cbn [contains].
      rewrite !contains_app. cbn [contains]. rewrite Th, Tm, Ts. reflexivity. }
  assert (Sdate : split "-" date = [Y; M; D])
    by (unfold date; apply split3; assumption).
  assert (Stime : split ":" time = [h; m; s])
    by (unfold time; apply split3; assumption).
  assert (Stz : split ":" tz = [oh; om])
    by (unfold tz; apply split2; assumption).
  assert (Rest :
    (dtp <- unpack2 (split "T" dt) ;;
     let (date_part, time_part) := dtp in
     ymd <- (l <- map_int (split "-" date_part) ;; unpack3 l) ;;
     let '(year, month, day) := ymd in
     hms <- (l <- map_int (split ":" time_part) ;; unpack3 l) ;;
     let '(hour, minute, second) := hms in
     tzv <- (l <- map_int (split ":" tz) ;; unpack2 l) ;;
     let (tz_hours, tz_minutes) := tzv in
     let tz_offset_seconds :=
       Iso.sign_factor positive * (tz_hours * 3600 + tz_minutes * 60) in
     local_timestamp <- mktime year month day hour minute second ;;
     Ok (local_timestamp - tz_offset_seconds)) =
    (local <- mktime year month day hour minute second ;;
     Ok (local - Iso.sign_factor positive * (off_h * 3600 + off_m * 60)))).
  { rewrite Sdt. cbn [unpack2 bind]. rewrite Sdate, Stime, Stz.
    rewrite (map_int3 _ _ _ _ _ _ HY HM HD), (map_int3 _ _ _ _ _ _ Hh Hm Hs),
      (map_int2 _ _ _ _ Hoh Hom).
    reflexivity. }
  unfold TrainTimeParser.parse_iso8601_to_utc. rewrite E.
  destruct positive; cbn [Iso.sign_char Iso.sign_factor] in *.
  - assert (Hp : contains "+" (dt ++ String "+" tz) = true).
    { rewrite contains_app. cbn [contains]. rewrite Ascii.eqb_refl.
      cbn [orb]. apply orb_true_r. }
    rewrite Hp. unfold rsplit1. rewrite rcut_last.
    + cbn [unpack2 bind fst snd]. exact Rest.
    + unfold tz. rewrite contains_app. cbn [contains].
      rewrite Poh, Pom. reflexivity.
  - assert (Hp : contains "+" (dt ++ String "-" tz) = false).
    { unfold dt, date, time, tz. rewrite !contains_app. cbn [contains].
      rewrite !contains_app. cbn [contains]. rewrite !contains_app.
      cbn [contains].
      rewrite PY, PM, PD, Ph, Pm, Ps, Poh, Pom. reflexivity. }
    rewrite Hp. unfold rsplit1. rewrite rcut_last.
    + cbn [nth_str nth_error bind].
      assert (Hc : contains ":" tz = true).
      { unfold tz. rewrite contains_app. cbn [contains].
        rewrite Ascii.eqb_refl. cbn [orb]. apply orb_true_r. }
      rewrite Hc. exact Rest.
    + unfold tz. rewrite contains_app. cbn [contains].
      rewrite Moh, Mom. reflexivity.
Qed.

End Facts.

(** The theorem at a timestamp of the sample feed. *)
Lemma iso8601_well_formed_witness :
  TrainTimeParser.parse_iso8601_to_utc civil_mktime
    "2026-01-07T14:39:02-05:00" = Ok (Sample.now + 361).
Proof.
  refine (eq_trans
            (iso8601_well_formed civil_mktime "2026" "01" "07" "14" "39" "02"
               "05" "00" false 2026 1 7 14 39 2 5 0 _ _ _ _ _ _ _ _) _);
    reflexivity.
Defined.

End IsoFacts.

(** ** Malformed timestamps and readings *)

Module MalformedFacts.

Import PyStr PyStrFacts TrainTimeParser Errors.

Lemma raises_bind {A B : Type} (P : exn -> Prop) (m : result A)
    (k : A -> result B) :
  raises_in P m -> (forall a, raises_in P (k a)) -> raises_in P (bind m k).
Proof.
  intros Hm Hk e. destruct m as [a | e']; cbn [bind].
  - apply Hk.
  - intros [= <-]. apply Hm. reflexivity.
Qed.

Lemma raises_ok {A : Type} (P : exn -> Prop) (a : A) : raises_in P (Ok a).
Proof. intros e H. discriminate. Qed.

Lemma unpack2_raises {A : Type} (l : list A) :
  raises_in value_error (unpack2 l).
Proof.
  intros e. destruct l as [| a [| b [| c l]]]; cbn [unpack2];
    try discriminate; intros [= <-]; reflexivity.
Qed.

Lemma unpack3_raises {A : Type} (l : list A) :
  raises_in value_error (unpack3 l).
Proof.
  intros e. destruct l as [| a [| b [| c [| d l]]]]; cbn [unpack3];
    try discriminate; intros [= <-]; reflexivity.
Qed.

Lemma int_of_str_value_error (s : string) : raises_in value_error (int_of_str s).
Proof.
  intros e. unfold int_of_str. destruct (py_int s); [discriminate |].
  intros [= <-]. reflexivity.
Qed.

Lemma map_int_raises (l : list string) : raises_in value_error (map_int l).
Proof.
  induction l as [| s l IH]; cbn [map_int].
  - apply raises_ok.
  - apply raises_bind; [apply int_of_str_value_error |]. intros z.
    apply raises_bind; [exact IH |]. intros zs. apply raises_ok.
Qed.

Lemma unpack3_of {A : Type} (m : result (list A)) (a b c : A) :
  (l <- m ;; unpack3 l) = Ok (a, b, c) -> m = Ok [a; b; c].
Proof.
  destruct m as [[| x [| y [| z [| w l]]]] | e]; cbn [bind unpack3];
    try discriminate.
  intros [= -> -> ->]. reflexivity.
Qed.

Lemma unpack3_list {A : Type} (l : list A) (a b c : A) :
  unpack3 l = Ok (a, b, c) -> l = [a; b; c].
Proof.
  destruct l as [| x [| y [| z [| w l]]]]; cbn [unpack3]; try discriminate.
  intros [= -> -> ->]. reflexivity.
Qed.

Lemma ints_unpack3_raises (l : list string) :
  raises_in value_error (l <- map_int l ;; unpack3 l).
Proof.
  apply raises_bind; [apply map_int_raises | intros l'; apply unpack3_raises].
Qed.

Lemma ints_unpack2_raises (l : list string) :
  raises_in value_error (l <- map_int l ;; unpack2 l).
Proof.
  apply raises_bind; [apply map_int_raises | intros l'; apply unpack2_raises].
Qed.

Section Facts.

Variable mktime : mktime_t.
Variable float : float_t.

Local Abbreviation parse_iso8601_to_utc := (parse_iso8601_to_utc mktime).

(** Whatever the string, [parse_iso8601_to_utc] raises nothing but
    [ValueError], apart from what [time.mktime] raises on the six fields
    read from that string.  These fields and the offset depend on the string
    alone: with them the function is, for every [time.mktime], the call on
    the fields less the offset. *)
Theorem iso8601_raises_value_error (time_str : string) (e : exn) :
  parse_iso8601_to_utc time_str = Raise e ->
  e = ValueError \/
  exists year month day hour minute second tz_offset_seconds,
    (forall platform_mktime : mktime_t,
       TrainTimeParser.parse_iso8601_to_utc platform_mktime time_str =
       (local_timestamp <-
          platform_mktime year month day hour minute second ;;
        Ok (local_timestamp - tz_offset_seconds))) /\
    mktime year month day hour minute second = Raise e.
Proof.
  unfold TrainTimeParser.parse_iso8601_to_utc.
  match goal with
  | |- bind ?m _ = _ -> _ =>
      assert (R : raises_in value_error m);
        [| destruct m as [[[dt_part tz_part] tz_sign] | e0];
           cbn [bind];
           [clear R | intros [= <-]; left; exact (R e0 eq_refl)]]
  end.
  { destruct (contains "+" time_str).
    - apply raises_bind; [apply unpack2_raises | intros p; apply raises_ok].
    - unfold rsplit1. destruct (rcut "-" time_str) as [[a b] |];
        cbn [nth_str nth_error bind]; apply raises_ok. }
  pose proof (unpack2_raises (split "T" dt_part)) as R.
  destruct (unpack2 (split "T" dt_part)) as [[date_part time_part] | e0];
    cbn [bind]; [clear R | intros [= <-]; left; exact (R e0 eq_refl)].
  pose proof (ints_unpack3_raises (split "-" date_part)) as R.
  destruct (l <- map_int (split "-" date_part) ;; unpack3 l)
    as [[[year month] day] | e0];
    cbn [bind]; [clear R | intros [= <-]; left; exact (R e0 eq_refl)].
  pose proof (ints_unpack3_raises (split ":" time_part)) as R.
  destruct (l <- map_int (split ":" time_part) ;; unpack3 l)
    as [[[hour minute] second] | e0];
    cbn [bind]; [clear R | intros [= <-]; left; exact (R e0 eq_refl)].
  pose proof (ints_unpack2_raises (split ":" tz_part)) as R.
  destruct (l <- map_int (split ":" tz_part) ;; unpack2 l)
    as [[tz_hours tz_minutes] | e0];
    cbn [bind]; [clear R | intros [= <-]; left; exact (R e0 eq_refl)].
  intros H. right.
  exists year, month, day, hour, minute, second,
    (tz_sign * (tz_hours * 3600 + tz_minutes * 60)).
  split.
  - intros platform_mktime. reflexivity.
  - destruct (mktime year month day hour minute second) as [t | e0];
      cbn [bind] in H; [discriminate |].
    injection H as <-. reflexivity.
Qed.

(** A string without [+] and without [-] is never read as a timestamp:
    [parse_iso8601_to_utc] raises [ValueError] on it. *)
Theorem iso8601_needs_sign (time_str : string) :
  contains "+" time_str = false ->
  contains "-" time_str = false ->
  parse_iso8601_to_utc time_str = Raise ValueError.
Proof.
  intros Hp Hm. unfold TrainTimeParser.parse_iso8601_to_utc.
  rewrite Hp. unfold rsplit1. rewrite (rcut_absent "-" time_str Hm).
  cbn [nth_str nth_error bind].
  pose proof (split_pieces "-" "T" time_str Hm) as Hpieces.
  destruct (split "T" time_str) as [| date [| time [| x l]]];
    cbn [unpack2 bind]; try reflexivity.
  inversion Hpieces as [| ? ? Hdate _]; subst.
  rewrite (split_absent "-" date Hdate). cbn [map_int].
  destruct (int_of_str date) as [z |] eqn:E; cbn [bind unpack3].
  - reflexivity.
  - rewrite (int_of_str_value_error date e E). reflexivity.
Qed.

(** After the last [-], an offset written without colon (["-0500"]) is not
    read: the timestamp is taken as if its offset were [+00:00]. *)
Theorem iso8601_offset_without_colon (dt offset : string) :
  contains "+" dt = false ->
  contains "+" offset = false ->
  contains "-" offset = false ->
  contains ":" offset = false ->
  parse_iso8601_to_utc (dt ++ String "-" offset) =
  parse_iso8601_to_utc (dt ++ "+00:00").
Proof.
  intros Pdt Po Mo Co. unfold TrainTimeParser.parse_iso8601_to_utc.
  assert (H1 : contains "+" (dt ++ String "-" offset) = false).
  { rewrite contains_app. cbn [contains]. rewrite Pdt, Po. reflexivity. }
  assert (H2 : contains "+" (dt ++ "+00:00") = true).
  { rewrite contains_app. cbn [contains]. rewrite Ascii.eqb_refl.
    apply orb_true_r. }
  rewrite H1, H2. unfold rsplit1.
  rewrite (rcut_last "-" dt offset Mo).
  change (dt ++ "+00:00") with (dt ++ String "+" "00:00").
  rewrite (rcut_last "+" dt "00:00" eq_refl).
  cbn [nth_str nth_error unpack2 bind fst snd]. rewrite Co.
  destruct (unpack2 (split "T" dt)) as [[date_part time_part] |];
    cbn [bind]; [| reflexivity].
  destruct (l <- map_int (split "-" date_part) ;; unpack3 l)
    as [[[year month] day] |]; cbn [bind]; [| reflexivity].
  destruct (l <- map_int (split ":" time_part) ;; unpack3 l)
    as [[[hour minute] second] |]; cbn [bind]; [| reflexivity].
  change (l <- map_int (split ":" "00:00") ;; unpack2 l)
    with (@Ok (Z * Z) (0, 0)).
  cbn [bind]. reflexivity.
Qed.

End Facts.

(** The theorems at concrete strings. *)
Lemma iso8601_raises_value_error_witness :
  OverflowError = ValueError \/
  exists year month day hour minute second tz_offset_seconds,
    (forall platform_mktime : mktime_t,
       TrainTimeParser.parse_iso8601_to_utc platform_mktime
         "2040-01-07T14:33:01-05:00" =
       (local_timestamp <-
          platform_mktime year month day hour minute second ;;
        Ok (local_timestamp - tz_offset_seconds))) /\
    short_mktime year month day hour minute second = Raise OverflowError.
Proof.
  apply (iso8601_raises_value_error short_mktime
           "2040-01-07T14:33:01-05:00" OverflowError).
  vm_compute. reflexivity.
Defined.

Lemma iso8601_needs_sign_witness :
  TrainTimeParser.parse_iso8601_to_utc civil_mktime "20260107T193301Z"
  = Raise ValueError.
Proof.
  apply (iso8601_needs_sign civil_mktime "20260107T193301Z"); reflexivity.
Defined.

Lemma iso8601_offset_without_colon_witness :
  TrainTimeParser.parse_iso8601_to_utc civil_mktime "2026-01-07T14:33:01-0500"
  = TrainTimeParser.parse_iso8601_to_utc civil_mktime
      "2026-01-07T14:33:01+00:00".
Proof.
  apply (iso8601_offset_without_colon civil_mktime "2026-01-07T14:33:01"
           "0500"); reflexivity.
Defined.

End MalformedFacts.

(** ** More on the clock reading *)

Module ClockFacts.

Import PyStr PyStrFacts TrainTimeParser Errors MalformedFacts.

Section Facts.

Variable mktime : mktime_t.
Variable float : float_t.

Local Abbreviation get_current_time_utc := (get_current_time_utc mktime float).
Local Abbreviation parse_clock_string := (parse_clock_string mktime float).
Local Abbreviation local_time := (local_time mktime float).
Local Abbreviation int_of_float_str := (int_of_float_str float).

(** The offset of a token that starts with a sign and four digits. *)
Lemma tz_offset_digits (sign : ascii) (hh mm rest : string) (h m : Z) :
  digits_value hh = Some h -> digits_value mm = Some m ->
  String.length hh = 2%nat -> String.length mm = 2%nat ->
  tz_offset_seconds (String sign (hh ++ mm ++ rest)) =
  Ok ((if Ascii.eqb sign "+" then 1 else -1) * (h * 3600 + m * 60)).
Proof.
  intros Hh Hm Lh Lm. unfold tz_offset_seconds, slice. cbn [bind].
  change (3 - 1)%nat with 2%nat. change (5 - 3)%nat with 2%nat.
  assert (S1 : substring 1 2 (String sign (hh ++ mm ++ rest)) = hh).
  { cbn [substring]. rewrite <- Lh. apply substring_prefix. }
  assert (S2 : substring 3 2 (String sign (hh ++ mm ++ rest)) = mm).
  { cbn [substring]. rewrite <- Lh at 1. rewrite substring_skip.
    rewrite <- Lm. apply substring_prefix. }
  rewrite S1, S2, (int_of_digits hh h Hh), (int_of_digits mm m Hm).
  reflexivity.
Qed.

(** A string reading whose date and time tokens give the local epoch [t]
    and whose fifth token is a sign followed by two digits of hours and two
    of minutes gives [t] less the offset: with ["-0800"] it is
    [t + 28800].  A first character other than [+] counts as minus, and what
    follows the fifth character of the token is not read. *)
Theorem clock_offset_applied
    (s date_str time_str hh mm rest : string) (sign : ascii)
    (t h m host_time : Z) :
  nth_error (split_ws s) 0 = Some date_str ->
  nth_error (split_ws s) 1 = Some time_str ->
  local_time date_str time_str = Ok t ->
  nth_error (split_ws s) 4 = Some (String sign (hh ++ mm ++ rest)) ->
  digits_value hh = Some h -> digits_value mm = Some m ->
  String.length hh = 2%nat -> String.length mm = 2%nat ->
  get_current_time_utc (Ok (RStr s)) host_time =
  Ok (t - (if Ascii.eqb sign "+" then 1 else -1) * (h * 3600 + m * 60)).
Proof.
  intros Hd Ht Hl Htz Hh Hm Lh Lm.
  rewrite (TimeFacts.clock_string_result mktime float).
  unfold TrainTimeParser.parse_clock_string.
  rewrite (TimeFacts.nth_str_some _ _ _ Hd), (TimeFacts.nth_str_some _ _ _ Ht).
  cbn [bind].
  assert (Hlen : (4 < List.length (split_ws s))%nat).
  { apply nth_error_Some. rewrite Htz. discriminate. }
  destruct (Z.ltb_spec 4 (Z.of_nat (List.length (split_ws s)))); [| lia].
  rewrite (TimeFacts.nth_str_some _ _ _ Htz). cbn [bind]. rewrite Hl.
  cbn [bind]. rewrite (tz_offset_digits sign hh mm rest h m Hh Hm Lh Lm).
  reflexivity.
Qed.

Lemma tz_offset_value_or_index (tz : string) (e : exn) :
  tz_offset_seconds tz = Raise e -> e = ValueError \/ e = IndexError.
Proof.
  unfold tz_offset_seconds.
  destruct tz as [| c tz]; cbn [bind]; [intros [= <-]; right; reflexivity |].
  pose proof (int_of_str_value_error (slice 1 3 (String c tz))) as R1.
  destruct (int_of_str (slice 1 3 (String c tz))) as [h | e0]; cbn [bind];
    [| intros [= <-]; left; exact (R1 e0 eq_refl)].
  pose proof (int_of_str_value_error (slice 3 5 (String c tz))) as R2.
  destruct (int_of_str (slice 3 5 (String c tz))) as [m | e0]; cbn [bind];
    [discriminate | intros [= <-]; left; exact (R2 e0 eq_refl)].
Qed.

(** What leaves the conversion of the date and time tokens, lines 85-92:
    a [ValueError]; the [OverflowError] of seconds that are an infinite
    float; or what [time.mktime] raises on the fields read. *)
Lemma local_time_raises (date_str time_str : string) (e : exn) :
  local_time date_str time_str = Raise e ->
  e = ValueError \/
  exists year month day hour minute second_float h mi,
    map_int (split "-" date_str) = Ok [year; month; day] /\
    split ":" time_str = [hour; minute; second_float] /\
    int_of_str hour = Ok h /\ int_of_str minute = Ok mi /\
    ((float second_float = Some Inf /\ e = OverflowError) \/
     (exists sec,
        int_of_float_str second_float = Ok sec /\
        mktime year month day h mi sec = Raise e)).
Proof.
  unfold TrainTimeParser.local_time.
  pose proof (ints_unpack3_raises (split "-" date_str)) as R.
  destruct (l <- map_int (split "-" date_str) ;; unpack3 l)
    as [[[year month] day] | e0] eqn:Ed;
    cbn [bind]; [clear R | intros [= <-]; left; exact (R e0 eq_refl)].
  apply unpack3_of in Ed.
  pose proof (unpack3_raises (split ":" time_str)) as R.
  destruct (unpack3 (split ":" time_str))
    as [[[hour minute] second_float] | e0] eqn:Et;
    cbn [bind]; [clear R | intros [= <-]; left; exact (R e0 eq_refl)].
  apply unpack3_list in Et.
  pose proof (int_of_str_value_error hour) as R.
  destruct (int_of_str hour) as [h | e0] eqn:Eh;
    cbn [bind]; [clear R | intros [= <-]; left; exact (R e0 eq_refl)].
  pose proof (int_of_str_value_error minute) as R.
  destruct (int_of_str minute) as [mi | e0] eqn:Em;
    cbn [bind]; [clear R | intros [= <-]; left; exact (R e0 eq_refl)].
  destruct (int_of_float_str second_float) as [sec | e0] eqn:Es; cbn [bind].
  - intros H. right. exists year, month, day, hour, minute, second_float, h, mi.
    repeat (split; [assumption |]). right. exists sec. split; [exact Es | exact H].
  - intros [= <-]. unfold TrainTimeParser.int_of_float_str in Es.
    destruct (float second_float) as [[q | |] |] eqn:Ef; cbn [int_of_float] in Es.
    + discriminate.
    + injection Es as <-. right.
      exists year, month, day, hour, minute, second_float, h, mi.
      repeat (split; [assumption |]). left. split; [exact Ef | reflexivity].
    + injection Es as <-. left. reflexivity.
    + injection Es as <-. left. reflexivity.
Qed.

(** What leaves the body of the [try], lines 79-101: a [ValueError], an
    [IndexError], or what the conversion of the first two tokens raised. *)
Lemma parse_clock_string_raises (s : string) (e : exn) :
  parse_clock_string s = Raise e ->
  e = ValueError \/ e = IndexError \/
  exists date_str time_str,
    nth_error (split_ws s) 0 = Some date_str /\
    nth_error (split_ws s) 1 = Some time_str /\
    local_time date_str time_str = Raise e.
Proof.
  unfold TrainTimeParser.parse_clock_string, nth_str.
  destruct (nth_error (split_ws s) 0) as [date_str |] eqn:E0; cbn [bind];
    [| intros [= <-]; right; left; reflexivity].
  destruct (nth_error (split_ws s) 1) as [time_str |] eqn:E1; cbn [bind];
    [| intros [= <-]; right; left; reflexivity].
  match goal with
  | |- bind ?m _ = _ -> _ =>
      assert (R : forall e0, m = Raise e0 -> e0 = IndexError);
        [| destruct m as [tz | e0]; cbn [bind];
           [clear R | intros [= <-]; right; left; exact (R e0 eq_refl)]]
  end.
  { intros e0. destruct (4 <? _)%Z; [| discriminate].
    destruct (nth_error (split_ws s) 4); [discriminate |].
    intros [= <-]. reflexivity. }
  destruct (local_time date_str time_str) as [t | e0] eqn:El; cbn [bind].
  - destruct (tz_offset_seconds tz) as [off | e0] eqn:Eo; cbn [bind];
      [discriminate |].
    intros [= <-]. destruct (tz_offset_value_or_index tz e0 Eo) as [-> | ->];
      [left | right; left]; reflexivity.
  - intros [= <-]. right. right. exists date_str, time_str.
    repeat split; assumption.
Qed.

(** [get_current_time_utc] raises in three cases only.  The network read of
    the clock raised, and the exception is that one.  The reading is
    structured and [time.mktime] raised on its fields.  Or the reading is a
    string whose first token gives three integers and whose second token
    gives an hour, a minute and seconds, and either the seconds are an
    infinite float, which gives an [OverflowError], or [time.mktime] raised
    on these fields something other than a [ValueError] or an [IndexError];
    the handler of line 103 catches neither.  On every other reading the
    function returns an epoch. *)
Theorem clock_raises_only
    (clock : result clock_reading) (host_time : Z) (e : exn) :
  get_current_time_utc clock host_time = Raise e ->
  clock = Raise e \/
  (exists year month day hour minute second,
     clock = Ok (RStruct year month day hour minute second) /\
     mktime year month day hour minute second = Raise e) \/
  (exists s date_str time_str year month day hour minute second_float h mi,
     clock = Ok (RStr s) /\
     nth_error (split_ws s) 0 = Some date_str /\
     nth_error (split_ws s) 1 = Some time_str /\
     map_int (split "-" date_str) = Ok [year; month; day] /\
     split ":" time_str = [hour; minute; second_float] /\
     int_of_str hour = Ok h /\ int_of_str minute = Ok mi /\
     e <> ValueError /\ e <> IndexError /\
     ((float second_float = Some Inf /\ e = OverflowError) \/
      (exists sec,
         int_of_float_str second_float = Ok sec /\
         mktime year month day h mi sec = Raise e))).
Proof.
  unfold TrainTimeParser.get_current_time_utc.
  destruct clock as [reading | e']; cbn [bind];
    [| intros [= <-]; left; reflexivity].
  destruct reading as [epoch | y mo d h mi s | str |]; try discriminate.
  - intros H. right. left. exists y, mo, d, h, mi, s.
    split; [reflexivity | exact H].
  - destruct (parse_clock_string str) as [t | e0] eqn:Ep; [discriminate |].
    intros H.
    assert (K : e0 = e /\ e <> ValueError /\ e <> IndexError).
    { destruct e0; try discriminate H; injection H as <-;
        repeat split; discriminate. }
    destruct K as (-> & Nv & Ni). clear H.
    destruct (parse_clock_string_raises str e Ep)
      as [-> | [-> | (date_str & time_str & H0 & H1 & Hl)]];
      [contradiction | contradiction |].
    destruct (local_time_raises date_str time_str e Hl)
      as [-> | (year & month & day & hour & minute & sf & h & mi
                & Hd & Ht & Hh & Hm & Hc)];
      [contradiction |].
    right. right.
    exists str, date_str, time_str, year, month, day, hour, minute, sf, h, mi.
    repeat (split; [assumption || reflexivity |]). exact Hc.
Qed.

End Facts.

(** The theorems at the reading of the source's comment, and at a reading
    with infinite seconds. *)
Lemma clock_offset_applied_witness :
  TrainTimeParser.get_current_time_utc civil_mktime decimal_float
    (Ok (RStr "2026-01-07 12:07:30.065 007 3 -0800 PST")) 0
  = Ok (1767787650 + 28800).
Proof.
  refine (eq_trans
            (clock_offset_applied civil_mktime decimal_float
               "2026-01-07 12:07:30.065 007 3 -0800 PST"
               "2026-01-07" "12:07:30.065" "08" "00" "" "-"%char
               1767787650 8 0 0 _ _ _ _ _ _ _ _) _);
    reflexivity.
Defined.

Lemma clock_raises_only_witness :
  TrainTimeParser.get_current_time_utc civil_mktime decimal_float
    (Ok (RStr "2026-01-07 12:07:inf")) 0 = Raise OverflowError /\
  exists second_float,
    nth_error (split ":" "12:07:inf") 2 = Some second_float /\
    decimal_float second_float = Some Inf.
Proof.
  split; [vm_compute; reflexivity |].
  destruct (clock_raises_only civil_mktime decimal_float
              (Ok (RStr "2026-01-07 12:07:inf")) 0 OverflowError)
    as [H | [(y & mo & d & h & mi & s & H & _)
            | (s & date_str & time_str & y & mo & d & hour & minute & sf
               & h & mi & Hs & H0 & H1 & _ & Ht & _ & _ & _ & _ & Hc)]].
  - vm_compute. reflexivity.
  - discriminate H.
  - discriminate H.
  - injection Hs as <-. vm_compute in H1. injection H1 as <-.
    exists sf. rewrite Ht. split; [reflexivity |].
    destruct Hc as [[Hf _] | (sec & _ & Hk)]; [exact Hf | discriminate Hk].
Defined.

End ClockFacts.

(** ** The width of a scroll line *)

Module LayoutFacts.

Import Display Extent.

Lemma len_nonneg (s : string) : 0 <= PyStr.len s.
Proof. unfold PyStr.len. lia. Qed.

Lemma routes_extent_nonneg (data : list (string * string)) :
  0 <= routes_extent data.
Proof.
  induction data as [| [r t] rest IH]; cbn [routes_extent]; [lia |].
  pose proof (len_nonneg t). lia.
Qed.

Lemma layout_routes_extent (color : Z) (data : list (string * string)) :
  forall x,
  snd (layout_routes color x data) = x + routes_extent data /\
  Forall (fun it => x <= item_x it < x + routes_extent data)
    (fst (layout_routes color x data)).
Proof.
  induction data as [| [r t] rest IH]; intros x;
    cbn [layout_routes routes_extent].
  - split; [cbn; lia | constructor].
  - specialize (IH (x + 15 + (PyStr.len t * 6 + 6))).
    destruct (layout_routes color (x + 15 + (PyStr.len t * 6 + 6)) rest)
      as [more w].
    cbn [fst snd] in *. destruct IH as [Hw Hf].
    pose proof (len_nonneg t) as Ht.
    pose proof (routes_extent_nonneg rest) as Hr.
    split; [lia |].
    constructor; [cbn [item_x create_route_badge]; lia |].
    constructor; [cbn [item_x]; lia |].
    eapply Forall_impl; [| exact Hf]. cbn beta. intros it Hit. lia.
Qed.

(** The widths that [create_scrolling_display] returns are sums that can be
    read off the content: 48 (Uptown) or 60 (Downtown) for the label, 21
    plus 6 per character of its times for every route, and for the weather
    12 of gap plus 6 per character of the description (Uptown) or 6 per
    character of the temperature plus 4 for the degree mark plus 6 for the
    F (Downtown).  No element of a line starts before 0 or beyond the
    width of the line. *)
Theorem line_width_is_sum
    (data : list (string * string)) (weather : option weather_snapshot) :
  snd (north_line data weather) =
    48 + routes_extent data
    + match weather with
      | Some w => 12 + PyStr.len (description w) * 6
      | None => 0
      end /\
  snd (south_line data weather) =
    60 + routes_extent data
    + match weather with
      | Some w => 12 + PyStr.len (PyStr.str_of_Z (temp_f w)) * 6 + 4 + 6
      | None => 0
      end /\
  Forall (fun it => 0 <= item_x it <= snd (north_line data weather))
    (items (fst (north_line data weather))) /\
  Forall (fun it => 0 <= item_x it <= snd (south_line data weather))
    (items (fst (south_line data weather))).
Proof.
  unfold north_line, south_line.
  change (PyStr.len "Uptown: " * 6) with 48.
  change (PyStr.len "Downtown: " * 6) with 60.
  change (PyStr.len "F" * 6) with 6.
  destruct (layout_routes_extent 0xFF8C40 data 48) as [Wn Fn].
  destruct (layout_routes_extent 0x6BB6FF data 60) as [Ws Fs].
  destruct (layout_routes 0xFF8C40 48 data) as [nb nx].
  destruct (layout_routes 0x6BB6FF 60 data) as [sb sx].
  cbn [fst snd] in *. subst nx sx.
  pose proof (routes_extent_nonneg data) as Hr.
  destruct weather as [w |]; cbn [fst snd items].
  - pose proof (len_nonneg (description w)) as Hd.
    pose proof (len_nonneg (PyStr.str_of_Z (temp_f w))) as Ht.
    split; [lia |]. split; [lia |]. split.
    + constructor; [cbn [item_x]; lia |]. apply Forall_app. split.
      * eapply Forall_impl; [| exact Fn]. cbn beta. intros it Hit. lia.
      * constructor; [cbn [item_x]; lia | constructor].
    + constructor; [cbn [item_x]; lia |]. apply Forall_app. split.
      * eapply Forall_impl; [| exact Fs]. cbn beta. intros it Hit. lia.
      * repeat (constructor; [cbn [item_x]; lia |]). constructor.
  - split; [lia |]. split; [lia |]. split.
    + constructor; [cbn [item_x]; lia |].
      eapply Forall_impl; [| exact Fn]. cbn beta. intros it Hit. lia.
    + constructor; [cbn [item_x]; lia |].
      eapply Forall_impl; [| exact Fs]. cbn beta. intros it Hit. lia.
Qed.

End LayoutFacts.

(** ** The routes of [get_next_trains_by_route] *)

Module RoutesFacts.

Import Schedule Routes.

Lemma seen_in (r : string) (l : list string) : seen r l = true <-> In r l.
Proof.
  unfold seen. rewrite existsb_exists. split.
  - intros (x & Hx & E). apply String.eqb_eq in E. subst. exact Hx.
  - intros H. exists r. split; [exact H | apply String.eqb_refl].
Qed.

Lemma seen_get {V : Type} (r : string) (d : dict V) :
  seen r (keys d) = match dict_get r d with Some _ => true | None => false end.
Proof.
  destruct (dict_get r d) eqn:E.
  - apply seen_in, GroupingFacts.dict_get_in_keys. rewrite E. discriminate.
  - destruct (seen r (keys d)) eqn:S; [| reflexivity].
    apply seen_in, GroupingFacts.dict_get_in_keys in S. contradiction.
Qed.

Section Step.

(** A step that adds the route of a train as a key when it is new. *)
Variable note : dict next_trains -> train string -> dict next_trains.
Hypothesis note_keys :
  forall routes t,
    keys (note routes t) =
    if seen (route t) (keys routes) then keys routes
    else (keys routes ++ [route t])%list.

Lemma fold_note_keys (trains : list (train string)) :
  forall routes,
  keys (fold_left note trains routes) =
  fold_left (fun acc r => if seen r acc then acc else (acc ++ [r])%list)
    (map route trains) (keys routes).
Proof.
  induction trains as [| t rest IH]; intros routes; cbn [fold_left map].
  - reflexivity.
  - rewrite IH, note_keys. reflexivity.
Qed.

End Step.

Lemma ensure_get (r : string) (routes : dict next_trains) :
  exists e, dict_get r (ensure r routes) = Some e.
Proof.
  unfold ensure. destruct (dict_get r routes) as [e |] eqn:E.
  - exists e. exact E.
  - exists (mk_next None None). apply GroupingFacts.dict_get_set_same.
Qed.

Lemma ensure_keys (r : string) (routes : dict next_trains) :
  keys (ensure r routes) =
  if seen r (keys routes) then keys routes else (keys routes ++ [r])%list.
Proof.
  rewrite seen_get. unfold ensure.
  destruct (dict_get r routes) eqn:E; [reflexivity |].
  rewrite GroupingFacts.keys_set, E. reflexivity.
Qed.

Lemma set_present_keys (r : string) (e : next_trains)
    (routes : dict next_trains) :
  (exists e0, dict_get r routes = Some e0) ->
  keys (dict_set r e routes) = keys routes.
Proof.
  intros (e0 & E). rewrite GroupingFacts.keys_set, E. reflexivity.
Qed.

Lemma note_north_keys (routes : dict next_trains) (t : train string) :
  keys (note_north routes t) =
  if seen (route t) (keys routes) then keys routes
  else (keys routes ++ [route t])%list.
Proof.
  unfold note_north. rewrite <- ensure_keys.
  destruct (next_north (entry (route t) (ensure (route t) routes)));
    [reflexivity |].
  apply set_present_keys, ensure_get.
Qed.

Lemma note_south_keys (routes : dict next_trains) (t : train string) :
  keys (note_south routes t) =
  if seen (route t) (keys routes) then keys routes
  else (keys routes ++ [route t])%list.
Proof.
  unfold note_south. rewrite <- ensure_keys.
  destruct (next_south (entry (route t) (ensure (route t) routes)));
    [reflexivity |].
  apply set_present_keys, ensure_get.
Qed.

Lemma first_seen_from (l : list string) :
  forall acc,
  NoDup acc ->
  let out :=
    fold_left (fun acc r => if seen r acc then acc else (acc ++ [r])%list)
      l acc in
  NoDup out /\ forall r, In r out <-> In r acc \/ In r l.
Proof.
  induction l as [| x rest IH]; intros acc Hn; cbn [fold_left].
  - split; [exact Hn |]. intros r. split; [left; assumption |].
    intros [H | []]. exact H.
  - destruct (seen x acc) eqn:S.
    + destruct (IH acc Hn) as [N M]. split; [exact N |].
      intros r. rewrite (M r). cbn [In]. apply seen_in in S.
      split; [intros [H | H]; auto |].
      intros [H | [<- | H]]; auto.
    + assert (Hx : ~ In x acc).
      { intros H. apply seen_in in H. congruence. }
      assert (Hn' : NoDup (acc ++ [x])).
      { apply NoDup_app; repeat split.
        - exact Hn.
        - constructor; [intros [] | constructor].
        - intros k Hk [<- | []]. exact (Hx Hk). }
      destruct (IH (acc ++ [x])%list Hn') as [N M]. split; [exact N |].
      intros r. rewrite (M r), in_app_iff. cbn [In].
      split.
      * intros [[H | [<- | []]] | H]; auto.
      * intros [H | [<- | H]]; auto.
Qed.

(** The dict of [get_next_trains_by_route] has one key for every route of
    the schedule, and its keys come in the order in which the routes are
    first met, northbound trains before southbound ones - not in sorted
    order. *)
Theorem next_trains_keys (parsed_data : schedule string) :
  let routes := keys (get_next_trains_by_route parsed_data) in
  routes
    = first_seen (map route (northbound parsed_data ++ southbound parsed_data))
  /\ NoDup routes
  /\ forall r,
       In r routes <->
       exists t, In t (northbound parsed_data ++ southbound parsed_data)
                 /\ route t = r.
Proof.
  cbv zeta.
  assert (E : keys (get_next_trains_by_route parsed_data)
              = first_seen (map route (northbound parsed_data
                                       ++ southbound parsed_data))).
  { unfold get_next_trains_by_route, first_seen.
    rewrite (fold_note_keys note_south note_south_keys).
    rewrite (fold_note_keys note_north note_north_keys).
    rewrite map_app, fold_left_app. reflexivity. }
  rewrite E. split; [reflexivity |].
  destruct (first_seen_from
              (map route (northbound parsed_data ++ southbound parsed_data))
              [] (NoDup_nil _)) as [N M].
  split; [exact N |].
  intros r. unfold first_seen. rewrite (M r). cbn [In]. rewrite in_map_iff.
  split.
  - intros [[] | (t & Ht & Hi)]. exists t. split; assumption.
  - intros (t & Hi & Ht). right. exists t. split; assumption.
Qed.

(** The theorem at a schedule with C and A northbound and E and C
    southbound. *)
Lemma next_trains_keys_witness :
  keys (get_next_trains_by_route
          (mk_schedule [mk_train "C" 6 ""; mk_train "A" 7 ""]
             [mk_train "E" 8 ""; mk_train "C" 9 ""]))
  = ["C"; "A"; "E"].
Proof.
  exact (proj1 (next_trains_keys
                  (mk_schedule [mk_train "C" 6 ""; mk_train "A" 7 ""]
                     [mk_train "E" 8 ""; mk_train "C" 9 ""]))).
Defined.

End RoutesFacts.

(** ** The capitalised description *)

Module CapitalFacts.

Import PyStr PyStrFacts Weather.

Lemma split_go_no_sep (sep : ascii) (s : string) :
  contains sep (fst (split_go sep s)) = false /\
  Forall (fun p => contains sep p = false) (snd (split_go sep s)).
Proof.
  induction s as [| c s IH]; cbn [split_go].
  - split; [reflexivity | constructor].
  - destruct IH as [I1 I2]. destruct (split_go sep s) as [tok rest].
    cbn [fst snd] in *. destruct (Ascii.eqb c sep) eqn:E; cbn [fst snd].
    + split; [reflexivity | constructor; assumption].
    + split; [cbn [contains]; rewrite E, I1; reflexivity | exact I2].
Qed.

(** The pieces of [s.split(sep)] do not hold the separator. *)
Lemma split_no_sep (sep : ascii) (s : string) :
  Forall (fun p => contains sep p = false) (split sep s).
Proof.
  unfold split. destruct (split_go_no_sep sep s) as [I1 I2].
  destruct (split_go sep s). constructor; assumption.
Qed.

(** Joining words without blank and splitting again gives the words. *)
Lemma split_join (ws : list string) :
  Forall (fun w => contains " " w = false) ws -> ws <> [] ->
  split " " (join " " ws) = ws.
Proof.
  induction ws as [| x rest IH]; intros Hf Hne; [contradiction |].
  inversion Hf as [| ? ? Hx Hrest]; subst.
  destruct rest as [| y rest'].
  - cbn [join]. apply split_absent. exact Hx.
  - change (join " " (x :: y :: rest'))
      with (x ++ String " " (join " " (y :: rest'))).
    rewrite split_first by exact Hx. rewrite IH; [reflexivity | exact Hrest |].
    discriminate.
Qed.

Lemma upper_upper (c : ascii) : upper_char (upper_char c) = upper_char c.
Proof. destruct c as [[] [] [] [] [] [] [] []]; reflexivity. Qed.

Lemma lower_lower (c : ascii) : lower_char (lower_char c) = lower_char c.
Proof. destruct c as [[] [] [] [] [] [] [] []]; reflexivity. Qed.

Lemma upper_blank (c : ascii) :
  Ascii.eqb (upper_char c) " " = Ascii.eqb c " ".
Proof. destruct c as [[] [] [] [] [] [] [] []]; reflexivity. Qed.

Lemma lower_blank (c : ascii) :
  Ascii.eqb (lower_char c) " " = Ascii.eqb c " ".
Proof. destruct c as [[] [] [] [] [] [] [] []]; reflexivity. Qed.

Lemma capitalize_word_eq (c : ascii) (rest : string) :
  capitalize_word (String c rest) =
  String (upper_char c) (map_chars lower_char rest).
Proof.
  unfold capitalize_word, PyStr.len. destruct rest as [| c' rest'].
  - reflexivity.
  - destruct (Z.ltb_spec 1 (Z.of_nat (String.length (String c (String c' rest')))))
      as [_ | H]; [reflexivity |].
    cbn [String.length] in H. lia.
Qed.

Lemma lower_map_twice (s : string) :
  map_chars lower_char (map_chars lower_char s) = map_chars lower_char s.
Proof.
  induction s as [| c s IH]; cbn [map_chars]; [reflexivity |].
  rewrite lower_lower, IH. reflexivity.
Qed.

Lemma lower_map_blank (s : string) :
  contains " " (map_chars lower_char s) = contains " " s.
Proof.
  induction s as [| c s IH]; cbn [map_chars contains]; [reflexivity |].
  rewrite lower_blank, IH. reflexivity.
Qed.

Lemma capitalize_word_twice (w : string) :
  capitalize_word (capitalize_word w) = capitalize_word w.
Proof.
  destruct w as [| c rest]; [reflexivity |].
  rewrite !capitalize_word_eq, upper_upper, lower_map_twice. reflexivity.
Qed.

Lemma capitalize_word_keeps (w : string) :
  nonempty w = true -> contains " " w = false ->
  nonempty (capitalize_word w) = true /\
  contains " " (capitalize_word w) = false.
Proof.
  destruct w as [| c rest]; [discriminate |]. intros _ H.
  rewrite capitalize_word_eq. split; [reflexivity |].
  cbn [contains] in *. rewrite upper_blank, lower_map_blank. exact H.
Qed.

Lemma words_of (s : string) :
  Forall (fun w => nonempty w = true /\ contains " " w = false)
    (map capitalize_word (filter nonempty (split " " s))).
Proof.
  apply Forall_map, Forall_forall. intros w Hw.
  apply filter_In in Hw. destruct Hw as [Hin Hne].
  apply capitalize_word_keeps; [exact Hne |].
  exact (proj1 (Forall_forall _ _) (split_no_sep " " s) w Hin).
Qed.

Lemma filter_all (ws : list string) :
  Forall (fun w => nonempty w = true) ws -> filter nonempty ws = ws.
Proof.
  induction 1 as [| w ws Hw _ IH]; cbn [filter]; [reflexivity |].
  rewrite Hw, IH. reflexivity.
Qed.

(** For a description of ASCII characters, what [fetch_weather_data] builds
    of it is in a normal form: capitalising it again changes nothing, and
    unless it is empty its words between single blanks are all non-empty, so
    that it neither starts nor ends with a blank and has no two blanks in a
    row, however the blanks of the payload were placed.  (Outside ASCII a
    letter can have an upper case of two letters, and capitalising twice
    then differs from capitalising once.) *)
Theorem capitalize_words_normal (description : string) :
  Charset.is_ascii description = true ->
  let shown := capitalize_words description in
  capitalize_words shown = shown /\
  (shown = "" \/ Forall (fun w => nonempty w = true) (split " " shown)).
Proof.
  intros _. cbv zeta.
  pose proof (words_of description) as W.
  set (ws := map capitalize_word (filter nonempty (split " " description)))
    in *.
  assert (Hs : capitalize_words description = join " " ws) by reflexivity.
  assert (Hc : map capitalize_word ws = ws).
  { unfold ws. rewrite map_map. apply map_ext. intros w.
    apply capitalize_word_twice. }
  rewrite Hs. clear Hs. clearbody ws.
  destruct ws as [| x rest].
  - split; [reflexivity | left; reflexivity].
  - assert (Hb : Forall (fun w => contains " " w = false) (x :: rest)).
    { eapply Forall_impl; [| exact W]. cbn beta. intros w H. exact (proj2 H). }
    assert (Hn : Forall (fun w => nonempty w = true) (x :: rest)).
    { eapply Forall_impl; [| exact W]. cbn beta. intros w H. exact (proj1 H). }
    assert (S : split " " (join " " (x :: rest)) = x :: rest)
      by (apply split_join; [exact Hb | discriminate]).
    split.
    + unfold capitalize_words. rewrite S, (filter_all _ Hn), Hc. reflexivity.
    + right. rewrite S. exact Hn.
Qed.

(** The theorem at a description with blanks before, between and after its
    words. *)
Lemma capitalize_words_normal_witness :
  capitalize_words (capitalize_words "  broken   clouds ")
  = capitalize_words "  broken   clouds ".
Proof.
  refine (proj1 (capitalize_words_normal "  broken   clouds " _)).
  reflexivity.
Defined.

End CapitalFacts.
